(** * The sign-up router machine

    A shallow embedding of
    [packages/elements/src/internals/machines/sign-up/router.machine.ts]:
    the guards and actions registered with [setup], the transition tables
    of [createMachine], and the part of the statechart semantics they are
    read with.

    - A guard is a function of the context and the event that returns a
      boolean or throws; [and], [or] and [not] combine guards.
    - An action turns a context and an event into the next context and the
      list of effects it has on the collaborators (the form store, the
      navigation adapter, the identity client, the third-party machine, the
      queue of raised events), in order.
    - A node declares ordered lists of transitions; the first one whose
      guard holds is taken, and the active atomic node is asked before its
      ancestors.
    - A microstep runs the exit actions of the nodes it leaves, the actions
      of the transition, and the entry actions of the nodes it enters.  What
      the actions call is done while they run; what [sendTo] hands over is
      delivered once the actions have run.
    - The machine keeps its spawned children beside the context; [sendTo]
      with the id of a child that does not exist throws.

    The model stops at the microstep: the queue of raised events, the
    invoked actors and the timers are effects and events here, not
    processes.  Resources are values: a context holds the resource it was
    assigned. *)

From Stdlib Require Import Ascii String List ZArith Bool Lia DecimalString
  Permutation.
Import ListNotations.
Local Open Scope string_scope.

(** ** JavaScript values *)

(** A value of type [string | null | undefined]: [None] is the absent value. *)
Definition jsstring := option string.

(** [Boolean(v)] for such a value: the empty string is falsy as well. *)
Definition truthy (v : jsstring) : bool :=
  match v with
  | Some s => negb (String.eqb s "")
  | None => false
  end.

(** [a || b] *)
Definition js_or (a b : jsstring) : jsstring :=
  if truthy a then a else b.

(** [a === b] where [b] is a string literal *)
Definition strict_eq (a : jsstring) (b : string) : bool :=
  match a with
  | Some s => String.eqb s b
  | None => false
  end.

(** [xs.includes(x)] *)
Definition includes (xs : list string) (x : string) : bool :=
  existsb (String.eqb x) xs.

(** A JS [Map] keyed by strings, in insertion order. *)
Module JsMap.
Definition t (V : Type) := list (string * V).

Fixpoint get {V} (m : t V) (k : string) : option V :=
  match m with
  | [] => None
  | (k', v) :: m' => if String.eqb k' k then Some v else get m' k
  end.

Definition has {V} (m : t V) (k : string) : bool :=
  match get m k with Some _ => true | None => false end.

(** [m.set(k, v)]: an existing key keeps its place. *)
Fixpoint set {V} (m : t V) (k : string) (v : V) : t V :=
  match m with
  | [] => [(k, v)]
  | (k', v') :: m' =>
      if String.eqb k' k then (k, v) :: m' else (k', v') :: set m' k v
  end.
End JsMap.

(** [URLSearchParams]: the pairs of the query string in order; [get] returns
    the first value under a name, or null. *)
Module URLSearchParams.
Definition t := list (string * string).

Fixpoint get (sp : t) (name : string) : jsstring :=
  match sp with
  | [] => None
  | (n, v) :: sp' => if String.eqb n name then Some v else get sp' name
  end.
End URLSearchParams.

(** ** Exceptions

    A guard or an action may throw (a property read on [undefined], a failed
    assertion on the event, a message for a child that does not exist); the
    machine then stops in its error status. *)

Inductive result (A : Type) : Type :=
| Ok (a : A)
| Throw (msg : string).
Arguments Ok {A} a.
Arguments Throw {A} msg.

Definition bind {A B} (r : result A) (k : A -> result B) : result B :=
  match r with
  | Ok a => k a
  | Throw m => Throw m
  end.

Notation "x <- r ;; k" := (bind r (fun x => k))
  (at level 61, r at next level, right associativity).

(** ** Data model *)

(** [SignUpResource]: the fields the machine reads.  [ownProps] lists the
    properties found by [key in signUp] together with their values. *)
Record SignUpResource := {
  status : jsstring;
  missingFields : list string;
  unverifiedFields : list string;
  optionalFields : list string;
  requiredFields : list string;
  createdSessionId : jsstring;
  ownProps : JsMap.t jsstring
}.

(** An error as it travels to the form store: a code and a message. *)
Record ErrorValue := {
  code : jsstring;
  longMessage : jsstring
}.

(** [new ClerkElementsError(code, message)] *)
Definition ClerkElementsError (c : jsstring) (message : jsstring) : ErrorValue :=
  {| code := c; longMessage := message |}.

Record UserSettings := {
  signUp_mode : string;
  attributes : option (JsMap.t (list string))
    (* attribute name to its [verifications] *)
}.

Record Environment := {
  authConfig_singleSessionMode : bool;
  userSettings : UserSettings;
  displayConfig_signUpUrl : string
}.

Record Client := {
  signUp : SignUpResource;
  signIn_firstFactorVerification_error : option ErrorValue;
  lastActiveSessionId : jsstring
}.

Record Clerk := {
  user : option string;
  client : Client;
  __unstable__environment : option Environment;
  buildAfterSignUpUrl : string;
  buildSignInUrl : string
}.

(** The navigation adapter as the machine reads it at one instant;
    [push] and [shallowPush] are effects (below). *)
Record Router := {
  basePath : string;
  mode : string;
  pathname : string;
  match_ : string -> bool;
  searchParams : URLSearchParams.t
}.

(** The form store: [formRef.getSnapshot().context.fields], name to value. *)
Record FormRef := {
  fields : JsMap.t jsstring
}.

Record Loading := {
  isLoading : bool;
  step : jsstring;
  strategy : jsstring;
  action : jsstring
}.

(** [SignUpRouterContext].  The machine starts from [{}]: [resource],
    [resendableAfter] and [error] are undefined until an action assigns them.

    [children] is not a property of the context object: it is the part of
    the snapshot of the machine that travels with the context, the ids of
    the child actors the machine has spawned ([snapshot.children]).  The
    entry of [Init] reads it through [self.getSnapshot()], and [sendTo]
    with an id looks the id up in it.  The actors of the [invoke] entries
    live only while their node is active and have ids of their own
    ([startAttempt], [prepareEmailLinkVerification], ...): they are not
    listed. *)
Record Context := {
  clerk : Clerk;
  router : option Router;
  signInPath : string;
  loading : Loading;
  exampleMode : bool;
  formRef : FormRef;
  ticket : jsstring;
  resource : option SignUpResource;
  resendable : bool;
  resendableAfter : option Z;
  error : option ErrorValue;
  children : list string
}.

(** ** State nodes, events and effects *)

(** The state nodes of [createMachine], named by their path. *)
Inductive StateId :=
| Root
| Idle
| Init
| Start | Start_Init | Start_Pending | Start_Attempting | Start_AttemptingWeb3
| Continue | Continue_Pending | Continue_Attempting
| Verification | Verification_Init
| EmailLink | EmailLink_Preparing | EmailLink_Pending | EmailLink_Attempting
| EmailLink_Attempting_Resendable | EmailLink_Attempting_NotResendable
| EmailCode | EmailCode_Preparing | EmailCode_Pending
| EmailCode_Pending_Resendable | EmailCode_Pending_NotResendable
| EmailCode_Attempting
| PhoneCode | PhoneCode_Preparing | PhoneCode_Pending
| PhoneCode_Pending_Resendable | PhoneCode_Pending_NotResendable
| PhoneCode_Attempting
| Callback
| Restricted
| Error
| Hist.

Scheme Equality for StateId.

(** The events of the machine.  [done_actor id output] and
    [error_actor id error] are what an invoked actor reports
    ([xstate.done.actor.id], [xstate.error.actor.id]); [after_ delay node] is
    the delayed event of an [after] entry of [node]. *)
Inductive Event :=
| INIT (clerk_ : Clerk) (router_ : option Router) (signInPath_ : jsstring)
       (exampleMode_ : option bool) (formRef_ : FormRef)
| RESET
| RESET_STEP
| SUBMIT
| RETRY
| NEXT (resource_ : option SignUpResource)
| NAVIGATE_PREVIOUS
| NAVIGATE_START
| AUTHENTICATE_OAUTH (strategy_ : string)
| AUTHENTICATE_SAML
| AUTHENTICATE_WEB3 (strategy_ : string)
| FORM_ATTACH (formRef_ : FormRef)
| LOADING (loading_ : Loading)
| EMAIL_LINK_RESTART
| EMAIL_LINK_FAILED (error_ : ErrorValue) (resource_ : SignUpResource)
| EMAIL_LINK_other (suffix : string) (resource_ : SignUpResource)
| done_actor (id : string) (output : SignUpResource)
| error_actor (id : string) (error_ : ErrorValue)
| after_ (delay : string) (node : StateId).

(** What follows [EMAIL_LINK.] in the type of an event of the email link;
    the empty string for the other events.  [EMAIL_LINK_other suffix r] is an
    event of type [EMAIL_LINK.suffix] whose one property is the resource. *)
Definition email_link_type (ev : Event) : string :=
  match ev with
  | EMAIL_LINK_RESTART => "RESTART"
  | EMAIL_LINK_FAILED _ _ => "FAILED"
  | EMAIL_LINK_other suffix _ => suffix
  | _ => ""
  end.

(** [(event as SignUpRouterNextEvent)?.resource]: the [resource] property of
    whatever event is at hand. *)
Definition event_resource (ev : Event) : option SignUpResource :=
  match ev with
  | NEXT r => r
  | EMAIL_LINK_FAILED _ r => Some r
  | EMAIL_LINK_other _ r => Some r
  | _ => None
  end.

(** Events the form store accepts. *)
Inductive FormEvent :=
| ERRORS_CLEAR
| ERRORS_SET (error_ : ErrorValue)
| MARK_AS_PROGRESSIVE (missing optional required : list string)
                      (defaultValues : JsMap.t jsstring)
| UNMARK_AS_PROGRESSIVE
| PREFILL_DEFAULT_VALUES (defaultValues : JsMap.t jsstring)
| FIELD_DISABLE (name : string).

(** Events the third-party machine accepts. *)
Inductive ThirdPartyEvent :=
| REDIRECT (strategy_ : string) (emailAddress : jsstring)
           (redirectUrl : string) (redirectUrlComplete : jsstring)
| CALLBACK.

(** What a step of the machine does to its collaborators, in order. *)
Inductive Effect :=
| Router_push (path : jsstring)
| Router_shallowPush (path : string)
| Clerk_setActive (session : jsstring) (beforeEmit_push : option jsstring)
    (* [beforeEmit] pushes that path when a router is attached *)
| Form_send (to : FormRef) (ev : FormEvent)
| ThirdParty_send (ev : ThirdPartyEvent)
| Actor_send (id : string) (ev : Event)
| Raise (ev : Event) (delay : option Z)
| Spawn_child (id : string) (input_basePath : string) (input_formRef : FormRef)
| Console_log (msg : string)
| Console_error (msg : string).

(** An effect on the navigation adapter. *)
Definition is_navigation (e : Effect) : bool :=
  match e with
  | Router_push _ | Router_shallowPush _ => true
  | _ => false
  end.

(** An effect that activates a session. *)
Definition is_activation (e : Effect) : bool :=
  match e with
  | Clerk_setActive _ _ => true
  | _ => false
  end.

(** ** Actions

    An action of a transition is run by the interpreter against the current
    context and event; it yields the next context and the effects, or
    throws. *)
Definition Step := result (Context * list Effect).
Definition ActionImpl := Context -> Event -> Step.

(** The built-in action creators ([assign], [sendTo], [raise], [log]) return
    action objects; the interpreter runs the objects it finds in an action
    list.  Their meaning when run: *)
Definition assign (f : Context -> Event -> result Context) : ActionImpl :=
  fun c e => c' <- f c e ;; Ok (c', []).

Definition sendTo_form (to : Context -> FormRef)
    (ev : Context -> Event -> result FormEvent) : ActionImpl :=
  fun c e => m <- ev c e ;; Ok (c, [Form_send (to c) m]).

(** [snapshot.children[id]] is there. *)
Definition running (id : string) (c : Context) : bool :=
  existsb (String.eqb id) (children c).

(** [sendTo] with the id of a child looks the child up when the action is
    run and throws when there is none. *)
Definition no_such_actor (id : string) : string :=
  "Unable to send event to actor '" ++ id ++ "'".

Definition sendTo_thirdParty (id : string)
    (ev : Context -> Event -> ThirdPartyEvent) : ActionImpl :=
  fun c e =>
    if running id c then Ok (c, [ThirdParty_send (ev c e)])
    else Throw (no_such_actor id).

Definition sendTo_actor (id : string) : ActionImpl :=
  fun c e =>
    if running id c then Ok (c, [Actor_send id e])
    else Throw (no_such_actor id).

Definition raise (ev : Context -> Event -> result Event) (delay : option Z)
  : ActionImpl :=
  fun c e => r <- ev c e ;; Ok (c, [Raise r delay]).

Definition log (msg : Context -> string) : ActionImpl :=
  fun c _ => Ok (c, [Console_log (msg c)]).

(** A custom action is a plain function: the interpreter calls it and
    ignores what it returns.  Its body is a sequence of statements: a call
    that acts on a collaborator ([context.formRef.send(...)],
    [context.router.push(...)]), or an expression whose value is an action
    object ([sendTo(context.formRef, ...)] written as a statement).  The
    action creators are not imperative: nothing runs an object that was not
    handed to the interpreter in an action list or through [enqueue], so
    such an expression has no effect. *)
Inductive Stmt :=
| Call (e : Effect)
| Expr (object : ActionImpl).

Definition CustomAction (P : Type) := Context -> Event -> P -> list Stmt.

Fixpoint calls (body : list Stmt) : list Effect :=
  match body with
  | [] => []
  | Call e :: body' => e :: calls body'
  | Expr _ :: body' => calls body'
  end.

Definition custom {P} (f : CustomAction P) (params : P) : ActionImpl :=
  fun c e => Ok (c, calls (f c e params)).

(** ** Guards *)

Definition Guard := Context -> Event -> result bool.

Definition pure_guard (f : Context -> Event -> bool) : Guard :=
  fun c e => Ok (f c e).

(** [and([...])]: every guard holds, evaluated left to right. *)
Fixpoint g_and (gs : list Guard) : Guard :=
  fun c e =>
    match gs with
    | [] => Ok true
    | g :: gs' => b <- g c e ;; if b then g_and gs' c e else Ok false
    end.

(** [or([...])]: some guard holds, evaluated left to right. *)
Fixpoint g_or (gs : list Guard) : Guard :=
  fun c e =>
    match gs with
    | [] => Ok false
    | g :: gs' => b <- g c e ;; if b then Ok true else g_or gs' c e
    end.

(** [not(g)] *)
Definition g_not (g : Guard) : Guard :=
  fun c e => b <- g c e ;; Ok (negb b).

(** ** What the machine imports *)

(** [~/internals/constants] *)
Class Constants := {
  SEARCH_PARAMS_createdSession : string;
  SEARCH_PARAMS_invitationToken : string;
  SEARCH_PARAMS_status : string;
  SEARCH_PARAMS_ticket : string;
  SEARCH_PARAMS_transfer : string;
  SSO_CALLBACK_PATH_ROUTE : string;
  RESENDABLE_COUNTDOWN_DEFAULT : Z;
  ROUTING_virtual : string;
  SIGN_IN_DEFAULT_BASE_PATH : string;
  SIGN_UP_DEFAULT_BASE_PATH : string;
  SIGN_UP_MODES_RESTRICTED : string;
  ERROR_CODES_NOT_ALLOWED_TO_SIGN_UP : string;
  ERROR_CODES_OAUTH_ACCESS_DENIED : string;
  ERROR_CODES_NOT_ALLOWED_ACCESS : string;
  ERROR_CODES_SAML_USER_ATTRIBUTE_MISSING : string;
  ERROR_CODES_OAUTH_EMAIL_DOMAIN_RESERVED_BY_SAML : string;
  ERROR_CODES_USER_LOCKED : string
}.

(** [joinURL] of [@clerk/shared/url], [snakeToCamel] of
    [@clerk/shared/underscore], [shouldUseVirtualRouting] of
    [~/internals/machines/utils/next], which reads the globals of the page,
    the id of the third-party machine, and the two assertions of
    [../utils/assert]: [assertActorEventDone] returns the output of the
    event it lets through and [assertActorEventError] its error; either
    throws on an event it refuses. *)
Class Externals := {
  joinURL : string -> string -> string;
  snakeToCamel : string -> string;
  shouldUseVirtualRouting : unit -> bool;
  ThirdPartyMachineId : string;
  assertActorEventDone : Event -> result SignUpResource;
  assertActorEventError : Event -> result ErrorValue
}.

Section Machine.
Context {K : Constants} {X : Externals}.

Definition PREFILL_FIELDS : list string :=
  ["firstName"; "lastName"; "emailAddress"; "username"; "phoneNumber"].
Definition DISABLEABLE_FIELDS : list string :=
  ["emailAddress"; "phoneNumber"].

(** [context.router?.searchParams().get(name)] *)
Definition router_param (c : Context) (name : string) : jsstring :=
  match router c with
  | Some r => URLSearchParams.get (searchParams r) name
  | None => None
  end.

(** [context.router?.match(path) ?? false] *)
Definition isCurrentPath (path : string) : Guard :=
  pure_guard (fun c _ =>
    match router c with
    | Some r => match_ r path
    | None => false
    end).

Definition needsStatus (s : string) : Guard :=
  pure_guard (fun c e =>
    strict_eq (match event_resource e with
               | Some r => status r
               | None => None
               end) s
    || strict_eq (status (signUp (client (clerk c)))) s).

(** *** The guards of [setup] *)

Definition areFieldsMissing : Guard :=
  pure_guard (fun c _ =>
    (0 <? length (missingFields (signUp (client (clerk c)))))%nat).

Definition areFieldsUnverified : Guard :=
  pure_guard (fun c _ =>
    (0 <? length (unverifiedFields (signUp (client (clerk c)))))%nat).

Definition hasAuthenticatedViaClerkJS : Guard :=
  pure_guard (fun c _ =>
    match status (signUp (client (clerk c))) with
    | None => truthy (lastActiveSessionId (client (clerk c)))
    | Some _ => false
    end).

Definition hasCreatedSession : Guard :=
  pure_guard (fun c _ => truthy (router_param c SEARCH_PARAMS_createdSession)).

Definition hasClerkStatus (params : option string) : Guard :=
  pure_guard (fun c _ =>
    let value := router_param c SEARCH_PARAMS_status in
    match params with
    | None => truthy value
    | Some s => strict_eq value s
    end).

Definition hasClerkTransfer : Guard :=
  pure_guard (fun c _ => truthy (router_param c SEARCH_PARAMS_transfer)).

(** [Boolean(context.clerk.client.signUp)]: the client always holds a
    sign-up object. *)
Definition hasResource : Guard :=
  pure_guard (fun _ _ => true).

Definition hasTicket : Guard :=
  pure_guard (fun c _ => truthy (ticket c)).

Definition isResendable : Guard :=
  pure_guard (fun c _ =>
    resendable c
    || match resendableAfter c with
       | Some n => (n =? 0)%Z
       | None => false
       end).

Definition isStatusAbandoned : Guard := needsStatus "abandoned".

Definition isComplete : Guard :=
  pure_guard (fun c e =>
    let evtResource := event_resource e in
    let resource := resource c in
    let signUp := signUp (client (clerk c)) in
    let complete (r : option SignUpResource) :=
      match r with
      | Some r => strict_eq (status r) "complete" && truthy (createdSessionId r)
      | None => false
      end in
    complete resource || complete evtResource || complete (Some signUp)).

Definition isStatusMissingRequirements : Guard :=
  needsStatus "missing_requirements".

Definition isFieldUnverified (field : string) : Guard :=
  fun c e =>
    let resource := resource c in
    let resource :=
      match e with
      | NEXT (Some r) => Some r
      | _ => resource
      end in
    match resource with
    | Some r => Ok (includes (unverifiedFields r) field)
    | None => Throw "TypeError: reading unverifiedFields of undefined"
    end.

Definition isLoggedIn : Guard :=
  g_or [isComplete;
        pure_guard (fun c _ =>
          match user (clerk c) with Some _ => true | None => false end)].

Definition isSingleSessionMode : Guard :=
  pure_guard (fun c _ =>
    match __unstable__environment (clerk c) with
    | Some env => authConfig_singleSessionMode env
    | None => false
    end).

Definition isRestricted : Guard :=
  pure_guard (fun c _ =>
    match __unstable__environment (clerk c) with
    | Some env => String.eqb (signUp_mode (userSettings env))
                             SIGN_UP_MODES_RESTRICTED
    | None => false
    end).

Definition isRestrictedWithoutTicket : Guard :=
  g_and [isRestricted; g_not hasTicket].

Definition isExampleMode : Guard :=
  pure_guard (fun c _ => exampleMode c).

Definition isLoggedInAndSingleSession : Guard :=
  g_and [isLoggedIn; isSingleSessionMode; g_not isExampleMode].

Definition isMissingRequiredFields : Guard :=
  g_and [isStatusMissingRequirements; areFieldsMissing].

Definition isMissingRequiredUnverifiedFields : Guard :=
  g_and [isStatusMissingRequirements; areFieldsUnverified].

Definition isStrategyEnabled (attribute strategy_ : string) : Guard :=
  fun c _ =>
    match __unstable__environment (clerk c) with
    | None => Ok false
    | Some env =>
        match attributes (userSettings env) with
        | None => Ok false
        | Some attrs =>
            match JsMap.get attrs attribute with
            | Some verifications => Ok (includes verifications strategy_)
            | None => Throw "TypeError: reading verifications of undefined"
            end
        end
    end.

Definition statusNeedsIdentifier : Guard :=
  g_or [g_not hasResource; isStatusAbandoned].
Definition statusNeedsContinue : Guard :=
  g_or [isMissingRequiredFields].
Definition statusNeedsVerification : Guard :=
  g_or [isMissingRequiredUnverifiedFields;
        g_and [areFieldsMissing; hasClerkStatus None]].

Definition needsIdentifier : Guard :=
  g_or [statusNeedsIdentifier; isCurrentPath "/"].
Definition needsContinue : Guard :=
  g_and [statusNeedsContinue; isCurrentPath "/continue"].
Definition needsVerification : Guard :=
  g_and [statusNeedsVerification; isCurrentPath "/verify"].
Definition needsCallback : Guard :=
  isCurrentPath SSO_CALLBACK_PATH_ROUTE.

(** [shouldVerify(field, strategy?)]: the field is unverified and, when a
    strategy is given, the strategy is enabled for the attribute. *)
Definition shouldVerify (field : string) (strategy_ : option string) : Guard :=
  let guards := [isFieldUnverified field] in
  let guards :=
    match strategy_ with
    | Some s => (guards ++ [isStrategyEnabled field s])%list
    | None => guards
    end in
  g_and guards.

Definition shouldVerifyPhoneCode : Guard :=
  shouldVerify "phone_number" None.
Definition shouldVerifyEmailLink : Guard :=
  shouldVerify "email_address" (Some "email_link").
Definition shouldVerifyEmailCode : Guard :=
  shouldVerify "email_address" (Some "email_code").

(** *** Context updates used by [assign] *)

Definition set_resend (b : bool) (n : option Z) (c : Context) : Context :=
  {| clerk := clerk c; router := router c; signInPath := signInPath c;
     loading := loading c; exampleMode := exampleMode c;
     formRef := formRef c; ticket := ticket c; resource := resource c;
     resendable := b; resendableAfter := n; error := error c;
     children := children c |}.

Definition set_loading (l : Loading) (c : Context) : Context :=
  {| clerk := clerk c; router := router c; signInPath := signInPath c;
     loading := l; exampleMode := exampleMode c;
     formRef := formRef c; ticket := ticket c; resource := resource c;
     resendable := resendable c; resendableAfter := resendableAfter c;
     error := error c; children := children c |}.

Definition set_error (e : ErrorValue) (c : Context) : Context :=
  {| clerk := clerk c; router := router c; signInPath := signInPath c;
     loading := loading c; exampleMode := exampleMode c;
     formRef := formRef c; ticket := ticket c; resource := resource c;
     resendable := resendable c; resendableAfter := resendableAfter c;
     error := Some e; children := children c |}.

Definition set_resource (r : option SignUpResource) (c : Context) : Context :=
  {| clerk := clerk c; router := router c; signInPath := signInPath c;
     loading := loading c; exampleMode := exampleMode c;
     formRef := formRef c; ticket := ticket c; resource := r;
     resendable := resendable c; resendableAfter := resendableAfter c;
     error := error c; children := children c |}.

Definition set_children (ids : list string) (c : Context) : Context :=
  {| clerk := clerk c; router := router c; signInPath := signInPath c;
     loading := loading c; exampleMode := exampleMode c;
     formRef := formRef c; ticket := ticket c; resource := resource c;
     resendable := resendable c; resendableAfter := resendableAfter c;
     error := error c; children := ids |}.

Definition set_formRef (f : FormRef) (c : Context) : Context :=
  {| clerk := clerk c; router := router c; signInPath := signInPath c;
     loading := loading c; exampleMode := exampleMode c;
     formRef := f; ticket := ticket c; resource := resource c;
     resendable := resendable c; resendableAfter := resendableAfter c;
     error := error c; children := children c |}.

(** *** The actions of [setup] *)

Definition clearFormErrors : ActionImpl :=
  sendTo_form formRef (fun _ _ => Ok ERRORS_CLEAR).

Definition logUnknownError : CustomAction unit :=
  fun _ _ _ => [Call (Console_error "Unknown error:")].

Record NavigateInternalParams := {
  path : string;
  force : option bool
}.

Definition navigateInternal : CustomAction NavigateInternalParams :=
  fun context _ params =>
    let path := path params in
    let force := match force params with Some b => b | None => false end in
    match router context with
    | None => []
    | Some router_ =>
        if negb force && shouldUseVirtualRouting tt then []
        else if exampleMode context then []
        else
          let resolvedPath := joinURL (basePath router_) path in
          if String.eqb resolvedPath (pathname router_) then []
          else [Call (Router_shallowPush resolvedPath)]
    end.

Definition navigateExternal : CustomAction jsstring :=
  fun context _ path =>
    match router context with
    | Some _ => [Call (Router_push path)]
    | None => []
    end.

Definition raiseNext : ActionImpl :=
  raise (fun _ _ => Ok (NEXT None)) None.

Definition resendableTick : ActionImpl :=
  assign (fun context _ =>
    Ok (set_resend
          (match resendableAfter context with
           | Some n => (n =? 0)%Z
           | None => false
           end)
          (match resendableAfter context with
           | Some n => if (n >? 0)%Z then Some (n - 1)%Z else Some n
           | None => None
           end)
          context)).

Definition resendableReset : ActionImpl :=
  assign (fun context _ =>
    Ok (set_resend false (Some RESENDABLE_COUNTDOWN_DEFAULT) context)).

Record SetActiveParams := {
  sessionId : jsstring;
  useLastActiveSession : option bool
}.

(** [searchParams().get('redirect_url') || clerk.buildAfterSignUpUrl()] *)
Definition redirect_target (context : Context) : jsstring :=
  js_or (router_param context "redirect_url")
        (Some (buildAfterSignUpUrl (clerk context))).

Definition setActive : CustomAction (option SetActiveParams) :=
  fun context event params =>
    if exampleMode context then []
    else
      let session :=
        js_or (match params with Some p => sessionId p | None => None end)
          (js_or
             (match params with
              | Some p =>
                  match useLastActiveSession p with
                  | Some true => lastActiveSessionId (client (clerk context))
                  | _ => None
                  end
              | None => None
              end)
             (createdSessionId
                (match event_resource event with
                 | Some r => r
                 | None => signUp (client (clerk context))
                 end))) in
      let beforeEmit :=
        match router context with
        | Some _ => Some (redirect_target context)
        | None => None
        end in
      [Call (Clerk_setActive session beforeEmit)].

Definition delayedReset : ActionImpl :=
  raise (fun _ _ => Ok RESET) (Some 3000%Z).

Definition goToNextStep : ActionImpl :=
  raise (fun _ event =>
           output <- assertActorEventDone event ;; Ok (NEXT (Some output)))
        None.

(** The default values [markFormAsProgressive] and [setFormDefaultValues]
    collect: for each key in turn, [if (key in signUp) map.set(key,
    signUp[key])]. *)
Definition collect_values (signUp_ : SignUpResource) (keys : list string)
  : JsMap.t jsstring :=
  fold_left
    (fun m key =>
       match JsMap.get (ownProps signUp_) key with
       | Some v => JsMap.set m key v
       | None => m
       end)
    keys [].

Definition markFormAsProgressive : CustomAction unit :=
  fun context _ _ =>
    let signUp_ := signUp (client (clerk context)) in
    let missing := map snakeToCamel (missingFields signUp_) in
    let optional := map snakeToCamel (optionalFields signUp_) in
    let required := map snakeToCamel (requiredFields signUp_) in
    let progressiveFieldValues :=
      collect_values signUp_ (required ++ optional)%list in
    [Expr (sendTo_form (fun _ => formRef context)
             (fun _ _ => Ok (MARK_AS_PROGRESSIVE missing optional required
                               progressiveFieldValues)))].

Definition unmarkFormAsProgressive : CustomAction unit :=
  fun context _ _ => [Call (Form_send (formRef context) UNMARK_AS_PROGRESSIVE)].

Record LoadingBeginParams := {
  lb_step : jsstring;
  lb_strategy : jsstring;
  lb_action : jsstring
}.

Definition loadingBegin (params : LoadingBeginParams) : ActionImpl :=
  assign (fun context _ =>
    Ok (set_loading {| action := lb_action params; isLoading := true;
                       step := lb_step params;
                       strategy := lb_strategy params |} context)).

Definition loadingEnd : ActionImpl :=
  assign (fun context _ =>
    Ok (set_loading {| action := None; isLoading := false;
                       step := None; strategy := None |} context)).

(** [new ClerkElementsRuntimeError(message)] *)
Definition ClerkElementsRuntimeError (message : string) : ErrorValue :=
  {| code := Some "elements_runtime_error"; longMessage := Some message |}.

Definition setError (params : option ErrorValue) : ActionImpl :=
  assign (fun context _ =>
    Ok (set_error
          (match params with
           | Some e => e
           | None => ClerkElementsRuntimeError "Unknown error"
           end)
          context)).

Definition setFormDefaultValues : CustomAction unit :=
  fun context _ _ =>
    let signUp_ := signUp (client (clerk context)) in
    let prefilledDefaultValues := collect_values signUp_ PREFILL_FIELDS in
    [Call (Form_send (formRef context)
             (PREFILL_DEFAULT_VALUES prefilledDefaultValues))].

Definition setFormDisabledTicketFields : CustomAction unit :=
  fun context _ _ =>
    if negb (truthy (ticket context)) then []
    else
      let currentFields := fields (formRef context) in
      flat_map
        (fun name =>
           if JsMap.has currentFields name
           then [Expr (sendTo_form (fun _ => formRef context)
                         (fun _ _ => Ok (FIELD_DISABLE name)))]
           else [])
        DISABLEABLE_FIELDS.

Definition setFormErrors : ActionImpl :=
  sendTo_form formRef
    (fun _ event => e <- assertActorEventError event ;; Ok (ERRORS_SET e)).

Definition setFormOAuthErrors : CustomAction unit :=
  fun context _ _ =>
    let errorOrig := signIn_firstFactorVerification_error (client (clerk context)) in
    match errorOrig with
    | None => []
    | Some errorOrig =>
        let error_ :=
          if strict_eq (code errorOrig) ERROR_CODES_NOT_ALLOWED_TO_SIGN_UP
             || strict_eq (code errorOrig) ERROR_CODES_OAUTH_ACCESS_DENIED
             || strict_eq (code errorOrig) ERROR_CODES_NOT_ALLOWED_ACCESS
             || strict_eq (code errorOrig) ERROR_CODES_SAML_USER_ATTRIBUTE_MISSING
             || strict_eq (code errorOrig)
                  ERROR_CODES_OAUTH_EMAIL_DOMAIN_RESERVED_BY_SAML
             || strict_eq (code errorOrig) ERROR_CODES_USER_LOCKED
          then ClerkElementsError (code errorOrig) (longMessage errorOrig)
          else ClerkElementsError (Some "unable_to_complete")
                 (Some "Unable to complete action at this time. If the problem persists please contact support.") in
        [Call (Form_send (formRef context) (ERRORS_SET error_))]
    end.

Definition resetResource : ActionImpl :=
  assign (fun context _ =>
    Ok (set_resource (Some (signUp (client (clerk context)))) context)).

Definition setResource : ActionImpl :=
  assign (fun context event =>
    output <- assertActorEventDone event ;;
    Ok (set_resource (Some output) context)).

Definition transfer : CustomAction unit :=
  fun context _ _ =>
    match router context with
    | Some _ => [Call (Router_push (Some (buildSignInUrl (clerk context))))]
    | None => []
    end.

(** *** Inline actions of the transition tables *)

(** A template literal prints an undefined value as the word itself. *)
Definition js_template (v : jsstring) : string :=
  match v with
  | Some s => s
  | None => "undefined"
  end.

(** The [redirectUrl] of [AUTHENTICATE.OAUTH] and [AUTHENTICATE.SAML]. *)
Definition sso_redirectUrl (context : Context) : string :=
  js_template
    (match router context with
     | Some r =>
         if String.eqb (mode r) ROUTING_virtual
         then option_map displayConfig_signUpUrl
                (__unstable__environment (clerk context))
         else Some (basePath r)
     | None => None
     end)
  ++ SSO_CALLBACK_PATH_ROUTE.

Definition authenticate_oauth : ActionImpl :=
  sendTo_thirdParty ThirdPartyMachineId (fun context event =>
    REDIRECT
      (match event with AUTHENTICATE_OAUTH s => s | _ => "undefined" end)
      None
      (sso_redirectUrl context)
      (redirect_target context)).

Definition authenticate_saml : ActionImpl :=
  sendTo_thirdParty ThirdPartyMachineId (fun context _ =>
    REDIRECT "saml"
      (match JsMap.get (fields (formRef context)) "emailAddress" with
       | Some v => v
       | None => None
       end)
      (sso_redirectUrl context)
      (redirect_target context)).

Definition authenticate_web3 : ActionImpl := sendTo_actor "start".

(** [FORM.ATTACH]: [enqueue.assign({formRef})], then
    [enqueue.raise({type: 'RESET.STEP'})]. *)
Definition form_attach : ActionImpl :=
  fun context event =>
    match event with
    | FORM_ATTACH f => Ok (set_formRef f context, [Raise RESET_STEP None])
    | _ => Throw "FORM.ATTACH expected"
    end.

Definition loading_assign : ActionImpl :=
  assign (fun context event =>
    match event with
    | LOADING l => Ok (set_loading l context)
    | _ => Throw "LOADING expected"
    end).

(** The [assign] of [Idle.on.INIT].  The fields it does not list keep the
    value they had. *)
Definition idle_init : ActionImpl :=
  assign (fun context event =>
    match event with
    | INIT clerk_ router_ signInPath_ exampleMode_ formRef_ =>
        let searchParams_ := option_map searchParams router_ in
        let get name :=
          match searchParams_ with
          | Some sp => URLSearchParams.get sp name
          | None => None
          end in
        Ok {| clerk := clerk_;
              router := router_;
              signInPath :=
                (if truthy signInPath_ then js_template signInPath_
                 else SIGN_IN_DEFAULT_BASE_PATH);
              loading := {| isLoading := false; step := None;
                            strategy := None; action := None |};
              exampleMode :=
                (match exampleMode_ with Some b => b | None => false end);
              formRef := formRef_;
              ticket :=
                js_or (js_or (get SEARCH_PARAMS_ticket)
                              (get SEARCH_PARAMS_invitationToken))
                      None;
              resource := resource context;
              resendable := resendable context;
              resendableAfter := resendableAfter context;
              error := error context;
              children := children context |}
    | _ => Throw "INIT expected"
    end).

(** The entry of [Init]: spawn the third-party machine unless a child of
    that id is already there.  A spawned child stays until the machine
    stops; its input is the one it was spawned with. *)
Definition init_spawn : ActionImpl :=
  fun context _ =>
    if running ThirdPartyMachineId context then Ok (context, [])
    else
      Ok (set_children (ThirdPartyMachineId :: children context) context,
          [Spawn_child ThirdPartyMachineId
             (match router context with
              | Some r => basePath r
              | None => SIGN_UP_DEFAULT_BASE_PATH
              end)
             (formRef context)]).

(** The first action of the [hasCreatedSession] branch of [Verification]:
    a function that returns an object and does nothing else. *)
Definition verification_createdSession : CustomAction unit :=
  fun _ _ _ => [].

(** [assign({resource: ({event}) => event.resource})] *)
Definition email_link_failed_assign : ActionImpl :=
  assign (fun context event =>
    Ok (set_resource (event_resource event) context)).

(** [EMAIL_LINK.*]: nothing on [EMAIL_LINK.RESTART]; otherwise assign the
    resource of the event and raise [NEXT] with it. *)
Definition email_link_wildcard : ActionImpl :=
  fun context event =>
    if String.eqb (email_link_type event) "RESTART" then Ok (context, [])
    else
      let r := event_resource event in
      Ok (set_resource r context, [Raise (NEXT r) None]).

Definition email_link_timeout : ActionImpl :=
  sendTo_form formRef (fun _ _ =>
    Ok (ERRORS_SET (ClerkElementsError (Some "verify-email-link-timeout")
                      (Some "Email link verification timed out")))).

Definition show_number (n : option Z) : string :=
  match n with
  | Some z => NilZero.string_of_int (Z.to_int z)
  | None => "undefined"
  end.

Definition log_not_retriable : ActionImpl :=
  log (fun context =>
    "Not retriable; Try again in " ++ show_number (resendableAfter context)
    ++ "s").

Definition callback_notify : ActionImpl :=
  sendTo_thirdParty ThirdPartyMachineId (fun _ _ => CALLBACK).

(** *** Action lists

    An entry of an action list: a name of the registry with its params, or
    one of the inline actions above. *)
Inductive ActionRef :=
| A_clearFormErrors
| A_logUnknownError
| A_navigateInternal (params : NavigateInternalParams)
| A_navigateExternal (params : Context -> jsstring)
| A_raiseNext
| A_resendableTick
| A_resendableReset
| A_setActive (params : option SetActiveParams)
| A_delayedReset
| A_goToNextStep
| A_markFormAsProgressive
| A_unmarkFormAsProgressive
| A_loadingBegin (params : LoadingBeginParams)
| A_loadingEnd
| A_setError (params : option ErrorValue)
| A_setFormDefaultValues
| A_setFormDisabledTicketFields
| A_setFormErrors
| A_setFormOAuthErrors
| A_resetResource
| A_setResource
| A_transfer
| I_authenticate_oauth
| I_authenticate_saml
| I_authenticate_web3
| I_form_attach
| I_loading_assign
| I_idle_init
| I_init_spawn
| I_log (msg : string)
| I_verification_createdSession
| I_email_link_failed_assign
| I_email_link_wildcard
| I_email_link_timeout
| I_log_not_retriable
| I_callback_notify.

Definition exec (a : ActionRef) : ActionImpl :=
  match a with
  | A_clearFormErrors => clearFormErrors
  | A_logUnknownError => custom logUnknownError tt
  | A_navigateInternal params => custom navigateInternal params
  | A_navigateExternal params =>
      fun context event => custom navigateExternal (params context) context event
  | A_raiseNext => raiseNext
  | A_resendableTick => resendableTick
  | A_resendableReset => resendableReset
  | A_setActive params => custom setActive params
  | A_delayedReset => delayedReset
  | A_goToNextStep => goToNextStep
  | A_markFormAsProgressive => custom markFormAsProgressive tt
  | A_unmarkFormAsProgressive => custom unmarkFormAsProgressive tt
  | A_loadingBegin params => loadingBegin params
  | A_loadingEnd => loadingEnd
  | A_setError params => setError params
  | A_setFormDefaultValues => custom setFormDefaultValues tt
  | A_setFormDisabledTicketFields => custom setFormDisabledTicketFields tt
  | A_setFormErrors => setFormErrors
  | A_setFormOAuthErrors => custom setFormOAuthErrors tt
  | A_resetResource => resetResource
  | A_setResource => setResource
  | A_transfer => custom transfer tt
  | I_authenticate_oauth => authenticate_oauth
  | I_authenticate_saml => authenticate_saml
  | I_authenticate_web3 => authenticate_web3
  | I_form_attach => form_attach
  | I_loading_assign => loading_assign
  | I_idle_init => idle_init
  | I_init_spawn => init_spawn
  | I_log msg => log (fun _ => msg)
  | I_verification_createdSession => custom verification_createdSession tt
  | I_email_link_failed_assign => email_link_failed_assign
  | I_email_link_wildcard => email_link_wildcard
  | I_email_link_timeout => email_link_timeout
  | I_log_not_retriable => log_not_retriable
  | I_callback_notify => callback_notify
  end.

(** When the effects of an action reach their target.  A custom action
    calls its collaborators while it runs; [assign] and [log] take effect
    as they are run, and so does [raise] without a delay, which puts its
    event on the internal queue.  An action made with [sendTo] only queues
    its message, [raise] with a delay queues the start of its timer, and
    [spawnChild], which adds the child to the snapshot as it is run, queues
    the start of the child: the interpreter works through what was queued,
    in order, when the macrostep ends, hence after every action of the
    microstep has run. *)
Inductive Timing := Immediate | Deferred.

Definition timing (a : ActionRef) : Timing :=
  match a with
  | A_clearFormErrors | A_setFormErrors | A_delayedReset
  | I_authenticate_oauth | I_authenticate_saml | I_authenticate_web3
  | I_init_spawn | I_email_link_timeout | I_callback_notify => Deferred
  | _ => Immediate
  end.

(** An action list runs in order; each action sees the context the ones
    before it left.  The result keeps the effects that happened during the
    run apart from the messages queued for delivery. *)
Fixpoint run_all (acts : list ActionRef) (c : Context) (e : Event)
  : result (Context * (list Effect * list Effect)) :=
  match acts with
  | [] => Ok (c, ([], []))
  | a :: acts' =>
      r <- exec a c e ;;
      r' <- run_all acts' (fst r) e ;;
      Ok (fst r',
          match timing a with
          | Immediate => ((snd r ++ fst (snd r'))%list, snd (snd r'))
          | Deferred => (fst (snd r'), (snd r ++ snd (snd r'))%list)
          end)
  end.

(** The effects of an action list in the order they reach the
    collaborators: what happened during the run, then the queued
    messages. *)
Definition exec_all (acts : list ActionRef) (c : Context) (e : Event) : Step :=
  r <- run_all acts c e ;;
  Ok (fst r, (fst (snd r) ++ snd (snd r))%list).

(** ** The statechart *)

Record Transition := {
  guard : option Guard;
  actions : list ActionRef;
  target : option StateId;
  reenter : bool
}.

Definition go (g : option Guard) (acts : list ActionRef) (t : StateId)
  : Transition :=
  {| guard := g; actions := acts; target := Some t; reenter := false |}.
Definition go_reenter (g : option Guard) (acts : list ActionRef) (t : StateId)
  : Transition :=
  {| guard := g; actions := acts; target := Some t; reenter := true |}.
Definition stay (g : option Guard) (acts : list ActionRef) : Transition :=
  {| guard := g; actions := acts; target := None; reenter := false |}.

Definition nav (p : string) : ActionRef :=
  A_navigateInternal {| path := p; force := None |}.
Definition nav_forced (p : string) : ActionRef :=
  A_navigateInternal {| path := p; force := Some true |}.
Definition loading_step (s : string) : ActionRef :=
  A_loadingBegin {| lb_step := Some s; lb_strategy := None; lb_action := None |}.

Definition parent (n : StateId) : option StateId :=
  match n with
  | Root => None
  | Idle | Init | Start | Continue | Verification | Callback | Restricted
  | Error | Hist => Some Root
  | Start_Init | Start_Pending | Start_Attempting | Start_AttemptingWeb3 =>
      Some Start
  | Continue_Pending | Continue_Attempting => Some Continue
  | Verification_Init | EmailLink | EmailCode | PhoneCode => Some Verification
  | EmailLink_Preparing | EmailLink_Pending | EmailLink_Attempting =>
      Some EmailLink
  | EmailLink_Attempting_Resendable | EmailLink_Attempting_NotResendable =>
      Some EmailLink_Attempting
  | EmailCode_Preparing | EmailCode_Pending | EmailCode_Attempting =>
      Some EmailCode
  | EmailCode_Pending_Resendable | EmailCode_Pending_NotResendable =>
      Some EmailCode_Pending
  | PhoneCode_Preparing | PhoneCode_Pending | PhoneCode_Attempting =>
      Some PhoneCode
  | PhoneCode_Pending_Resendable | PhoneCode_Pending_NotResendable =>
      Some PhoneCode_Pending
  end.

Definition initial (n : StateId) : option StateId :=
  match n with
  | Root => Some Idle
  | Start => Some Start_Init
  | Continue => Some Continue_Pending
  | Verification => Some Verification_Init
  | EmailLink => Some EmailLink_Preparing
  | EmailLink_Attempting => Some EmailLink_Attempting_NotResendable
  | EmailCode => Some EmailCode_Preparing
  | EmailCode_Pending => Some EmailCode_Pending_NotResendable
  | PhoneCode => Some PhoneCode_Preparing
  | PhoneCode_Pending => Some PhoneCode_Pending_NotResendable
  | _ => None
  end.

Definition entry (n : StateId) : list ActionRef :=
  match n with
  | Init => [I_init_spawn]
  | Start => [A_setFormDefaultValues]
  | Start_Attempting | Start_AttemptingWeb3 => [loading_step "start"]
  | Continue => [A_markFormAsProgressive]
  | Continue_Attempting => [loading_step "continue"]
  | EmailCode_Attempting | PhoneCode_Attempting =>
      [loading_step "verifications"]
  | Callback => [I_callback_notify]
  | _ => []
  end.

Definition exit (n : StateId) : list ActionRef :=
  match n with
  | Start => [A_clearFormErrors]
  | Start_Attempting | Start_AttemptingWeb3 => [A_loadingEnd]
  | Continue => [A_unmarkFormAsProgressive]
  | Continue_Attempting => [A_loadingEnd]
  | EmailLink_Preparing | EmailCode_Preparing | PhoneCode_Preparing =>
      [A_resendableReset]
  | EmailCode_Attempting | PhoneCode_Attempting => [A_loadingEnd]
  | Hist => [A_clearFormErrors]
  | _ => []
  end.

(** The eventless transitions of a node, in the order of the source. *)
Definition always (n : StateId) : list Transition :=
  match n with
  | Init =>
      [ stay (Some isLoggedInAndSingleSession)
          [I_log "Already logged in"; A_navigateExternal redirect_target];
        go (Some needsCallback) [] Callback;
        go (Some hasTicket) [nav_forced "/"] Start;
        go (Some needsVerification) [nav_forced "/verify"] Verification;
        go (Some (g_or [needsContinue; hasClerkTransfer]))
          [nav_forced "/continue"] Continue;
        go (Some isRestrictedWithoutTicket) [] Restricted;
        go None [nav_forced "/"] Start ]
  | Start_Init =>
      [ go (Some hasTicket) [] Start_Attempting;
        go None [] Start_Pending ]
  | Verification =>
      [ stay (Some hasCreatedSession)
          [I_verification_createdSession; A_delayedReset];
        stay (Some (hasClerkStatus (Some "verified")))
          [nav_forced "/continue"];
        stay (Some (hasClerkStatus (Some "expired"))) [nav_forced "/"] ]
  | Verification_Init =>
      [ go (Some shouldVerifyPhoneCode) [] PhoneCode;
        go (Some shouldVerifyEmailLink) [] EmailLink;
        go (Some shouldVerifyEmailCode) [] EmailCode ]
  | _ => []
  end.

(** The countdown of a [NotResendable] node: its [after.resendableTimeout]. *)
Definition countdown (resendable_ notResendable : StateId) : list Transition :=
  [ go (Some isResendable) [A_resendableTick] resendable_;
    go_reenter None [A_resendableTick] notResendable ].

(** The transitions a node declares for an event ([on], the [onDone] and
    [onError] of its [invoke], and [after]), in the order of the source. *)
Definition transitions (n : StateId) (ev : Event) : list Transition :=
  match n, ev with
  | Root, AUTHENTICATE_OAUTH _ => [stay None [I_authenticate_oauth]]
  | Root, AUTHENTICATE_SAML => [stay None [I_authenticate_saml]]
  | Root, AUTHENTICATE_WEB3 _ => [stay None [I_authenticate_web3]]
  | Root, FORM_ATTACH _ => [stay None [I_form_attach]]
  | Root, NAVIGATE_PREVIOUS => [go None [] Hist]
  | Root, NAVIGATE_START => [go None [] Start]
  | Root, LOADING _ => [stay None [I_loading_assign]]
  | Root, RESET => [go None [] Idle]

  | Idle, INIT _ _ _ _ _ => [go None [I_idle_init] Init]

  | Start, RESET_STEP => [go_reenter None [] Start]
  | Start, NEXT _ =>
      [ stay (Some isComplete) [A_setActive None; A_delayedReset];
        go (Some (g_and [hasTicket; statusNeedsContinue])) [nav "/"] Start;
        go (Some statusNeedsVerification) [nav "/verify"] Verification;
        go (Some statusNeedsContinue) [nav "/continue"] Continue ]
  | Start_Pending, SUBMIT =>
      [go_reenter (Some (g_not isExampleMode)) [] Start_Attempting]
  | Start_Pending, AUTHENTICATE_WEB3 _ =>
      [go_reenter (Some (g_not isExampleMode)) [] Start_AttemptingWeb3]
  | Start_Attempting, done_actor id _ =>
      if String.eqb id "startAttempt" then
        [stay None [A_setResource; A_setFormDisabledTicketFields; A_goToNextStep]]
      else []
  | Start_Attempting, error_actor id _ =>
      if String.eqb id "startAttempt" then
        [go None [A_setFormDisabledTicketFields; A_setFormErrors] Start_Pending]
      else []
  | Start_AttemptingWeb3, done_actor id _ =>
      if String.eqb id "startAttemptWeb3" then
        [stay None [A_setResource; A_goToNextStep]]
      else []
  | Start_AttemptingWeb3, error_actor id _ =>
      if String.eqb id "startAttemptWeb3" then
        [go None [A_setFormErrors] Start_Pending]
      else []
  | Continue, RESET_STEP => [go_reenter None [] Continue]
  | Continue, NEXT _ =>
      [ stay (Some isComplete) [A_setActive None; A_delayedReset];
        go (Some statusNeedsVerification) [nav "/verify"] Verification ]
  | Continue_Pending, SUBMIT => [go_reenter None [] Continue_Attempting]
  | Continue_Attempting, done_actor id _ =>
      if String.eqb id "continueAttempt" then
        [stay None [A_setResource; A_goToNextStep]]
      else []
  | Continue_Attempting, error_actor id _ =>
      if String.eqb id "continueAttempt" then
        [go None [A_setFormErrors] Continue_Pending]
      else []
  | Verification, RESET_STEP => [go_reenter None [] Verification]
  | Verification, NEXT _ =>
      [ stay (Some isComplete) [A_setActive None; A_delayedReset];
        go (Some statusNeedsContinue) [nav "/continue"] Continue;
        go None [] Verification_Init ]

  | EmailLink, RETRY => [go None [] EmailLink_Preparing]
  | EmailLink, EMAIL_LINK_RESTART => [go_reenter None [] EmailLink_Attempting]
  | EmailLink, EMAIL_LINK_FAILED _ _ =>
      [go None [A_setFormErrors; I_email_link_failed_assign] EmailLink_Pending]
  | EmailLink, EMAIL_LINK_other suffix _ =>
      (* the exact descriptors come before the wildcard [EMAIL_LINK.*] *)
      if String.eqb suffix "RESTART" then
        [go_reenter None [] EmailLink_Attempting]
      else if String.eqb suffix "FAILED" then
        [go None [A_setFormErrors; I_email_link_failed_assign] EmailLink_Pending]
      else [stay None [I_email_link_wildcard]]
  | EmailLink_Preparing, done_actor id _ =>
      if String.eqb id "prepareEmailLinkVerification" then
        [go None [A_setResource] EmailLink_Attempting]
      else []
  | EmailLink_Preparing, error_actor id _ =>
      if String.eqb id "prepareEmailLinkVerification" then
        [go None [A_setFormErrors] EmailLink_Pending]
      else []
  | EmailLink_Pending, NEXT _ => [go None [] EmailLink_Preparing]
  | EmailLink_Attempting, after_ delay EmailLink_Attempting =>
      if String.eqb delay "emailLinkTimeout" then
        [go None [I_email_link_timeout] EmailLink_Pending]
      else []
  | EmailLink_Attempting_NotResendable, RETRY =>
      [stay None [I_log_not_retriable]]
  | EmailLink_Attempting_NotResendable,
    after_ delay EmailLink_Attempting_NotResendable =>
      if String.eqb delay "resendableTimeout" then
        countdown EmailLink_Attempting_Resendable
                  EmailLink_Attempting_NotResendable
      else []
  | EmailCode_Preparing, done_actor id _ =>
      if String.eqb id "prepareEmailAddressCodeVerification" then
        [ go (Some shouldVerifyEmailCode) [A_setResource] EmailCode_Pending;
          stay None [A_setResource; A_goToNextStep] ]
      else []
  | EmailCode_Preparing, error_actor id _ =>
      if String.eqb id "prepareEmailAddressCodeVerification" then
        [go None [A_setFormErrors] EmailCode_Pending]
      else []
  | EmailCode_Pending, RETRY => [go None [] EmailCode_Preparing]
  | EmailCode_Pending, SUBMIT => [go_reenter None [] EmailCode_Attempting]
  | EmailCode_Pending_NotResendable, RETRY => [stay None [I_log_not_retriable]]
  | EmailCode_Pending_NotResendable,
    after_ delay EmailCode_Pending_NotResendable =>
      if String.eqb delay "resendableTimeout" then
        countdown EmailCode_Pending_Resendable EmailCode_Pending_NotResendable
      else []
  | EmailCode_Attempting, done_actor id _ =>
      if String.eqb id "attemptEmailAddressCodeVerification" then
        [stay None [A_setResource; A_goToNextStep]]
      else []
  | EmailCode_Attempting, error_actor id _ =>
      if String.eqb id "attemptEmailAddressCodeVerification" then
        [go None [A_setFormErrors] EmailCode_Pending]
      else []
  | PhoneCode_Preparing, done_actor id _ =>
      if String.eqb id "preparePhoneCodeVerification" then
        [ go (Some shouldVerifyPhoneCode) [A_setResource] PhoneCode_Pending;
          stay None [A_setResource; A_goToNextStep] ]
      else []
  | PhoneCode_Preparing, error_actor id _ =>
      if String.eqb id "preparePhoneCodeVerification" then
        [go None [A_setFormErrors] PhoneCode_Pending]
      else []
  | PhoneCode_Pending, RETRY => [go None [] PhoneCode_Preparing]
  | PhoneCode_Pending, SUBMIT => [go_reenter None [] PhoneCode_Attempting]
  | PhoneCode_Pending_NotResendable, RETRY => [stay None [I_log_not_retriable]]
  | PhoneCode_Pending_NotResendable,
    after_ delay PhoneCode_Pending_NotResendable =>
      if String.eqb delay "resendableTimeout" then
        countdown PhoneCode_Pending_Resendable PhoneCode_Pending_NotResendable
      else []
  | PhoneCode_Attempting, done_actor id _ =>
      if String.eqb id "attemptPhoneNumberVerification" then
        [stay None [A_setResource; A_goToNextStep]]
      else []
  | PhoneCode_Attempting, error_actor id _ =>
      if String.eqb id "attemptPhoneNumberVerification" then
        [go None [A_setFormErrors] PhoneCode_Pending]
      else []
  | Callback, NEXT _ =>
      [ stay (Some isComplete) [A_setActive None; A_delayedReset];
        stay (Some hasAuthenticatedViaClerkJS)
          [A_setActive (Some {| sessionId := None;
                                useLastActiveSession := Some true |});
           A_delayedReset];
        go (Some statusNeedsVerification) [nav "/verify"] Verification;
        go (Some statusNeedsContinue) [nav "/continue"] Continue;
        go None [nav "/"] Start ]
  | Restricted, NEXT _ => [go None [] Start]
  | Error, NEXT _ => [go None [A_clearFormErrors] Start]
  | _, _ => []
  end.

(** ** Taking transitions *)

(** The first transition of an ordered list whose guard holds. *)
Fixpoint select (ts : list Transition) (c : Context) (e : Event)
  : result (option Transition) :=
  match ts with
  | [] => Ok None
  | t :: ts' =>
      b <- match guard t with
           | Some g => g c e
           | None => Ok true
           end ;;
      if b then Ok (Some t) else select ts' c e
  end.

(** A node followed by its ancestors, innermost first. *)
Fixpoint chain_from (depth : nat) (n : StateId) : list StateId :=
  match depth with
  | O => []
  | S d =>
      n :: match parent n with
           | Some p => chain_from d p
           | None => []
           end
  end.
Definition chain (n : StateId) : list StateId := chain_from 6 n.

Definition is_proper_descendant (n a : StateId) : bool :=
  existsb (StateId_beq a) (tl (chain n)).

(** The active atomic node is asked first, then its ancestors. *)
Fixpoint select_in (nodes : list StateId) (table : StateId -> list Transition)
    (c : Context) (e : Event) : result (option (StateId * Transition)) :=
  match nodes with
  | [] => Ok None
  | n :: nodes' =>
      r <- select (table n) c e ;;
      match r with
      | Some t => Ok (Some (n, t))
      | None => select_in nodes' table c e
      end
  end.

(** The domain of a transition of [src] to [tgt]: [src] itself when the
    transition does not reenter and stays inside [src]; otherwise the
    nearest proper ancestor of [tgt] that contains [src]. *)
Definition domain (src tgt : StateId) (reenter_ : bool) : StateId :=
  if negb reenter_ && (StateId_beq tgt src || is_proper_descendant tgt src)
  then src
  else
    match find (is_proper_descendant src) (tl (chain tgt)) with
    | Some a => a
    | None => Root
    end.

(** The nodes entered below [n] by default, outermost first. *)
Fixpoint descend (depth : nat) (n : StateId) : list StateId :=
  match depth with
  | O => []
  | S d =>
      match initial n with
      | Some i => i :: descend d i
      | None => []
      end
  end.

(** The nodes left, innermost first, and the nodes entered, outermost first,
    when transition [t] of node [src] to [tgt] is taken with [active] the
    active atomic node. *)
Definition exit_set (active src tgt : StateId) (reenter_ : bool)
  : list StateId :=
  filter (fun n => is_proper_descendant n (domain src tgt reenter_))
         (chain active).

Definition entry_set (src tgt : StateId) (reenter_ : bool) : list StateId :=
  let d := domain src tgt reenter_ in
  (rev (filter (fun n => is_proper_descendant n d) (tl (chain tgt)))
   ++ (if StateId_beq tgt src && StateId_beq src d && negb reenter_
       then [] else [tgt])
   ++ descend 6 tgt)%list.

(** [Hist] is a history node: it is never active, and a transition that
    targets it enters what the history of its parent recalls or, when
    nothing was recorded, the initial node of the parent.  The parent of
    [Hist] is the root, whose history would be recorded on leaving the root;
    the root is left only when the machine stops.  So [Hist] always stands
    for [Idle], and the exit action declared on [Hist] never runs. *)
Definition resolve (tgt : StateId) : StateId :=
  match tgt with
  | Hist => Idle
  | _ => tgt
  end.

(** One microstep: exit actions, the actions of the transition, entry
    actions.  The result is the active atomic node, the context and the
    effects. *)
Definition microstep (active src : StateId) (t : Transition)
    (c : Context) (e : Event) : result (StateId * Context * list Effect) :=
  match target t with
  | None =>
      r <- exec_all (actions t) c e ;;
      Ok (active, fst r, snd r)
  | Some tgt0 =>
      let tgt := resolve tgt0 in
      let exits := exit_set active src tgt (reenter t) in
      let entries := entry_set src tgt (reenter t) in
      r <- exec_all (flat_map exit exits ++ actions t
                     ++ flat_map entry entries)%list c e ;;
      Ok (last entries tgt, fst r, snd r)
  end.

(** [xstate.error.actor.*] *)
Definition is_error_actor (e : Event) : bool :=
  match e with
  | error_actor _ _ => true
  | _ => false
  end.

(** The step an event causes in the active atomic node [active].  An event
    no node handles leaves everything as it is, except the error of an
    actor: unhandled, it stops the machine with that error. *)
Definition on_event (active : StateId) (c : Context) (e : Event)
  : result (StateId * Context * list Effect) :=
  sel <- select_in (chain active) (fun n => transitions n e) c e ;;
  match sel with
  | Some (src, t) => microstep active src t c e
  | None =>
      if is_error_actor e then Throw "unhandled error of an actor"
      else Ok (active, c, [])
  end.

(** The eventless step of [active], if one is enabled; [e] is the event
    being processed. *)
Definition on_always (active : StateId) (c : Context) (e : Event)
  : result (option (StateId * Context * list Effect)) :=
  sel <- select_in (chain active) always c e ;;
  match sel with
  | Some (src, t) => r <- microstep active src t c e ;; Ok (Some r)
  | None => Ok None
  end.

End Machine.

(** ** Invoked actors

    A node with an [invoke] starts its actor when the node is entered, after
    the entry actions; the [input] function is given the context of that
    moment and the event that led into the node. *)

(** [MAGIC_LINK_VERIFY_PATH_ROUTE] of [~/internals/constants], which only
    the invocation of the email link reads. *)
Class LinkConstants := {
  MAGIC_LINK_VERIFY_PATH_ROUTE : string
}.

(** [StartAttemptParams]: [{}] has neither property. *)
Record StartAttemptParams := {
  sa_strategy : jsstring;
  sa_ticket : jsstring
}.

(** What the [input] functions return, one shape per actor logic. *)
Inductive ActorInput :=
| startAttempt_input (clerk_ : Clerk) (fields_ : JsMap.t jsstring)
    (params : option StartAttemptParams)
| startAttemptWeb3_input (clerk_ : Clerk) (strategy_ : string)
| verificationPrepare_input (clerk_ : Clerk) (strategy_ : string)
    (redirectUrl : jsstring)
| verificationAttempt_input (clerk_ : Clerk) (strategy_ : string)
    (code_ : string)
| verificationAttemptEmailLink_input (clerk_ : Clerk).

Record Invoke := {
  inv_id : string;
  inv_src : string;
  inv_input : Context -> Event -> result ActorInput
}.

Section Invocations.
Context {L : LinkConstants}.

(** [(context.formRef.getSnapshot().context.fields.get('code')?.value as
    string) || ''] *)
Definition form_code (context : Context) : string :=
  let value :=
    match JsMap.get (fields (formRef context)) "code" with
    | Some v => v
    | None => None
    end in
  match js_or value (Some "") with
  | Some s => s
  | None => ""
  end.

Definition invoke (n : StateId) : option Invoke :=
  match n with
  | Start_Attempting =>
      Some {| inv_id := "startAttempt"; inv_src := "startAttempt";
              inv_input := fun context _ =>
                let params :=
                  if truthy (ticket context)
                  then {| sa_strategy := Some "ticket";
                          sa_ticket := ticket context |}
                  else {| sa_strategy := None; sa_ticket := None |} in
                Ok (startAttempt_input (clerk context)
                      (fields (formRef context)) (Some params)) |}
  | Start_AttemptingWeb3 =>
      Some {| inv_id := "startAttemptWeb3"; inv_src := "startAttemptWeb3";
              inv_input := fun context event =>
                match event with
                | AUTHENTICATE_WEB3 s =>
                    Ok (startAttemptWeb3_input (clerk context) s)
                | _ => Throw "Expected event AUTHENTICATE.WEB3"
                end |}
  | Continue_Attempting =>
      Some {| inv_id := "continueAttempt"; inv_src := "startAttempt";
              inv_input := fun context _ =>
                Ok (startAttempt_input (clerk context)
                      (fields (formRef context)) None) |}
  | EmailLink_Preparing =>
      Some {| inv_id := "prepareEmailLinkVerification";
              inv_src := "verificationPrepare";
              inv_input := fun context _ =>
                Ok (verificationPrepare_input (clerk context) "email_link"
                      (Some (js_template (option_map basePath (router context))
                             ++ MAGIC_LINK_VERIFY_PATH_ROUTE))) |}
  | EmailLink_Attempting =>
      Some {| inv_id := "attemptEmailLinkVerification";
              inv_src := "verificationAttemptEmailLink";
              inv_input := fun context _ =>
                Ok (verificationAttemptEmailLink_input (clerk context)) |}
  | EmailCode_Preparing =>
      Some {| inv_id := "prepareEmailAddressCodeVerification";
              inv_src := "verificationPrepare";
              inv_input := fun context _ =>
                Ok (verificationPrepare_input (clerk context) "email_code"
                      None) |}
  | EmailCode_Attempting =>
      Some {| inv_id := "attemptEmailAddressCodeVerification";
              inv_src := "verificationAttempt";
              inv_input := fun context _ =>
                Ok (verificationAttempt_input (clerk context) "email_code"
                      (form_code context)) |}
  | PhoneCode_Preparing =>
      Some {| inv_id := "preparePhoneCodeVerification";
              inv_src := "verificationPrepare";
              inv_input := fun context _ =>
                Ok (verificationPrepare_input (clerk context) "phone_code"
                      None) |}
  | PhoneCode_Attempting =>
      Some {| inv_id := "attemptPhoneNumberVerification";
              inv_src := "verificationAttempt";
              inv_input := fun context _ =>
                Ok (verificationAttempt_input (clerk context) "phone_code"
                      (form_code context)) |}
  | _ => None
  end.

(** The input the actor of node [n] is started with. *)
Definition invoke_input (n : StateId) (c : Context) (e : Event)
  : option (result ActorInput) :=
  option_map (fun i => inv_input i c e) (invoke n).

End Invocations.

(** ** Sample collaborators

    Concrete values of what the machine imports and of its collaborators,
    used to run the definitions above. *)
Module Sample.

Definition constants : Constants := {|
  SEARCH_PARAMS_createdSession := "__clerk_created_session";
  SEARCH_PARAMS_invitationToken := "__clerk_invitation_token";
  SEARCH_PARAMS_status := "__clerk_status";
  SEARCH_PARAMS_ticket := "__clerk_ticket";
  SEARCH_PARAMS_transfer := "__clerk_transfer";
  SSO_CALLBACK_PATH_ROUTE := "/sso-callback";
  RESENDABLE_COUNTDOWN_DEFAULT := 60;
  ROUTING_virtual := "virtual";
  SIGN_IN_DEFAULT_BASE_PATH := "/sign-in";
  SIGN_UP_DEFAULT_BASE_PATH := "/sign-up";
  SIGN_UP_MODES_RESTRICTED := "restricted";
  ERROR_CODES_NOT_ALLOWED_TO_SIGN_UP := "not_allowed_to_sign_up";
  ERROR_CODES_OAUTH_ACCESS_DENIED := "oauth_access_denied";
  ERROR_CODES_NOT_ALLOWED_ACCESS := "not_allowed_access";
  ERROR_CODES_SAML_USER_ATTRIBUTE_MISSING := "saml_user_attribute_missing";
  ERROR_CODES_OAUTH_EMAIL_DOMAIN_RESERVED_BY_SAML :=
    "oauth_email_domain_reserved_by_saml";
  ERROR_CODES_USER_LOCKED := "user_locked"
|}.

Definition upper (c : ascii) : ascii :=
  let n := nat_of_ascii c in
  if (97 <=? n)%nat && (n <=? 122)%nat
  then ascii_of_nat (n - 32) else c.

Fixpoint camel (s : string) : string :=
  match s with
  | EmptyString => EmptyString
  | String c s' =>
      if Ascii.eqb c "_"%char then
        match s' with
        | EmptyString => EmptyString
        | String d s'' => String (upper d) (camel s'')
        end
      else String c (camel s')
  end.

(** Assertions that let through the events that carry an output, or an
    error, and nothing else. *)
Definition assert_done (ev : Event) : result SignUpResource :=
  match ev with
  | done_actor _ output => Ok output
  | _ => Throw "Expected a done event"
  end.

Definition assert_error (ev : Event) : result ErrorValue :=
  match ev with
  | error_actor _ e => Ok e
  | EMAIL_LINK_FAILED e _ => Ok e
  | _ => Throw "Expected an error event"
  end.

(** A browser page without virtual routing. *)
Definition page : Externals := {|
  joinURL := fun a b => a ++ b;
  snakeToCamel := camel;
  shouldUseVirtualRouting := fun _ => false;
  ThirdPartyMachineId := "ThirdParty";
  assertActorEventDone := assert_done;
  assertActorEventError := assert_error
|}.

(** A page under virtual routing. *)
Definition virtual_page : Externals := {|
  joinURL := fun a b => a ++ b;
  snakeToCamel := camel;
  shouldUseVirtualRouting := fun _ => true;
  ThirdPartyMachineId := "ThirdParty";
  assertActorEventDone := assert_done;
  assertActorEventError := assert_error
|}.

(** A sign-up nobody has started. *)
Definition fresh_signUp : SignUpResource := {|
  status := None;
  missingFields := [];
  unverifiedFields := [];
  optionalFields := [];
  requiredFields := [];
  createdSessionId := None;
  ownProps := [("firstName", None); ("lastName", None);
               ("emailAddress", None); ("username", None);
               ("phoneNumber", None)]
|}.

(** A sign-up whose phone number and email address both wait for
    verification. *)
Definition unverified_signUp : SignUpResource := {|
  status := Some "missing_requirements";
  missingFields := [];
  unverifiedFields := ["email_address"; "phone_number"];
  optionalFields := ["first_name"];
  requiredFields := ["email_address"; "phone_number"];
  createdSessionId := None;
  ownProps := [("firstName", None); ("lastName", None);
               ("emailAddress", Some "ada@example.com"); ("username", None);
               ("phoneNumber", Some "+15555550100")]
|}.

(** A sign-up whose email address alone waits for verification. *)
Definition email_signUp : SignUpResource := {|
  status := Some "missing_requirements";
  missingFields := [];
  unverifiedFields := ["email_address"];
  optionalFields := ["first_name"];
  requiredFields := ["email_address"];
  createdSessionId := None;
  ownProps := ownProps unverified_signUp
|}.

(** A sign-up whose only unverified field is a wallet. *)
Definition wallet_signUp : SignUpResource := {|
  status := Some "missing_requirements";
  missingFields := [];
  unverifiedFields := ["web3_wallet"];
  optionalFields := [];
  requiredFields := ["web3_wallet"];
  createdSessionId := None;
  ownProps := ownProps unverified_signUp
|}.

(** The same sign-up once both are verified. *)
Definition verified_signUp : SignUpResource := {|
  status := Some "complete";
  missingFields := [];
  unverifiedFields := [];
  optionalFields := ["first_name"];
  requiredFields := ["email_address"; "phone_number"];
  createdSessionId := Some "sess_1";
  ownProps := ownProps unverified_signUp
|}.

Definition settings (mode_ : string) : Environment := {|
  authConfig_singleSessionMode := true;
  userSettings := {|
    signUp_mode := mode_;
    attributes := Some [("email_address", ["email_link"; "email_code"]);
                        ("phone_number", ["phone_code"])]
  |};
  displayConfig_signUpUrl := "https://example.com/sign-up"
|}.

Definition clerk_of (u : option string) (s : SignUpResource)
    (mode_ : string) : Clerk := {|
  user := u;
  client := {| signUp := s;
               signIn_firstFactorVerification_error := None;
               lastActiveSessionId := None |};
  __unstable__environment := Some (settings mode_);
  buildAfterSignUpUrl := "/dashboard";
  buildSignInUrl := "/sign-in"
|}.

(** The adapter of a page at [location] with query [query], mounted at
    [/sign-up]; a route matches when the location is the base path
    followed by the route. *)
Definition router_at (location : string) (query : URLSearchParams.t)
  : Router := {|
  basePath := "/sign-up";
  mode := "path";
  pathname := location;
  match_ := fun route =>
    String.eqb location ("/sign-up" ++ route)
    || (String.eqb route "/" && String.eqb location "/sign-up");
  searchParams := query
|}.

Definition form : FormRef := {|
  fields := [("emailAddress", Some "ada@example.com"); ("password", None)]
|}.

Definition idle_loading : Loading :=
  {| isLoading := false; step := None; strategy := None; action := None |}.

(** A context as [INIT] and the entry of [Init] leave it the first time:
    the third-party machine has been spawned. *)
Definition context_of (k : Clerk) (r : option Router) (example : bool)
    (t : jsstring) : Context := {|
  clerk := k;
  router := r;
  signInPath := "/sign-in";
  loading := idle_loading;
  exampleMode := example;
  formRef := form;
  ticket := t;
  resource := None;
  resendable := false;
  resendableAfter := None;
  error := None;
  children := ["ThirdParty"]
|}.

(** A first-time visitor on [/sign-up], not signed in, sign-ups open. *)
Definition visitor : Context :=
  context_of (clerk_of None fresh_signUp "public")
             (Some (router_at "/sign-up" [])) false None.

(** The context of a machine that has spawned nothing yet. *)
Definition created : Context := set_children [] visitor.


(** The same page rendered as a preview: example mode is set. *)
Definition preview : Context :=
  context_of (clerk_of None fresh_signUp "public")
             (Some (router_at "/sign-up" [])) true None.

(** A visitor who followed an invitation: the ticket was read at [INIT]. *)
Definition invited : Context :=
  context_of (clerk_of None fresh_signUp "public")
             (Some (router_at "/sign-up" [("__clerk_ticket", "tkt_1")]))
             false (Some "tkt_1").

(** A visitor whose sign-up waits for both verifications; the context holds
    that sign-up as its resource. *)
Definition verifying : Context :=
  set_resource (Some unverified_signUp)
    (context_of (clerk_of None unverified_signUp "public")
                (Some (router_at "/sign-up/verify" [])) false None).

(** A visitor who has just typed the code sent to the phone; a wallet
    waits for verification as well.  The client holds the sign-up as the
    attempt left it, the context the resource it was given before. *)
Definition wallet_left : Context :=
  set_loading
    {| isLoading := true; step := Some "verifications"; strategy := None;
       action := None |}
    (set_resource
       (Some {| status := Some "missing_requirements";
                missingFields := [];
                unverifiedFields := ["phone_number"; "web3_wallet"];
                optionalFields := [];
                requiredFields := ["phone_number"; "web3_wallet"];
                createdSessionId := None;
                ownProps := ownProps unverified_signUp |})
       (context_of (clerk_of None wallet_signUp "public")
                   (Some (router_at "/sign-up/verify" [])) false None)).

(** The visitor whose email address waits for verification, on a site
    whose settings list no verification for the email address. *)
Definition password_only : Context :=
  set_resource (Some email_signUp)
    (context_of
       {| user := None;
          client := {| signUp := email_signUp;
                       signIn_firstFactorVerification_error := None;
                       lastActiveSessionId := None |};
          __unstable__environment :=
            Some {| authConfig_singleSessionMode := true;
                    userSettings :=
                      {| signUp_mode := "public";
                         attributes := Some [("email_address", []);
                                             ("phone_number", ["phone_code"])]
                      |};
                    displayConfig_signUpUrl := "https://example.com/sign-up"
                 |};
          buildAfterSignUpUrl := "/dashboard";
          buildSignInUrl := "/sign-in" |}
       (Some (router_at "/sign-up/verify" [])) false None).

(** A sign-up that still misses a required field. *)
Definition incomplete_signUp : SignUpResource := {|
  status := Some "missing_requirements";
  missingFields := ["first_name"];
  unverifiedFields := [];
  optionalFields := ["last_name"];
  requiredFields := ["email_address"; "first_name"];
  createdSessionId := None;
  ownProps := [("firstName", None); ("lastName", None);
               ("emailAddress", Some "ada@example.com"); ("username", None);
               ("phoneNumber", None)]
|}.


(** A visitor on the start step whose attempt returned that sign-up. *)
Definition continuing : Context :=
  set_resource (Some incomplete_signUp)
    (context_of (clerk_of None incomplete_signUp "public")
                (Some (router_at "/sign-up" [])) false None).

(** A client whose third-party sign-in failed with [code_]. *)
Definition oauth_failure (code_ : string) : Context :=
  context_of
    {| user := None;
       client := {| signUp := fresh_signUp;
                    signIn_firstFactorVerification_error :=
                      Some {| code := Some code_;
                              longMessage := Some "Sign-in was refused." |};
                    lastActiveSessionId := None |};
       __unstable__environment := Some (settings "public");
       buildAfterSignUpUrl := "/dashboard";
       buildSignInUrl := "/sign-in" |}
    (Some (router_at "/sign-up/sso-callback" [])) false None.


(** [MAGIC_LINK_VERIFY_PATH_ROUTE] on such a page. *)
Definition link : LinkConstants := {|
  MAGIC_LINK_VERIFY_PATH_ROUTE := "/verify"
|}.

(** A visitor who reloads the page on [/sign-up/verify]: the client holds
    the sign-up that waits for verification, the machine has just been
    created and its context holds no resource yet. *)
Definition reloading : Context :=
  set_children []
    (context_of (clerk_of None unverified_signUp "public") None false None).

(** A visitor back from the identity provider who was signed in by the
    client itself: the sign-up has no status, the client a last active
    session. *)
Definition returning : Context :=
  context_of
    {| user := None;
       client := {| signUp := fresh_signUp;
                    signIn_firstFactorVerification_error := None;
                    lastActiveSessionId := Some "sess_0" |};
       __unstable__environment := Some (settings "public");
       buildAfterSignUpUrl := "/dashboard";
       buildSignInUrl := "/sign-in" |}
    (Some (router_at "/sign-up/sso-callback" [])) false None.

(** The verifying visitor on a page whose query names a created session. *)
Definition with_created_session : Context :=
  set_resource (Some unverified_signUp)
    (context_of (clerk_of None unverified_signUp "public")
                (Some (router_at "/sign-up/verify"
                         [("__clerk_created_session", "sess_9")]))
                false None).

End Sample.

(** * Values that may be absent

    [undefined] and [null] are distinct in the two modules below, which pass
    either through unchanged. *)
Inductive js (A : Type) : Type :=
| undefined
| null
| val (a : A).
Arguments undefined {A}.
Arguments null {A}.
Arguments val {A} a.

(** [x ? f(x) : x] for an object [x]: an object is truthy, and an absent
    value is returned as it is. *)
Definition and_then {A B} (x : js A) (f : A -> js B) : js B :=
  match x with
  | val a => f a
  | undefined => undefined
  | null => null
  end.

(** [x?.f]: the optional chain yields [undefined] for either absent value. *)
Definition chain_opt {A B} (x : js A) (f : A -> js B) : js B :=
  match x with
  | val a => f a
  | _ => undefined
  end.

(** * The auth state derived for the React providers

    [packages/react/src/utils/deriveState.ts] *)
Module DeriveState.

Record OrganizationMembershipResource := {
  om_organization_id : string;   (* [om.organization.id] *)
  om_permissions : list string;
  om_role : string;
  om_orgPlan : js string
}.

Record UserResource := {
  user_id : string;
  user_plan : js string;
  organizationMemberships : js (list OrganizationMembershipResource)
}.

Record ActiveSessionResource := {
  session_id : string;
  session_actor : js string
}.

Record OrganizationResource := {
  organization_id : string;
  organization_slug : js string
}.

(** [Resources]: what the loaded client reports. *)
Record Resources := {
  r_user : js UserResource;
  r_session : js ActiveSessionResource;
  r_organization : js OrganizationResource
}.

(** The derived state; [InitialState], which the server hands over, has the
    same fields. *)
Record State := {
  userId : js string;
  user : js UserResource;
  plan : js string;
  sessionId : js string;
  session : js ActiveSessionResource;
  organization : js OrganizationResource;
  orgId : js string;
  orgRole : js string;
  orgPermissions : js (list string);
  orgSlug : js string;
  actor : js string;
  orgPlan : js string
}.
Definition InitialState := State.

Definition deriveFromSsrInitialState (initialState : InitialState) : State :=
  let userId_ := userId initialState in
  let user_ := user initialState in
  let plan_ := plan initialState in
  let sessionId_ := sessionId initialState in
  let session_ := session initialState in
  let organization_ := organization initialState in
  let orgId_ := orgId initialState in
  let orgRole_ := orgRole initialState in
  let orgPermissions_ := orgPermissions initialState in
  let orgPlan_ := orgPlan initialState in
  let orgSlug_ := orgSlug initialState in
  let actor_ := actor initialState in
  {| userId := userId_; user := user_; plan := plan_;
     sessionId := sessionId_; session := session_;
     organization := organization_; orgId := orgId_; orgRole := orgRole_;
     orgPermissions := orgPermissions_; orgSlug := orgSlug_;
     actor := actor_; orgPlan := orgPlan_ |}.

(** [om => om.organization.id === orgId] *)
Definition is_membership_of (orgId_ : js string)
    (om : OrganizationMembershipResource) : bool :=
  match orgId_ with
  | val i => String.eqb (om_organization_id om) i
  | _ => false
  end.

(** [ms.find(p)] *)
Definition find_js {A} (p : A -> bool) (ms : list A) : js A :=
  match find p ms with
  | Some m => val m
  | None => undefined
  end.

Definition deriveFromClientSideState (state : Resources) : State :=
  let userId_ := and_then (r_user state) (fun u => val (user_id u)) in
  let user_ := r_user state in
  let plan_ := and_then (r_user state) user_plan in
  let sessionId_ := and_then (r_session state) (fun s => val (session_id s)) in
  let session_ := r_session state in
  let actor_ := chain_opt session_ session_actor in
  let organization_ := r_organization state in
  let orgId_ :=
    and_then (r_organization state) (fun o => val (organization_id o)) in
  let orgSlug_ := chain_opt organization_ organization_slug in
  let membership :=
    and_then organization_ (fun _ =>
      chain_opt user_ (fun u =>
        chain_opt (organizationMemberships u)
          (find_js (is_membership_of orgId_)))) in
  let orgPermissions_ := and_then membership (fun m => val (om_permissions m)) in
  let orgRole_ := and_then membership (fun m => val (om_role m)) in
  let orgPlan_ := and_then membership om_orgPlan in
  {| userId := userId_; user := user_; plan := plan_;
     sessionId := sessionId_; session := session_;
     organization := organization_; orgId := orgId_; orgRole := orgRole_;
     orgSlug := orgSlug_; orgPermissions := orgPermissions_;
     actor := actor_; orgPlan := orgPlan_ |}.

Definition deriveState (clerkLoaded : bool) (state : Resources)
    (initialState : option InitialState) : State :=
  match negb clerkLoaded, initialState with
  | true, Some initialState_ => deriveFromSsrInitialState initialState_
  | _, _ => deriveFromClientSideState state
  end.

(** A user who belongs to two organizations, with the second one active. *)
Definition ada : UserResource := {|
  user_id := "user_1";
  user_plan := val "free";
  organizationMemberships :=
    val [ {| om_organization_id := "org_1"; om_permissions := ["org:read"];
             om_role := "org:member"; om_orgPlan := undefined |};
          {| om_organization_id := "org_2";
             om_permissions := ["org:read"; "org:write"];
             om_role := "org:admin"; om_orgPlan := val "team" |} ]
|}.

Definition signed_in : Resources := {|
  r_user := val ada;
  r_session := val {| session_id := "sess_1"; session_actor := null |};
  r_organization :=
    val {| organization_id := "org_2"; organization_slug := val "acme" |}
|}.

End DeriveState.

(** * Public user data

    The class [PublicUserData] and its JSON form. *)
Module PublicUserData.

(** [PublicUserDataJSON] *)
Record PublicUserDataJSON := {
  object : string;
  id : string;
  first_name : js string;
  last_name : js string;
  image_url : js string;
  has_image : js bool;
  identifier : js string;
  user_id : js string
}.

(** An instance of the class; a field nothing has assigned is [undefined]. *)
Record t := {
  firstName : js string;
  lastName : js string;
  imageUrl : js string;
  hasImage : js bool;
  identifier_ : js string;
  userId : js string
}.

(** The instance before the constructor assigns anything. *)
Definition blank : t := {|
  firstName := undefined; lastName := undefined; imageUrl := undefined;
  hasImage := undefined; identifier_ := undefined; userId := undefined
|}.

(** [this.fromJSON(data)] *)
Definition fromJSON (this : t) (data : js PublicUserDataJSON) : t :=
  match data with
  | val data =>
      {| firstName := first_name data;
         lastName := last_name data;
         imageUrl := image_url data;
         hasImage := has_image data;
         identifier_ := identifier data;
         userId := user_id data |}
  | _ => this
  end.

(** [new PublicUserData(data)] *)
Definition new (data : js PublicUserDataJSON) : t :=
  fromJSON blank data.

(** [v || ''] for a string that may be absent *)
Definition or_empty (v : js string) : string :=
  match v with
  | val s => s
  | _ => ""
  end.

Definition toJSON (this : t) : PublicUserDataJSON :=
  {| object := "public_user_data";
     id := or_empty (userId this);
     first_name := firstName this;
     last_name := lastName this;
     image_url := imageUrl this;
     has_image := hasImage this;
     identifier := identifier_ this;
     user_id := userId this |}.

End PublicUserData.

(** ** Vocabulary of the properties *)

(** What the machine relies on from the two assertions: the event of an
    actor that is done passes the first and yields its output, the event of
    an actor that failed passes the second and yields its error. *)
Definition assertions_pass {X : Externals} : Prop :=
  (forall id out, assertActorEventDone (done_actor id out) = Ok out)
  /\ (forall id err, assertActorEventError (error_actor id err) = Ok err).

(** Whether the guard of a transition lets it through. *)
Definition enabled (t : Transition) (c : Context) (e : Event) : Prop :=
  match guard t with
  | Some g => g c e = Ok true
  | None => True
  end.

(** The contexts the machine can be in.  It starts from [{}], where
    [resendableAfter] is still undefined; every later context is what some
    action of the machine made of an earlier one on some event. *)
Inductive reachable {K : Constants} {X : Externals} : Context -> Prop :=
| reachable_start (c : Context) :
    resendableAfter c = None -> reachable c
| reachable_exec (a : ActionRef) (c c' : Context) (e : Event)
    (effs : list Effect) :
    reachable c -> exec a c e = Ok (c', effs) -> reachable c'.

Definition is_INIT (e : Event) : bool :=
  match e with
  | INIT _ _ _ _ _ => true
  | _ => false
  end.

(** An action some node runs on entry or on exit. *)
Definition hook (a : ActionRef) : Prop :=
  exists n, In a (entry n) \/ In a (exit n).

(** A stretch of the life of the machine, from one active node and context
    to another, through event steps and eventless steps, in which [Idle]
    handles no [INIT]. *)
Inductive lifetime {K : Constants} {X : Externals}
  : StateId * Context -> StateId * Context -> Prop :=
| lifetime_here (s : StateId * Context) : lifetime s s
| lifetime_event (active active' : StateId) (c c' : Context) (e : Event)
    (effs : list Effect) (s : StateId * Context) :
    (active = Idle -> is_INIT e = false) ->
    on_event active c e = Ok (active', c', effs) ->
    lifetime (active', c') s -> lifetime (active, c) s
| lifetime_always (active active' : StateId) (c c' : Context) (e : Event)
    (effs : list Effect) (s : StateId * Context) :
    on_always active c e = Ok (Some (active', c', effs)) ->
    lifetime (active', c') s -> lifetime (active, c) s.

(** No effect of the list reaches the navigation adapter or activates a
    session. *)
Definition no_navigation (effs : list Effect) : Prop :=
  Forall (fun x => is_navigation x = false /\ is_activation x = false) effs.

(** The actions that carry their own example-mode check or touch neither the
    navigation adapter nor the session: all but [navigateExternal],
    [transfer] and the [assign] of [INIT], which sets [exampleMode]. *)
Definition quiet_in_example (a : ActionRef) : bool :=
  match a with
  | A_navigateExternal _ | A_transfer | I_idle_init => false
  | _ => true
  end.

(** A guard that never throws. *)
Definition total (g : Guard) : Prop :=
  forall c e, exists b, g c e = Ok b.

(** The resource a verification guard looks at: the one a [NEXT] event
    carries, else the one in the context. *)
Definition effective_resource (c : Context) (e : Event)
  : option SignUpResource :=
  match e with
  | NEXT (Some r) => Some r
  | _ => resource c
  end.

(** The loading state of a node that attempts, and the idle one. *)
Definition loading_begun (s : string) : Loading :=
  {| isLoading := true; step := Some s; strategy := None; action := None |}.
Definition loading_ended : Loading :=
  {| isLoading := false; step := None; strategy := None; action := None |}.

(** The nodes whose entry action is [loadingBegin], with the step it names;
    their exit action is [loadingEnd]. *)
Definition loading_node (n : StateId) : option string :=
  match n with
  | Start_Attempting | Start_AttemptingWeb3 => Some "start"
  | Continue_Attempting => Some "continue"
  | EmailCode_Attempting | PhoneCode_Attempting => Some "verifications"
  | _ => None
  end.

(** What an action makes of [context.loading] on event [e]. *)
Definition loading_effect (a : ActionRef) (e : Event) (l : Loading) : Loading :=
  match a with
  | A_loadingBegin p =>
      {| isLoading := true; step := lb_step p; strategy := lb_strategy p;
         action := lb_action p |}
  | A_loadingEnd => loading_ended
  | I_loading_assign => match e with LOADING l' => l' | _ => l end
  | I_idle_init => match e with INIT _ _ _ _ _ => loading_ended | _ => l end
  | _ => l
  end.

Definition is_LOADING (e : Event) : bool :=
  match e with
  | LOADING _ => true
  | _ => false
  end.

Definition is_FORM_ATTACH (e : Event) : bool :=
  match e with
  | FORM_ATTACH _ => true
  | _ => false
  end.

(** The events whose handlers store a resource: the report of an actor that
    is done and the events of the email link. *)
Definition stores_resource (e : Event) : bool :=
  match e with
  | done_actor _ _ | EMAIL_LINK_FAILED _ _ | EMAIL_LINK_other _ _ => true
  | _ => false
  end.

(** What a step on event [e] leaves of the context: [error] always; what
    [INIT] captured unless [e] is [INIT]; the form reference unless [e] is
    [INIT] or [FORM.ATTACH]; the resource unless [e] stores one. *)
Definition kept (e : Event) (c c' : Context) : Prop :=
  error c' = error c
  /\ (is_INIT e = false ->
      clerk c' = clerk c /\ router c' = router c
      /\ signInPath c' = signInPath c /\ exampleMode c' = exampleMode c)
  /\ (is_INIT e = false -> is_FORM_ATTACH e = false ->
      formRef c' = formRef c)
  /\ (stores_resource e = false -> resource c' = resource c).

(** The actions the tables let run in a step on event [e]. *)
Definition may_run (e : Event) (a : ActionRef) : bool :=
  match a with
  | A_setError _ | A_resetResource => false
  | I_idle_init => is_INIT e
  | I_form_attach => is_FORM_ATTACH e
  | A_setResource | I_email_link_failed_assign | I_email_link_wildcard =>
      stores_resource e
  | _ => true
  end.

(** The nodes that attempt, besides [Start.Attempting]: the node, the id of
    its actor, and the node a failure leads to. *)
Definition attempts : list (StateId * string * StateId) :=
  [ (Start_AttemptingWeb3, "startAttemptWeb3", Start_Pending);
    (Continue_Attempting, "continueAttempt", Continue_Pending);
    (EmailCode_Attempting, "attemptEmailAddressCodeVerification",
     EmailCode_Pending_NotResendable);
    (PhoneCode_Attempting, "attemptPhoneNumberVerification",
     PhoneCode_Pending_NotResendable) ].

(** The nodes of the two code sub-flows that wait for the code, the node
    that attempts it, and the strategy. *)
Definition code_flows : list (StateId * StateId * string) :=
  [ (EmailCode_Pending, EmailCode_Attempting, "email_code");
    (EmailCode_Pending_NotResendable, EmailCode_Attempting, "email_code");
    (EmailCode_Pending_Resendable, EmailCode_Attempting, "email_code");
    (PhoneCode_Pending, PhoneCode_Attempting, "phone_code");
    (PhoneCode_Pending_NotResendable, PhoneCode_Attempting, "phone_code");
    (PhoneCode_Pending_Resendable, PhoneCode_Attempting, "phone_code") ].

(** The countdown nodes of the three sub-flows: the node that counts, the
    node that waits for a retry, and where a retry leads. *)
Definition countdowns : list (StateId * StateId * StateId) :=
  [ (EmailLink_Attempting_NotResendable, EmailLink_Attempting_Resendable,
     EmailLink_Preparing);
    (EmailCode_Pending_NotResendable, EmailCode_Pending_Resendable,
     EmailCode_Preparing);
    (PhoneCode_Pending_NotResendable, PhoneCode_Pending_Resendable,
     PhoneCode_Preparing) ].

(** The same event, [k] times in a row. *)
Fixpoint repeat_event {K : Constants} {X : Externals}
    (k : nat) (e : Event) (active : StateId) (c : Context)
  : result (StateId * Context) :=
  match k with
  | O => Ok (active, c)
  | S k' =>
      r <- on_event active c e ;;
      repeat_event k' e (fst (fst r)) (snd (fst r))
  end.

(** The step a node belongs to, among the four that answer [NEXT] with the
    completion check. *)
Definition step_of (n : StateId) : option StateId :=
  find (fun a => StateId_beq a Start || StateId_beq a Continue
                 || StateId_beq a Verification || StateId_beq a Callback)
       (chain n).


(** The effects of [navigateInternal] to [p], without and with [force]. *)
Definition navigated {X : Externals} (c : Context) (p : string) : list Effect :=
  calls (navigateInternal c RESET {| path := p; force := None |}).
Definition navigated_forced {X : Externals} (c : Context) (p : string)
  : list Effect :=
  calls (navigateInternal c RESET {| path := p; force := Some true |}).

(** The default values [setFormDefaultValues] sends. *)
Definition prefill (c : Context) : FormEvent :=
  PREFILL_DEFAULT_VALUES
    (collect_values (signUp (client (clerk c))) PREFILL_FIELDS).


(** * Properties *)

(** ** Running actions and selecting transitions *)

Lemma bind_Ok {A B} (r : result A) (k : A -> result B) (b : B) :
  bind r k = Ok b -> exists a, r = Ok a /\ k a = Ok b.
Proof.
  destruct r as [a | m]; cbn; intros H.
  - exists a; split; [reflexivity | exact H].
  - discriminate H.
Qed.

Lemma custom_runs {P} (f : CustomAction P) (p : P) (c : Context) (e : Event) :
  custom f p c e = Ok (c, calls (f c e p)).
Proof. reflexivity. Qed.

Lemma exec_all_nil {K : Constants} {X : Externals} (c : Context) (e : Event) :
  exec_all [] c e = Ok (c, []).
Proof. reflexivity. Qed.

(** The run of a list is the run of its head followed by the run of its
    tail; the effects of the two reach the collaborators in an order that
    depends on how the head delivers its own. *)
Lemma exec_all_cons {K : Constants} {X : Externals}
    (a : ActionRef) (acts : list ActionRef) (c c' : Context) (e : Event)
    (effs : list Effect) :
  exec_all (a :: acts) c e = Ok (c', effs) ->
  exists c1 effs1 effs2,
    exec a c e = Ok (c1, effs1)
    /\ exec_all acts c1 e = Ok (c', effs2)
    /\ Permutation effs (effs1 ++ effs2)%list.
Proof.
  unfold exec_all. cbn [run_all]. intros H.
  apply bind_Ok in H. destruct H as [[c2 [now later]] [H Heq]].
  apply bind_Ok in H. destruct H as [[c1 effs1] [Ha H]].
  apply bind_Ok in H. destruct H as [[c3 [now2 later2]] [Hb H]].
  cbn [fst snd] in *. injection Heq as <- <-.
  exists c1, effs1, (now2 ++ later2)%list. rewrite Hb. cbn [bind fst snd].
  split; [exact Ha |].
  destruct (timing a); injection H as <- <- <-; (split; [reflexivity |]).
  - rewrite <- app_assoc. apply Permutation_refl.
  - rewrite !app_assoc. apply Permutation_app_tail, Permutation_app_comm.
Qed.

(** A list of actions none of which queues a message has its effects in the
    order of the actions. *)
Lemma exec_all_cons_immediate {K : Constants} {X : Externals}
    (a : ActionRef) (acts : list ActionRef) (c : Context) (e : Event) :
  timing a = Immediate ->
  Forall (fun a' => timing a' = Immediate) acts ->
  exec_all (a :: acts) c e
  = r <- exec a c e ;;
    r' <- exec_all acts (fst r) e ;;
    Ok (fst r', (snd r ++ snd r')%list).
Proof.
  intros Ha Hacts. unfold exec_all. cbn [run_all]. rewrite Ha.
  destruct (exec a c e) as [[c1 effs1] | m]; [| reflexivity].
  cbn [bind fst snd].
  assert (Hlater : forall c0 c2 now later,
             run_all acts c0 e = Ok (c2, (now, later)) -> later = []).
  { clear - Hacts. induction Hacts as [| a' acts' Ha' _ IH];
      intros c0 c2 now later H.
    - cbn in H. injection H as _ _ <-. reflexivity.
    - cbn [run_all] in H.
      apply bind_Ok in H. destruct H as [[c1 effs1] [_ H]].
      apply bind_Ok in H. destruct H as [[c3 [now2 later2]] [Hb H]].
      rewrite Ha' in H. cbn [fst snd] in H. injection H as _ _ <-.
      exact (IH _ _ _ _ Hb). }
  destruct (run_all acts c1 e) as [[c2 [now later]] | m] eqn:Hrun;
    [| reflexivity].
  cbn [bind fst snd]. rewrite (Hlater _ _ _ _ Hrun), !app_nil_r.
  reflexivity.
Qed.

(** A property of contexts that every action of a list keeps, and a
    property of effects that every action of the list ensures under it, hold
    of the whole run. *)
Lemma exec_all_invariant {K : Constants} {X : Externals}
    (good : ActionRef -> Prop) (inv : Context -> Prop) (quiet : Effect -> Prop) :
  (forall a c e c' effs,
      good a -> inv c -> exec a c e = Ok (c', effs) ->
      inv c' /\ Forall quiet effs) ->
  forall acts c e c' effs,
    Forall good acts -> inv c -> exec_all acts c e = Ok (c', effs) ->
    inv c' /\ Forall quiet effs.
Proof.
  intros Hstep acts. induction acts as [| a acts IH]; intros c e c' effs Hg Hi H.
  - cbn in H. injection H as <- <-. split; [exact Hi | constructor].
  - apply exec_all_cons in H.
    destruct H as (c1 & effs1 & effs2 & Ha & Hrest & Hperm).
    inversion Hg as [| ? ? Hga Hgs]; subst.
    destruct (Hstep _ _ _ _ _ Hga Hi Ha) as [Hi1 Hq1].
    destruct (IH _ _ _ _ Hgs Hi1 Hrest) as [Hi2 Hq2].
    split; [exact Hi2 |].
    apply (Permutation_Forall (Permutation_sym Hperm)).
    apply Forall_app; split; assumption.
Qed.

Lemma select_sound (ts : list Transition) (c : Context) (e : Event)
    (t : Transition) :
  select ts c e = Ok (Some t) -> In t ts /\ enabled t c e.
Proof.
  induction ts as [| t0 ts IH]; cbn [select]; intros H.
  - discriminate H.
  - apply bind_Ok in H. destruct H as [b [Hg H]].
    destruct b.
    + injection H as <-. split; [left; reflexivity |].
      unfold enabled. destruct (guard t0); [exact Hg | exact I].
    + destruct (IH H) as [Hin Hen]. split; [right; exact Hin | exact Hen].
Qed.

Lemma select_in_sound (nodes : list StateId)
    (table : StateId -> list Transition) (c : Context) (e : Event)
    (n : StateId) (t : Transition) :
  select_in nodes table c e = Ok (Some (n, t)) ->
  In n nodes /\ In t (table n) /\ enabled t c e.
Proof.
  induction nodes as [| n0 nodes IH]; cbn [select_in]; intros H.
  - discriminate H.
  - apply bind_Ok in H. destruct H as [r [Hs H]].
    destruct r as [t0 |].
    + injection H as <- <-. apply select_sound in Hs.
      destruct Hs as [Hin Hen]. split; [left; reflexivity | split; assumption].
    + destruct (IH H) as (Hn & Hin & Hen).
      split; [right; exact Hn | split; assumption].
Qed.

(** ** Internal navigation *)

(** C10.  [navigateInternal] pushes nothing and leaves the context as it is
    when no router is attached, when virtual routing is active and the
    navigation is not forced, when example mode is set, or when the base
    path joined with the requested path is already the current pathname; in
    every other case it does exactly one shallow push, to that resolved
    path. *)
Theorem navigateInternal_pushes_once_or_never
    {K : Constants} {X : Externals}
    (c : Context) (e : Event) (p : string) (f : option bool) :
  let run := exec (A_navigateInternal {| path := p; force := f |}) c e in
  (router c = None -> run = Ok (c, []))
  /\ (f <> Some true -> shouldUseVirtualRouting tt = true ->
      run = Ok (c, []))
  /\ (exampleMode c = true -> run = Ok (c, []))
  /\ (forall r, router c = Some r ->
        joinURL (basePath r) p = pathname r -> run = Ok (c, []))
  /\ (forall r, router c = Some r ->
        f = Some true \/ shouldUseVirtualRouting tt = false ->
        exampleMode c = false ->
        joinURL (basePath r) p <> pathname r ->
        run = Ok (c, [Router_shallowPush (joinURL (basePath r) p)])).
Proof.
  cbn zeta. cbn [exec]. rewrite custom_runs. unfold navigateInternal.
  cbn [path force].
  repeat split.
  - intros ->. reflexivity.
  - intros Hf Hv. destruct (router c); [| reflexivity].
    rewrite Hv. destruct f as [[|] |]; [congruence | reflexivity | reflexivity].
  - intros He. destruct (router c); [| reflexivity].
    rewrite He. destruct (negb _ && _); reflexivity.
  - intros r -> Hp. rewrite Hp, String.eqb_refl.
    destruct (negb _ && _); [reflexivity |].
    destruct (exampleMode c); reflexivity.
  - intros r -> Hf He Hp. rewrite He.
    apply String.eqb_neq in Hp. rewrite Hp.
    destruct Hf as [-> | ->].
    + reflexivity.
    + rewrite andb_false_r. reflexivity.
Qed.

Lemma navigateInternal_pushes_once_or_never_witness :
  exec (K := Sample.constants) (X := Sample.page)
       (nav "/verify") Sample.visitor SUBMIT
  = Ok (Sample.visitor, [Router_shallowPush "/sign-up/verify"])
  /\ exec (K := Sample.constants) (X := Sample.virtual_page)
          (nav "/verify") Sample.visitor SUBMIT
     = Ok (Sample.visitor, []).
Proof.
  split.
  - apply (proj2 (proj2 (proj2 (proj2
      (navigateInternal_pushes_once_or_never (K := Sample.constants)
         (X := Sample.page) Sample.visitor SUBMIT "/verify" None)))))
      with (r := Sample.router_at "/sign-up" []).
    + reflexivity.
    + right. reflexivity.
    + reflexivity.
    + discriminate.
  - apply (proj1 (proj2
      (navigateInternal_pushes_once_or_never (K := Sample.constants)
         (X := Sample.virtual_page) Sample.visitor SUBMIT "/verify" None))).
    + discriminate.
    + reflexivity.
Defined.

(** ** Third-party errors *)

Lemma known_code_test (k a1 a2 a3 a4 a5 a6 : string) :
  String.eqb k a1 || String.eqb k a2 || String.eqb k a3 || String.eqb k a4
  || String.eqb k a5 || String.eqb k a6
  = existsb (String.eqb k) [a1; a2; a3; a4; a5; a6].
Proof.
  cbn [existsb].
  destruct (String.eqb k a1), (String.eqb k a2), (String.eqb k a3),
    (String.eqb k a4), (String.eqb k a5), (String.eqb k a6); reflexivity.
Qed.

(** C8.  [setFormOAuthErrors] sends nothing when the client carries no
    third-party verification error; when the error has one of the six known
    codes it sends the form store [ERRORS.SET] with that very code and the
    long message of the error; for any other code it sends the generic
    [unable_to_complete] error. *)
Theorem setFormOAuthErrors_maps_codes {K : Constants} {X : Externals}
    (c : Context) (e : Event) :
  let known :=
    [ERROR_CODES_NOT_ALLOWED_TO_SIGN_UP; ERROR_CODES_OAUTH_ACCESS_DENIED;
     ERROR_CODES_NOT_ALLOWED_ACCESS; ERROR_CODES_SAML_USER_ATTRIBUTE_MISSING;
     ERROR_CODES_OAUTH_EMAIL_DOMAIN_RESERVED_BY_SAML;
     ERROR_CODES_USER_LOCKED] in
  let generic :=
    ClerkElementsError (Some "unable_to_complete")
      (Some "Unable to complete action at this time. If the problem persists please contact support.") in
  let failure := signIn_firstFactorVerification_error (client (clerk c)) in
  let run := exec A_setFormOAuthErrors c e in
  (failure = None -> run = Ok (c, []))
  /\ (forall err k,
        failure = Some err -> code err = Some k -> In k known ->
        run = Ok (c, [Form_send (formRef c)
                        (ERRORS_SET (ClerkElementsError (Some k)
                                       (longMessage err)))]))
  /\ (forall err,
        failure = Some err ->
        (forall k, code err = Some k -> ~ In k known) ->
        run = Ok (c, [Form_send (formRef c) (ERRORS_SET generic)])).
Proof.
  cbn zeta. cbn [exec]. rewrite custom_runs. unfold setFormOAuthErrors.
  repeat split.
  - intros ->. reflexivity.
  - intros err k -> Hk Hin. rewrite Hk. cbn [strict_eq].
    rewrite known_code_test.
    replace (existsb _ _) with true; [reflexivity |].
    symmetry. apply existsb_exists. exists k. split; [exact Hin |].
    apply String.eqb_refl.
  - intros err -> Hno. destruct (code err) as [k |] eqn:Hk.
    + cbn [strict_eq]. rewrite known_code_test.
      replace (existsb _ _) with false; [reflexivity |].
      symmetry. apply not_true_is_false. intros H.
      apply existsb_exists in H. destruct H as [x [Hin Hx]].
      apply String.eqb_eq in Hx. subst x. exact (Hno k eq_refl Hin).
    + reflexivity.
Qed.

Lemma setFormOAuthErrors_maps_codes_witness :
  exec (K := Sample.constants) (X := Sample.page) A_setFormOAuthErrors
       (Sample.oauth_failure "user_locked") (NEXT None)
  = Ok (Sample.oauth_failure "user_locked",
        [Form_send Sample.form
           (ERRORS_SET (ClerkElementsError (Some "user_locked")
                          (Some "Sign-in was refused.")))])
  /\ exec (K := Sample.constants) (X := Sample.page) A_setFormOAuthErrors
          (Sample.oauth_failure "teapot") (NEXT None)
     = Ok (Sample.oauth_failure "teapot",
           [Form_send Sample.form
              (ERRORS_SET (ClerkElementsError (Some "unable_to_complete")
                 (Some "Unable to complete action at this time. If the problem persists please contact support.")))]).
Proof.
  split.
  - apply (proj1 (proj2
      (setFormOAuthErrors_maps_codes (K := Sample.constants)
         (X := Sample.page) (Sample.oauth_failure "user_locked")
         (NEXT None)))) with
      (err := {| code := Some "user_locked";
                 longMessage := Some "Sign-in was refused." |}).
    + reflexivity.
    + reflexivity.
    + cbn. tauto.
  - apply (proj2 (proj2
      (setFormOAuthErrors_maps_codes (K := Sample.constants)
         (X := Sample.page) (Sample.oauth_failure "teapot") (NEXT None))))
      with (err := {| code := Some "teapot";
                      longMessage := Some "Sign-in was refused." |}).
    + reflexivity.
    + intros k Hk. injection Hk as <-. cbn.
      intros H. repeat (destruct H as [H | H]; [discriminate H |]). exact H.
Defined.

(** ** What an action leaves alone *)

(** Runs one action and splits on the event where the action reads it. *)
Ltac run_action H :=
  cbn [exec] in H;
  unfold clearFormErrors, raiseNext, resendableTick, resendableReset,
    delayedReset, goToNextStep, loadingBegin, loadingEnd, setError,
    setFormErrors, resetResource, setResource, authenticate_oauth,
    authenticate_saml, authenticate_web3, form_attach, loading_assign,
    idle_init, init_spawn, email_link_failed_assign, email_link_wildcard,
    email_link_timeout, log_not_retriable, callback_notify, assign,
    sendTo_form, sendTo_thirdParty, sendTo_actor, raise, log, custom in H;
  cbn [bind fst snd] in H;
  try match type of H with
      | context [match ?e with INIT _ _ _ _ _ => _ | _ => _ end] =>
          destruct e; cbn [bind fst snd] in H
      end;
  repeat match type of H with
         | context [running ?i ?c] =>
             destruct (running i c) eqn:?; cbn [bind fst snd] in H
         | context [String.eqb (email_link_type ?e) ?s] =>
             destruct (String.eqb (email_link_type e) s) eqn:?;
             cbn [bind fst snd] in H
         end;
  repeat match type of H with
         | context [assertActorEventDone ?e] =>
             destruct (assertActorEventDone e); cbn [bind fst snd] in H
         | context [assertActorEventError ?e] =>
             destruct (assertActorEventError e); cbn [bind fst snd] in H
         end;
  try discriminate H;
  try (injection H as <- <-).

(** Only [resendableTick] and [resendableReset] assign the countdown. *)
Lemma exec_keeps_resend {K : Constants} {X : Externals}
    (a : ActionRef) (c c' : Context) (e : Event) (effs : list Effect) :
  a <> A_resendableTick -> a <> A_resendableReset ->
  exec a c e = Ok (c', effs) ->
  resendable c' = resendable c /\ resendableAfter c' = resendableAfter c.
Proof.
  intros Ht Hr H.
  destruct a; try congruence; run_action H; auto.
Qed.

(** ** The resend countdown *)

Lemma ticks_from {K : Constants} {X : Externals}
    (k : nat) (c : Context) (e : Event) (n : Z) :
  (0 <= n)%Z -> resendableAfter c = Some n ->
  exists c',
    exec_all (repeat A_resendableTick k) c e = Ok (c', [])
    /\ resendableAfter c' = Some (Z.max 0 (n - Z.of_nat k))
    /\ resendable c' = match k with
                       | O => resendable c
                       | S _ => (n <? Z.of_nat k)%Z
                       end.
Proof.
  revert c n. induction k as [| k IH]; intros c n Hn Hc.
  - exists c. cbn [repeat]. rewrite exec_all_nil. repeat split.
    rewrite Hc. f_equal. lia.
  - pose (c1 := set_resend (n =? 0)%Z
                  (if (n >? 0)%Z then Some (n - 1)%Z else Some n) c).
    assert (H1 : exec A_resendableTick c e = Ok (c1, [])).
    { cbn [exec]. unfold resendableTick, assign. rewrite Hc. reflexivity. }
    assert (Hc1 : resendableAfter c1 = Some (Z.max 0 (n - 1))).
    { subst c1. cbn [resendableAfter set_resend]. rewrite Z.gtb_ltb.
      destruct (Z.ltb_spec 0 n); f_equal; lia. }
    destruct (IH c1 (Z.max 0 (n - 1))%Z ltac:(lia) Hc1) as (c2 & Hrun & Ha & Hb).
    exists c2. cbn [repeat].
    rewrite exec_all_cons_immediate;
      [| reflexivity
       | apply Forall_forall; intros x Hx; apply repeat_spec in Hx;
         subst x; reflexivity].
    rewrite H1. cbn [bind fst snd].
    rewrite Hrun. cbn [bind fst snd app]. repeat split.
    + rewrite Ha. f_equal. lia.
    + rewrite Hb. destruct k as [| k'].
      * subst c1. cbn [resendable set_resend].
        destruct (Z.eqb_spec n 0), (Z.ltb_spec n (Z.of_nat 1)); try reflexivity; lia.
      * destruct (Z.ltb_spec (Z.max 0 (n - 1)) (Z.of_nat (S k'))),
          (Z.ltb_spec n (Z.of_nat (S (S k')))); try reflexivity; lia.
Qed.

(** C5.  [resendableTick] takes exactly one off a positive [resendableAfter]
    and leaves a zero at zero, so [resendableAfter] is negative in no
    reachable context; the tick that finds the countdown at zero makes
    [resendable] true and keeps the countdown at zero, so it stays true
    under every further tick; [resendableReset], the exit action of every
    [Preparing] node, puts [resendable] back to false and [resendableAfter]
    back to the default; no other action assigns either field.  From a
    reset, [k] ticks leave [max 0 (default - k)] and [resendable] true
    exactly when [k] exceeds the default. *)
Theorem resend_countdown {K : Constants} {X : Externals} :
  (0 <= RESENDABLE_COUNTDOWN_DEFAULT)%Z ->
  (forall c e n,
      resendableAfter c = Some n -> (0 < n)%Z ->
      exec A_resendableTick c e
      = Ok (set_resend false (Some (n - 1)%Z) c, []))
  /\ (forall c e,
        resendableAfter c = Some 0%Z ->
        exec A_resendableTick c e = Ok (set_resend true (Some 0%Z) c, []))
  /\ (forall c, reachable c ->
        forall n, resendableAfter c = Some n -> (0 <= n)%Z)
  /\ (forall c e,
        exec A_resendableReset c e
        = Ok (set_resend false (Some RESENDABLE_COUNTDOWN_DEFAULT) c, []))
  /\ (exit EmailLink_Preparing = [A_resendableReset]
      /\ exit EmailCode_Preparing = [A_resendableReset]
      /\ exit PhoneCode_Preparing = [A_resendableReset])
  /\ (forall c e k, exists c1 c2,
        exec A_resendableReset c e = Ok (c1, [])
        /\ exec_all (repeat A_resendableTick k) c1 e = Ok (c2, [])
        /\ resendableAfter c2
           = Some (Z.max 0 (RESENDABLE_COUNTDOWN_DEFAULT - Z.of_nat k))
        /\ resendable c2 = (RESENDABLE_COUNTDOWN_DEFAULT <? Z.of_nat k)%Z)
  /\ (forall a c e c' effs,
        a <> A_resendableTick -> a <> A_resendableReset ->
        exec a c e = Ok (c', effs) ->
        resendable c' = resendable c
        /\ resendableAfter c' = resendableAfter c).
Proof.
  intros Hd. repeat split.
  - intros c e n Hc Hn. cbn [exec]. unfold resendableTick, assign.
    rewrite Hc. cbn [bind].
    destruct (Z.eqb_spec n 0); [lia |].
    rewrite Z.gtb_ltb. destruct (Z.ltb_spec 0 n); [reflexivity | lia].
  - intros c e Hc. cbn [exec]. unfold resendableTick, assign.
    rewrite Hc. reflexivity.
  - intros c Hr. induction Hr as [c Hc | a c c' e effs Hr IH Hx]; intros n Hn.
    + congruence.
    + destruct a;
        try (apply exec_keeps_resend in Hx; [| discriminate | discriminate];
             destruct Hx as [_ Hx]; rewrite Hx in Hn; exact (IH n Hn)).
      * cbn [exec] in Hx. unfold resendableTick, assign in Hx.
        cbn [bind] in Hx. injection Hx as <- <-.
        cbn [resendableAfter set_resend] in Hn.
        destruct (resendableAfter c) as [m |]; [| discriminate Hn].
        specialize (IH m eq_refl). rewrite Z.gtb_ltb in Hn.
        destruct (Z.ltb_spec 0 m); injection Hn as <-; lia.
      * cbn [exec] in Hx. unfold resendableReset, assign in Hx.
        cbn [bind] in Hx. injection Hx as <- <-.
        cbn [resendableAfter set_resend] in Hn. injection Hn as <-. exact Hd.
  - intros c e k.
    pose (c1 := set_resend false (Some RESENDABLE_COUNTDOWN_DEFAULT) c).
    destruct (ticks_from k c1 e RESENDABLE_COUNTDOWN_DEFAULT Hd eq_refl)
      as (c2 & Hrun & Ha & Hb).
    exists c1, c2. repeat split; [exact Hrun | exact Ha |].
    rewrite Hb. destruct k as [| k'].
    + subst c1. cbn [resendable set_resend].
      destruct (Z.ltb_spec RESENDABLE_COUNTDOWN_DEFAULT (Z.of_nat 0));
        [lia | reflexivity].
    + reflexivity.
  - eapply exec_keeps_resend; eassumption.
  - eapply exec_keeps_resend; eassumption.
Qed.

Lemma resend_countdown_witness :
  (0 <= RESENDABLE_COUNTDOWN_DEFAULT (Constants := Sample.constants))%Z
  /\ exists c1 c2,
       exec (K := Sample.constants) (X := Sample.page)
            A_resendableReset Sample.verifying RETRY = Ok (c1, [])
       /\ exec_all (K := Sample.constants) (X := Sample.page)
                   (repeat A_resendableTick 61) c1 RETRY = Ok (c2, [])
       /\ resendableAfter c2 = Some 0%Z
       /\ resendable c2 = true.
Proof.
  assert (H : (0 <= RESENDABLE_COUNTDOWN_DEFAULT
                      (Constants := Sample.constants))%Z)
    by (cbn; lia).
  split; [exact H |].
  exact (proj1 (proj2 (proj2 (proj2 (proj2 (proj2
           (resend_countdown (K := Sample.constants) (X := Sample.page) H))))))
           Sample.verifying RETRY 61%nat).
Defined.

(** ** Steps of the machine as runs of action lists *)

Lemma hook_flat_map_exit (l : list StateId) : Forall hook (flat_map exit l).
Proof.
  apply Forall_forall. intros a Ha. apply in_flat_map in Ha.
  destruct Ha as [n [_ Ha]]. exists n. right. exact Ha.
Qed.

Lemma hook_flat_map_entry (l : list StateId) : Forall hook (flat_map entry l).
Proof.
  apply Forall_forall. intros a Ha. apply in_flat_map in Ha.
  destruct Ha as [n [_ Ha]]. exists n. left. exact Ha.
Qed.

(** A microstep runs the actions of its transition between exit actions
    and entry actions. *)
Lemma microstep_runs {K : Constants} {X : Externals}
    (active src active' : StateId) (t : Transition) (c c' : Context)
    (e : Event) (effs : list Effect) :
  microstep active src t c e = Ok (active', c', effs) ->
  exists pre post,
    Forall hook pre /\ Forall hook post
    /\ exec_all (pre ++ actions t ++ post) c e = Ok (c', effs).
Proof.
  unfold microstep. destruct (target t) as [tgt |]; intros H.
  - apply bind_Ok in H. destruct H as [[c1 effs1] [Hrun H]].
    cbn [fst snd] in H. injection H as _ <- <-.
    eexists _, _. split; [apply hook_flat_map_exit |].
    split; [apply hook_flat_map_entry | exact Hrun].
  - apply bind_Ok in H. destruct H as [[c1 effs1] [Hrun H]].
    cbn [fst snd] in H. injection H as _ <- <-.
    exists [], []. repeat split; try constructor.
    cbn [app]. rewrite app_nil_r. exact Hrun.
Qed.

(** An event step either changes nothing or is the microstep of an enabled
    transition that the active node or one of its ancestors declares for
    the event. *)
Lemma on_event_runs {K : Constants} {X : Externals}
    (active active' : StateId) (c c' : Context) (e : Event)
    (effs : list Effect) :
  on_event active c e = Ok (active', c', effs) ->
  (c' = c /\ effs = [])
  \/ exists src t pre post,
       In src (chain active) /\ In t (transitions src e) /\ enabled t c e
       /\ Forall hook pre /\ Forall hook post
       /\ exec_all (pre ++ actions t ++ post) c e = Ok (c', effs).
Proof.
  unfold on_event. intros H.
  apply bind_Ok in H. destruct H as [sel [Hsel H]].
  destruct sel as [[src t] |].
  - right. apply select_in_sound in Hsel. destruct Hsel as (Hn & Ht & Hen).
    apply microstep_runs in H. destruct H as (pre & post & Hpre & Hpost & Hrun).
    exists src, t, pre, post. auto 10.
  - left. destruct (is_error_actor e); [discriminate H |].
    injection H as _ <- <-. auto.
Qed.

Lemma on_always_runs {K : Constants} {X : Externals}
    (active active' : StateId) (c c' : Context) (e : Event)
    (effs : list Effect) :
  on_always active c e = Ok (Some (active', c', effs)) ->
  exists src t pre post,
    In src (chain active) /\ In t (always src) /\ enabled t c e
    /\ Forall hook pre /\ Forall hook post
    /\ exec_all (pre ++ actions t ++ post) c e = Ok (c', effs).
Proof.
  unfold on_always. intros H.
  apply bind_Ok in H. destruct H as [sel [Hsel H]].
  destruct sel as [[src t] |]; [| discriminate H].
  apply bind_Ok in H. destruct H as [[[a1 c1] effs1] [Hm H]].
  injection H as <- <- <-.
  apply select_in_sound in Hsel. destruct Hsel as (Hn & Ht & Hen).
  apply microstep_runs in Hm. destruct Hm as (pre & post & Hpre & Hpost & Hrun).
  exists src, t, pre, post. auto 10.
Qed.

(** Splits on the node and the event of a transition table. *)
Ltac table_cases n e H :=
  destruct n; destruct e; cbn [transitions countdown always] in H;
  repeat match type of H with
         | context [if String.eqb ?a ?b then _ else _] =>
             destruct (String.eqb a b)
         | context [match ?x with Root => _ | _ => _ end] =>
             is_var x; destruct x
         end;
  cbn [In] in H;
  repeat (destruct H as [H | H]; [subst |]);
  try contradiction.

(** Splits on the node of an entry or exit list. *)
Ltac hook_cases Hh :=
  let n := fresh "n" in
  destruct Hh as [n [Hh | Hh]]; destruct n; cbn [entry exit In] in Hh;
  repeat (destruct Hh as [Hh | Hh]; [subst |]);
  try contradiction.

(** ** The ticket *)

(** Only the [assign] of [Idle.on.INIT] assigns the fields [INIT] sets. *)
Lemma exec_keeps_init_fields {K : Constants} {X : Externals}
    (a : ActionRef) (c c' : Context) (e : Event) (effs : list Effect) :
  a <> I_idle_init ->
  exec a c e = Ok (c', effs) ->
  ticket c' = ticket c /\ exampleMode c' = exampleMode c.
Proof.
  intros Ha H.
  destruct a; try congruence; run_action H; auto.
Qed.

Lemma hook_not_init (a : ActionRef) : hook a -> a <> I_idle_init.
Proof. intros Hh. hook_cases Hh; discriminate. Qed.

Lemma transition_init_only_in_Idle {K : Constants} {X : Externals}
    (n : StateId) (e : Event) (t : Transition) :
  In t (transitions n e) -> In I_idle_init (actions t) ->
  n = Idle /\ is_INIT e = true.
Proof.
  intros H Ha.
  table_cases n e H;
    cbn [actions go go_reenter stay In] in Ha;
    repeat (destruct Ha as [Ha | Ha]; [try discriminate Ha |]);
    try contradiction; auto.
Qed.

Lemma always_not_init {K : Constants} {X : Externals}
    (n : StateId) (t : Transition) :
  In t (always n) -> ~ In I_idle_init (actions t).
Proof.
  intros H Ha.
  destruct n; cbn [always In] in H;
    repeat (destruct H as [H | H]; [subst |]); try contradiction;
    cbn [actions go go_reenter stay In] in Ha;
    repeat (destruct Ha as [Ha | Ha]; [try discriminate Ha |]);
    try contradiction.
Qed.

Lemma Idle_alone (active : StateId) : In Idle (chain active) -> active = Idle.
Proof.
  destruct active; cbn; intros H;
    repeat (destruct H as [H | H]; [try discriminate H |]);
    try contradiction; reflexivity.
Qed.

Lemma exec_all_keeps_init_fields {K : Constants} {X : Externals}
    (acts : list ActionRef) (c c' : Context) (e : Event) (effs : list Effect) :
  Forall (fun a => a <> I_idle_init) acts ->
  exec_all acts c e = Ok (c', effs) ->
  ticket c' = ticket c /\ exampleMode c' = exampleMode c.
Proof.
  intros Hg H.
  destruct (exec_all_invariant (fun a => a <> I_idle_init)
              (fun x => ticket x = ticket c /\ exampleMode x = exampleMode c)
              (fun _ => True)) with (acts := acts) (c := c) (e := e)
              (c' := c') (effs := effs) as [Hi _]; auto.
  intros a x e0 x' effs0 Ha [Ht He] Hx.
  apply exec_keeps_init_fields in Hx; [| exact Ha].
  destruct Hx as [Ht' He']. split; [split; congruence |].
  apply Forall_forall. auto.
Qed.

Lemma on_event_keeps_ticket {K : Constants} {X : Externals}
    (active active' : StateId) (c c' : Context) (e : Event)
    (effs : list Effect) :
  (active = Idle -> is_INIT e = false) ->
  on_event active c e = Ok (active', c', effs) ->
  ticket c' = ticket c.
Proof.
  intros Hlife H. apply on_event_runs in H.
  destruct H as [[-> _] | (src & t & pre & post & Hsrc & Ht & _ & Hpre & Hpost & Hrun)];
    [reflexivity |].
  apply exec_all_keeps_init_fields in Hrun; [apply Hrun |].
  apply Forall_app; split; [| apply Forall_app; split].
  - eapply Forall_impl; [| exact Hpre]. exact hook_not_init.
  - apply Forall_forall. intros a Ha ->.
    destruct (transition_init_only_in_Idle _ _ _ Ht Ha) as [-> Hinit].
    apply Idle_alone in Hsrc. rewrite (Hlife Hsrc) in Hinit. discriminate.
  - eapply Forall_impl; [| exact Hpost]. exact hook_not_init.
Qed.

Lemma on_always_keeps_ticket {K : Constants} {X : Externals}
    (active active' : StateId) (c c' : Context) (e : Event)
    (effs : list Effect) :
  on_always active c e = Ok (Some (active', c', effs)) ->
  ticket c' = ticket c.
Proof.
  intros H. apply on_always_runs in H.
  destruct H as (src & t & pre & post & _ & Ht & _ & Hpre & Hpost & Hrun).
  apply exec_all_keeps_init_fields in Hrun; [apply Hrun |].
  apply Forall_app; split; [| apply Forall_app; split].
  - eapply Forall_impl; [| exact Hpre]. exact hook_not_init.
  - apply Forall_forall. intros a Ha ->. exact (always_not_init _ _ Ht Ha).
  - eapply Forall_impl; [| exact Hpost]. exact hook_not_init.
Qed.

(** The transitions that lead back to [Idle]: that of [RESET], and that
    of [NAVIGATE.PREVIOUS], whose target is the history node of the root. *)
Lemma only_RESET_and_PREVIOUS_lead_to_Idle {K : Constants} {X : Externals}
    (n : StateId) (e : Event) (t : Transition) (tgt : StateId) :
  In t (transitions n e ++ always n) -> target t = Some tgt ->
  resolve tgt = Idle ->
  n = Root /\ (e = RESET \/ e = NAVIGATE_PREVIOUS).
Proof.
  intros H Ht Hr. apply in_app_or in H. destruct H as [H | H].
  - table_cases n e H; cbn [target go go_reenter stay] in Ht;
      try discriminate Ht; injection Ht as <-; try discriminate Hr; auto.
  - destruct n; cbn [always In] in H;
      repeat (destruct H as [H | H]; [subst |]); try contradiction;
      cbn [target go go_reenter stay] in Ht;
      try discriminate Ht; injection Ht as <-; discriminate Hr.
Qed.

Lemma NAVIGATE_PREVIOUS_leads_to_Idle {K : Constants} {X : Externals}
    (active : StateId) (c : Context) :
  exists c' effs,
    on_event active c NAVIGATE_PREVIOUS = Ok (Idle, c', effs)
    /\ ticket c' = ticket c.
Proof.
  destruct active;
    (eexists; eexists; split; [lazy; reflexivity | reflexivity]).
Qed.

(** C6, as the code has it.  Only the handler of [INIT] in [Idle] assigns
    [ticket].  It reads the query of the router it is given under the two
    names [SEARCH_PARAMS.ticket] and [SEARCH_PARAMS.invitationToken]: the
    first of the two that carries a value wins (a name whose value is the
    empty string counts as absent, as [||] tests it), and without either
    the ticket is undefined.  Every other action of the machine leaves
    [ticket] as it is, and so does every event step and eventless step that
    is not [Idle] handling [INIT]: over a stretch of the life of the
    machine without such a step the ticket does not change.  Two
    transitions lead back to [Idle], where the next [INIT] assigns the
    ticket anew: that of [RESET] and that of [NAVIGATE.PREVIOUS], which is
    answered in every state and lands in [Idle] because the history of the
    root is never recorded. *)
Theorem ticket_assigned_by_INIT_only {K : Constants} {X : Externals} :
  (forall c k r sp ex f,
      transitions Idle (INIT k r sp ex f) = [go None [I_idle_init] Init]
      /\ exists c',
           exec I_idle_init c (INIT k r sp ex f) = Ok (c', [])
           /\ let get name :=
                match r with
                | Some r' => URLSearchParams.get (searchParams r') name
                | None => None
                end in
              (truthy (get SEARCH_PARAMS_ticket) = true ->
               ticket c' = get SEARCH_PARAMS_ticket)
              /\ (truthy (get SEARCH_PARAMS_ticket) = false ->
                  truthy (get SEARCH_PARAMS_invitationToken) = true ->
                  ticket c' = get SEARCH_PARAMS_invitationToken)
              /\ (truthy (get SEARCH_PARAMS_ticket) = false ->
                  truthy (get SEARCH_PARAMS_invitationToken) = false ->
                  ticket c' = None))
  /\ (forall a c e c' effs,
        a <> I_idle_init -> exec a c e = Ok (c', effs) ->
        ticket c' = ticket c)
  /\ (forall n e t,
        In t (transitions n e) -> In I_idle_init (actions t) ->
        n = Idle /\ is_INIT e = true)
  /\ (forall n t, In t (always n) -> ~ In I_idle_init (actions t))
  /\ (forall a, hook a -> a <> I_idle_init)
  /\ (forall active c e active' c' effs,
        (active = Idle -> is_INIT e = false) ->
        on_event active c e = Ok (active', c', effs) ->
        ticket c' = ticket c)
  /\ (forall active c e active' c' effs,
        on_always active c e = Ok (Some (active', c', effs)) ->
        ticket c' = ticket c)
  /\ (forall s s', lifetime s s' -> ticket (snd s') = ticket (snd s))
  /\ (forall n e t tgt,
        In t (transitions n e ++ always n) -> target t = Some tgt ->
        resolve tgt = Idle ->
        n = Root /\ (e = RESET \/ e = NAVIGATE_PREVIOUS))
  /\ (forall active c,
        exists c' effs,
          on_event active c NAVIGATE_PREVIOUS = Ok (Idle, c', effs)
          /\ ticket c' = ticket c).
Proof.
  split; [| split; [| split; [| split; [| split; [| split;
    [| split; [| split; [| split]]]]]]]].
  - intros c k r sp ex f. split; [reflexivity |].
    eexists. split; [reflexivity |].
    cbn [ticket]. unfold js_or.
    destruct r as [r' |]; cbn [option_map].
    + destruct (truthy (URLSearchParams.get (searchParams r')
                          SEARCH_PARAMS_ticket)) eqn:Ht.
      * rewrite Ht. repeat split; congruence.
      * destruct (truthy (URLSearchParams.get (searchParams r')
                            SEARCH_PARAMS_invitationToken)) eqn:Hi.
        -- repeat split; congruence.
        -- repeat split; congruence.
    + cbn. repeat split; congruence.
  - intros a c e c' effs Ha H.
    apply (exec_keeps_init_fields _ _ _ _ _ Ha H).
  - exact transition_init_only_in_Idle.
  - exact always_not_init.
  - exact hook_not_init.
  - intros. eapply on_event_keeps_ticket; eassumption.
  - intros. eapply on_always_keeps_ticket; eassumption.
  - intros s s' H. induction H as [s | a a' c c' e effs s Hl Hs _ IH
                                       | a a' c c' e effs s Hs _ IH].
    + reflexivity.
    + rewrite IH. cbn [snd]. eapply on_event_keeps_ticket; eassumption.
    + rewrite IH. cbn [snd]. eapply on_always_keeps_ticket; eassumption.
  - exact only_RESET_and_PREVIOUS_lead_to_Idle.
  - exact NAVIGATE_PREVIOUS_leads_to_Idle.
Qed.

Lemma ticket_assigned_by_INIT_only_witness :
  exists c',
    exec (K := Sample.constants) (X := Sample.page) I_idle_init Sample.visitor
      (INIT (clerk Sample.invited)
            (Some (Sample.router_at "/sign-up"
                     [("utm", "x"); ("__clerk_invitation_token", "inv_1")]))
            None None Sample.form)
    = Ok (c', [])
    /\ ticket c' = Some "inv_1".
Proof.
  destruct (proj1 (ticket_assigned_by_INIT_only (K := Sample.constants)
                     (X := Sample.page))
              Sample.visitor (clerk Sample.invited)
              (Some (Sample.router_at "/sign-up"
                       [("utm", "x"); ("__clerk_invitation_token", "inv_1")]))
              None None Sample.form)
    as [_ (c' & Hrun & _ & Hsecond & _)].
  exists c'. split; [exact Hrun |].
  apply Hsecond; reflexivity.
Defined.

(** C6 as stated fails in its last part: the ticket is assigned twice with
    no [RESET] in between.  A visitor arrives with the ticket [tkt_1]; the
    machine goes through [Init] and [Start.Init] to [Start.Attempting];
    [NAVIGATE.PREVIOUS] takes it to [Idle]; the next [INIT], from a page
    whose query holds [tkt_2], assigns that ticket.  And a name that is
    present with an empty value does not win: the other name is read. *)
Lemma ticket_reassigned_without_RESET :
  let first :=
    INIT (clerk Sample.invited) (router Sample.invited) None None
         Sample.form in
  let second :=
    INIT (clerk Sample.invited)
         (Some (Sample.router_at "/sign-up" [("__clerk_ticket", "tkt_2")]))
         None None Sample.form in
  let attempting := set_loading (loading_begun "start") Sample.invited in
  (exists c4 effs1 effs2 effs4,
     on_event (K := Sample.constants) (X := Sample.page) Idle Sample.created
       first
     = Ok (Init, Sample.invited, effs1)
     /\ ticket Sample.invited = Some "tkt_1"
     /\ on_always (K := Sample.constants) (X := Sample.page) Init
          Sample.invited first
        = Ok (Some (Start_Init, Sample.invited, effs2))
     /\ on_always (K := Sample.constants) (X := Sample.page) Start_Init
          Sample.invited first
        = Ok (Some (Start_Attempting, attempting, []))
     /\ on_event (K := Sample.constants) (X := Sample.page) Start_Attempting
          attempting NAVIGATE_PREVIOUS
        = Ok (Idle, Sample.invited, effs4)
     /\ on_event (K := Sample.constants) (X := Sample.page) Idle
          Sample.invited second
        = Ok (Init, c4, [])
     /\ ticket c4 = Some "tkt_2")
  /\ exists c',
       exec (K := Sample.constants) (X := Sample.page) I_idle_init
         Sample.created
         (INIT (clerk Sample.invited)
               (Some (Sample.router_at "/sign-up"
                        [("__clerk_ticket", "");
                         ("__clerk_invitation_token", "inv_1")]))
               None None Sample.form)
       = Ok (c', [])
       /\ ticket c' = Some "inv_1".
Proof.
  cbn zeta. split.
  - eexists _, _, _, _.
    repeat (split; [vm_compute; reflexivity |]). reflexivity.
  - eexists. split; [vm_compute; reflexivity | reflexivity].
Qed.

(** ** Example mode *)

Lemma calls_setFormDisabledTicketFields (c : Context) (e : Event) :
  calls (setFormDisabledTicketFields c e tt) = [].
Proof.
  unfold setFormDisabledTicketFields.
  destruct (negb (truthy (ticket c))); [reflexivity |].
  cbn [DISABLEABLE_FIELDS flat_map].
  destruct (JsMap.has (fields (formRef c)) "emailAddress"),
    (JsMap.has (fields (formRef c)) "phoneNumber"); reflexivity.
Qed.

Lemma exec_quiet_in_example {K : Constants} {X : Externals}
    (a : ActionRef) (c c' : Context) (e : Event) (effs : list Effect) :
  quiet_in_example a = true -> exampleMode c = true ->
  exec a c e = Ok (c', effs) ->
  exampleMode c' = true /\ no_navigation effs.
Proof.
  intros Hq Hex H. unfold no_navigation.
  destruct a; try discriminate Hq; run_action H;
    (split; [assumption |]);
    try (repeat constructor; fail).
  - unfold navigateInternal. destruct (router c); [| constructor].
    rewrite Hex. destruct (negb _ && _); constructor.
  - unfold setActive. rewrite Hex. constructor.
  - rewrite calls_setFormDisabledTicketFields. constructor.
  - unfold setFormOAuthErrors.
    destruct (signIn_firstFactorVerification_error (client (clerk c)));
      repeat constructor.
Qed.

Lemma hook_quiet (a : ActionRef) : hook a -> quiet_in_example a = true.
Proof. intros Hh. hook_cases Hh; reflexivity. Qed.

Lemma transition_quiet {K : Constants} {X : Externals}
    (n : StateId) (e : Event) (t : Transition) :
  In t (transitions n e) ->
  (n = Idle /\ is_INIT e = true)
  \/ Forall (fun a => quiet_in_example a = true) (actions t).
Proof.
  intros H.
  table_cases n e H; try (left; split; reflexivity);
    right; repeat constructor.
Qed.

Lemma always_quiet {K : Constants} {X : Externals}
    (n : StateId) (t : Transition) :
  In t (always n) ->
  guard t = Some isLoggedInAndSingleSession
  \/ Forall (fun a => quiet_in_example a = true) (actions t).
Proof.
  intros H.
  destruct n; cbn [always In] in H;
    repeat (destruct H as [H | H]; [subst |]); try contradiction;
    try (left; reflexivity); right; repeat constructor.
Qed.

Lemma isLoggedInAndSingleSession_not_example {K : Constants}
    (c : Context) (e : Event) :
  isLoggedInAndSingleSession c e = Ok true -> exampleMode c = false.
Proof.
  unfold isLoggedInAndSingleSession. cbn [g_and]. intros H.
  apply bind_Ok in H. destruct H as [b1 [_ H]].
  destruct b1; [| discriminate H].
  apply bind_Ok in H. destruct H as [b2 [_ H]].
  destruct b2; [| discriminate H].
  apply bind_Ok in H. destruct H as [b3 [H3 H]].
  destruct b3; [| discriminate H].
  unfold g_not, isExampleMode, pure_guard in H3. cbn [bind] in H3.
  injection H3 as H3. destruct (exampleMode c); [discriminate H3 | reflexivity].
Qed.

Lemma exec_all_quiet_in_example {K : Constants} {X : Externals}
    (acts : list ActionRef) (c c' : Context) (e : Event) (effs : list Effect) :
  Forall (fun a => quiet_in_example a = true) acts ->
  exampleMode c = true ->
  exec_all acts c e = Ok (c', effs) ->
  no_navigation effs.
Proof.
  intros Hg Hex H.
  destruct (exec_all_invariant (fun a => quiet_in_example a = true)
              (fun x => exampleMode x = true)
              (fun x => is_navigation x = false /\ is_activation x = false))
    with (acts := acts) (c := c) (e := e) (c' := c') (effs := effs)
    as [_ Hq]; auto.
  intros a x e0 x' effs0 Ha Hx Hrun.
  exact (exec_quiet_in_example _ _ _ _ _ Ha Hx Hrun).
Qed.

Lemma on_event_quiet_in_example {K : Constants} {X : Externals}
    (active active' : StateId) (c c' : Context) (e : Event)
    (effs : list Effect) :
  exampleMode c = true ->
  on_event active c e = Ok (active', c', effs) ->
  no_navigation effs.
Proof.
  intros Hex H.
  destruct (StateId_eq_dec active Idle) as [-> | Hne].
  - destruct e; cbn -[running] in H; unfold exec_all in H;
      cbn -[running] in H;
      unfold init_spawn, authenticate_oauth, authenticate_saml,
        authenticate_web3, sendTo_thirdParty, sendTo_actor in H;
      repeat match type of H with
             | context [running ?i ?x] =>
                 destruct (running i x); cbn -[running] in H
             end;
      try discriminate H; injection H as _ _ <-; repeat constructor.
  - apply on_event_runs in H.
    destruct H as [[_ ->] | (src & t & pre & post & Hsrc & Ht & _ & Hpre & Hpost & Hrun)];
      [constructor |].
    apply (exec_all_quiet_in_example _ _ _ _ _) with (2 := Hex) in Hrun;
      [exact Hrun |].
    apply Forall_app; split; [| apply Forall_app; split].
    + eapply Forall_impl; [| exact Hpre]. exact hook_quiet.
    + destruct (transition_quiet _ _ _ Ht) as [[-> _] | Hq]; [| exact Hq].
      apply Idle_alone in Hsrc. contradiction.
    + eapply Forall_impl; [| exact Hpost]. exact hook_quiet.
Qed.

Lemma on_always_quiet_in_example {K : Constants} {X : Externals}
    (active active' : StateId) (c c' : Context) (e : Event)
    (effs : list Effect) :
  exampleMode c = true ->
  on_always active c e = Ok (Some (active', c', effs)) ->
  no_navigation effs.
Proof.
  intros Hex H. apply on_always_runs in H.
  destruct H as (src & t & pre & post & _ & Ht & Hen & Hpre & Hpost & Hrun).
  apply (exec_all_quiet_in_example _ _ _ _ _) with (2 := Hex) in Hrun;
    [exact Hrun |].
  apply Forall_app; split; [| apply Forall_app; split].
  - eapply Forall_impl; [| exact Hpre]. exact hook_quiet.
  - destruct (always_quiet _ _ Ht) as [Hg | Hq]; [| exact Hq].
    unfold enabled in Hen. rewrite Hg in Hen.
    apply isLoggedInAndSingleSession_not_example in Hen. congruence.
  - eapply Forall_impl; [| exact Hpost]. exact hook_quiet.
Qed.

(** C7.  In a context with [exampleMode] set, [navigateInternal] pushes
    nothing and [setActive] activates no session.  No other navigation
    effect reaches the adapter either.  [navigateExternal] has no
    example-mode check of its own (it pushes whenever a router is
    attached), but the machine runs it in one place only, the first branch
    of [Init], whose guard holds only when [exampleMode] is not set; every
    other action the tables or the entry and exit lists run is quiet in
    example mode.  So no event step and no eventless step the machine
    takes from a context with [exampleMode] set reaches the navigation
    adapter or activates a session. *)
Theorem example_mode_is_guarded {K : Constants} {X : Externals} :
  (forall c e p,
      exampleMode c = true -> exec (A_navigateInternal p) c e = Ok (c, []))
  /\ (forall c e p,
        exampleMode c = true -> exec (A_setActive p) c e = Ok (c, []))
  /\ (forall c e p r,
        router c = Some r ->
        exec (A_navigateExternal p) c e = Ok (c, [Router_push (p c)]))
  /\ (forall c e,
        isLoggedInAndSingleSession c e = Ok true -> exampleMode c = false)
  /\ (forall n t,
        In t (always n) ->
        guard t = Some isLoggedInAndSingleSession
        \/ Forall (fun a => quiet_in_example a = true) (actions t))
  /\ (forall n e t,
        In t (transitions n e) ->
        (n = Idle /\ is_INIT e = true)
        \/ Forall (fun a => quiet_in_example a = true) (actions t))
  /\ (forall a, hook a -> quiet_in_example a = true)
  /\ (forall active c e active' c' effs,
        exampleMode c = true ->
        on_event active c e = Ok (active', c', effs) ->
        no_navigation effs)
  /\ (forall active c e active' c' effs,
        exampleMode c = true ->
        on_always active c e = Ok (Some (active', c', effs)) ->
        no_navigation effs).
Proof.
  split; [| split; [| split; [| split; [| split; [| split; [| split; [| split]]]]]]].
  - intros c e p Hex. cbn [exec]. rewrite custom_runs.
    unfold navigateInternal. destruct (router c); [| reflexivity].
    rewrite Hex. destruct (negb _ && _); reflexivity.
  - intros c e p Hex. cbn [exec]. rewrite custom_runs.
    unfold setActive. rewrite Hex. reflexivity.
  - intros c e p r Hr. cbn [exec]. rewrite custom_runs.
    unfold navigateExternal. rewrite Hr. reflexivity.
  - exact isLoggedInAndSingleSession_not_example.
  - exact always_quiet.
  - exact transition_quiet.
  - exact hook_quiet.
  - intros. eapply on_event_quiet_in_example; eassumption.
  - intros. eapply on_always_quiet_in_example; eassumption.
Qed.

Lemma example_mode_is_guarded_witness :
  exec (K := Sample.constants) (X := Sample.page)
       (nav_forced "/verify") Sample.preview SUBMIT
  = Ok (Sample.preview, [])
  /\ exec (K := Sample.constants) (X := Sample.page)
          (A_setActive None) Sample.preview (NEXT (Some Sample.verified_signUp))
     = Ok (Sample.preview, []).
Proof.
  split.
  - apply (proj1 (example_mode_is_guarded (K := Sample.constants)
                    (X := Sample.page))).
    reflexivity.
  - apply (proj1 (proj2 (example_mode_is_guarded (K := Sample.constants)
                           (X := Sample.page)))).
    reflexivity.
Defined.

(** ** The decision of [Init] *)

Lemma total_pure (f : Context -> Event -> bool) : total (pure_guard f).
Proof. intros c e. exists (f c e). reflexivity. Qed.

Lemma total_not (g : Guard) : total g -> total (g_not g).
Proof.
  intros Hg c e. destruct (Hg c e) as [b Hb].
  exists (negb b). unfold g_not. rewrite Hb. reflexivity.
Qed.

Lemma total_and (gs : list Guard) : Forall total gs -> total (g_and gs).
Proof.
  induction 1 as [| g gs Hg _ IH]; intros c e; cbn [g_and].
  - exists true. reflexivity.
  - destruct (Hg c e) as [b Hb]. rewrite Hb. cbn [bind].
    destruct b; [apply IH | exists false; reflexivity].
Qed.

Lemma total_or (gs : list Guard) : Forall total gs -> total (g_or gs).
Proof.
  induction 1 as [| g gs Hg _ IH]; intros c e; cbn [g_or].
  - exists false. reflexivity.
  - destruct (Hg c e) as [b Hb]. rewrite Hb. cbn [bind].
    destruct b; [exists true; reflexivity | apply IH].
Qed.

(** Proves that a guard built from pure guards with [g_and], [g_or] and
    [g_not] never throws. *)
Ltac prove_total :=
  repeat first
    [ apply total_pure | apply total_not | apply total_and | apply total_or
    | apply Forall_cons | apply Forall_nil
    | progress unfold isLoggedInAndSingleSession, isLoggedIn, isComplete,
        isSingleSessionMode, isExampleMode, needsCallback, isCurrentPath,
        hasTicket, needsVerification, statusNeedsVerification,
        isMissingRequiredUnverifiedFields, isStatusMissingRequirements,
        needsStatus, areFieldsUnverified, areFieldsMissing, hasClerkStatus,
        needsContinue, statusNeedsContinue, isMissingRequiredFields,
        hasClerkTransfer, isRestrictedWithoutTicket, isRestricted ].






(** ** Choosing the verification strategy *)

Lemma isFieldUnverified_reads_effective
    (field : string) (c : Context) (e : Event) (r : SignUpResource) :
  effective_resource c e = Some r ->
  isFieldUnverified field c e = Ok (includes (unverifiedFields r) field).
Proof.
  unfold effective_resource, isFieldUnverified.
  destruct e as [| | | | | [r' |] | | | | | | | | | | | | |]; intros H;
    try (rewrite H; reflexivity).
  injection H as ->. reflexivity.
Qed.

(** What [isStrategyEnabled] makes of the account settings: the strategy
    is enabled when the attributes list it among the verifications of the
    attribute; without environment or attributes it is not; and the guard
    throws when the attributes have no entry for the attribute. *)
Lemma isStrategyEnabled_reads_settings
    (attribute strategy_ : string) (c : Context) (e : Event) :
  (forall env attrs vs,
      __unstable__environment (clerk c) = Some env ->
      attributes (userSettings env) = Some attrs ->
      JsMap.get attrs attribute = Some vs ->
      isStrategyEnabled attribute strategy_ c e = Ok (includes vs strategy_))
  /\ (__unstable__environment (clerk c) = None
      \/ (exists env, __unstable__environment (clerk c) = Some env
                      /\ attributes (userSettings env) = None) ->
      isStrategyEnabled attribute strategy_ c e = Ok false).
Proof.
  unfold isStrategyEnabled. split.
  - intros env attrs vs -> -> ->. reflexivity.
  - intros [-> | [env [-> ->]]]; reflexivity.
Qed.

(** C2, as the code has it.  [Verification.Init] asks its three guards in
    the order phone code, email link, email code, and goes to the sub-flow
    of the first that holds: the phone code whenever [phone_number] is
    unverified in the effective resource, whatever the email address and
    the settings are; else the email link when [email_address] is
    unverified and the attributes of the account settings list
    [email_link] among the verifications of [email_address]; else the
    email code when [email_address] is unverified and they list
    [email_code].  Without environment or attributes no email strategy is
    enabled.  When no guard holds, [Verification.Init] takes no transition
    of its own and the machine enters no sub-flow: whatever eventless step
    it then takes leaves it in [Verification.Init].  So it enters at most
    one sub-flow, and with both fields unverified the phone code is
    chosen. *)
Theorem Verification_dispatches_by_priority {K : Constants} {X : Externals}
    (c : Context) (e : Event) (r : SignUpResource) :
  effective_resource c e = Some r ->
  let phone := includes (unverifiedFields r) "phone_number" in
  let email := includes (unverifiedFields r) "email_address" in
  let stays :=
    forall node c' effs,
      on_always Verification_Init c e = Ok (Some (node, c', effs)) ->
      node = Verification_Init in
  (phone = true ->
   select (always Verification_Init) c e
   = Ok (Some (go (Some shouldVerifyPhoneCode) [] PhoneCode))
   /\ on_always Verification_Init c e
      = Ok (Some (PhoneCode_Preparing, c, [])))
  /\ (forall env attrs vs,
        __unstable__environment (clerk c) = Some env ->
        attributes (userSettings env) = Some attrs ->
        JsMap.get attrs "email_address" = Some vs ->
        let link := includes vs "email_link" in
        let code_ := includes vs "email_code" in
        select (always Verification_Init) c e
        = Ok (if phone then Some (go (Some shouldVerifyPhoneCode) [] PhoneCode)
              else if email && link
              then Some (go (Some shouldVerifyEmailLink) [] EmailLink)
              else if email && code_
              then Some (go (Some shouldVerifyEmailCode) [] EmailCode)
              else None)
        /\ (phone = false -> email && link = true ->
            on_always Verification_Init c e
            = Ok (Some (EmailLink_Preparing, c, [])))
        /\ (phone = false -> email && link = false -> email && code_ = true ->
            on_always Verification_Init c e
            = Ok (Some (EmailCode_Preparing, c, [])))
        /\ (phone = false -> email && link = false -> email && code_ = false ->
            stays))
  /\ (__unstable__environment (clerk c) = None
      \/ (exists env, __unstable__environment (clerk c) = Some env
                      /\ attributes (userSettings env) = None) ->
      select (always Verification_Init) c e
      = Ok (if phone then Some (go (Some shouldVerifyPhoneCode) [] PhoneCode)
            else None)
      /\ (phone = false -> stays)).
Proof.
  intros Hr. cbn zeta.
  assert (Hp := isFieldUnverified_reads_effective "phone_number" c e r Hr).
  assert (He := isFieldUnverified_reads_effective "email_address" c e r Hr).
  assert (Hgo : forall t tgt,
    select (always Verification_Init) c e = Ok (Some t) ->
    target t = Some tgt ->
    on_always Verification_Init c e
    = res <- microstep Verification_Init Verification_Init t c e ;;
      Ok (Some res)).
  { intros t tgt Ht _.
    unfold on_always. cbn [chain chain_from select_in parent].
    rewrite Ht. reflexivity. }
  assert (Hstay :
    select (always Verification_Init) c e = Ok None ->
    forall node c' effs,
      on_always Verification_Init c e = Ok (Some (node, c', effs)) ->
      node = Verification_Init).
  { intros Hnone node c' effs.
    unfold on_always. cbn [chain chain_from select_in parent].
    rewrite Hnone. cbn [bind always select guard stay].
    unfold hasCreatedSession, hasClerkStatus, pure_guard. cbn [bind].
    repeat match goal with
           | |- context [if ?b then _ else _] => destruct b; cbn [bind]
           end;
      unfold microstep; cbn [target stay];
      intros H; try discriminate H;
      apply bind_Ok in H; destruct H as [[[n1 c1] effs1] [H1 H]];
      apply bind_Ok in H1; destruct H1 as [r1 [_ H1]];
      injection H1 as <- _ _; injection H as <- _ _; reflexivity. }
  assert (Sphone :
    includes (unverifiedFields r) "phone_number" = true ->
    select (always Verification_Init) c e
    = Ok (Some (go (Some shouldVerifyPhoneCode) [] PhoneCode))).
  { intros Hphone. cbn [always select guard go].
    unfold shouldVerifyPhoneCode, shouldVerify. cbn [g_and].
    rewrite Hp, Hphone. reflexivity. }
  assert (Hemail : forall link code_,
    isStrategyEnabled "email_address" "email_link" c e = Ok link ->
    isStrategyEnabled "email_address" "email_code" c e = Ok code_ ->
    select (always Verification_Init) c e
    = Ok (if includes (unverifiedFields r) "phone_number"
          then Some (go (Some shouldVerifyPhoneCode) [] PhoneCode)
          else if includes (unverifiedFields r) "email_address" && link
          then Some (go (Some shouldVerifyEmailLink) [] EmailLink)
          else if includes (unverifiedFields r) "email_address" && code_
          then Some (go (Some shouldVerifyEmailCode) [] EmailCode)
          else None)).
  { intros link code_ Hlink Hcode.
    destruct (includes (unverifiedFields r) "phone_number") eqn:Hphone;
      [exact (Sphone eq_refl) |].
    cbn [always select guard go].
    unfold shouldVerifyPhoneCode, shouldVerifyEmailLink,
      shouldVerifyEmailCode, shouldVerify.
    cbn [g_and app]. rewrite Hp, He. cbn [bind].
    destruct (includes (unverifiedFields r) "email_address");
      cbn [bind andb]; [| reflexivity].
    rewrite Hlink. cbn [bind]. destruct link; cbn [bind]; [reflexivity |].
    rewrite Hcode. cbn [bind]. destruct code_; reflexivity. }
  split; [| split].
  - intros Hphone. split; [exact (Sphone Hphone) |].
    rewrite (Hgo _ PhoneCode (Sphone Hphone) eq_refl). reflexivity.
  - intros env attrs vs Henv Hattrs Hget. cbn zeta.
    destruct (isStrategyEnabled_reads_settings "email_address" "email_link"
                c e) as [Hl _].
    destruct (isStrategyEnabled_reads_settings "email_address" "email_code"
                c e) as [Hc _].
    specialize (Hl env attrs vs Henv Hattrs Hget).
    specialize (Hc env attrs vs Henv Hattrs Hget).
    assert (Hsel := Hemail _ _ Hl Hc).
    split; [exact Hsel |].
    split; [| split]; intros Hphone.
    + intros H1. rewrite Hphone, H1 in Hsel.
      rewrite (Hgo _ EmailLink Hsel eq_refl). reflexivity.
    + intros H1 H2. rewrite Hphone, H1, H2 in Hsel.
      rewrite (Hgo _ EmailCode Hsel eq_refl). reflexivity.
    + intros H1 H2. rewrite Hphone, H1, H2 in Hsel. exact (Hstay Hsel).
  - intros Hno.
    destruct (isStrategyEnabled_reads_settings "email_address" "email_link"
                c e) as [_ Hl].
    destruct (isStrategyEnabled_reads_settings "email_address" "email_code"
                c e) as [_ Hc].
    assert (Hsel := Hemail _ _ (Hl Hno) (Hc Hno)).
    rewrite !andb_false_r in Hsel.
    split; [exact Hsel |].
    intros Hphone. rewrite Hphone in Hsel. exact (Hstay Hsel).
Qed.

Lemma Verification_dispatches_by_priority_witness :
  includes (unverifiedFields Sample.unverified_signUp) "email_address" = true
  /\ on_always (K := Sample.constants) (X := Sample.page) Verification_Init
       Sample.verifying (NEXT (Some Sample.unverified_signUp))
     = Ok (Some (PhoneCode_Preparing, Sample.verifying, []))
  /\ on_always (K := Sample.constants) (X := Sample.page) Verification_Init
       Sample.verifying (NEXT (Some Sample.email_signUp))
     = Ok (Some (EmailLink_Preparing, Sample.verifying, [])).
Proof.
  split; [reflexivity |]. split.
  - apply (proj1 (Verification_dispatches_by_priority (K := Sample.constants)
                    (X := Sample.page) Sample.verifying
                    (NEXT (Some Sample.unverified_signUp))
                    Sample.unverified_signUp eq_refl)).
    reflexivity.
  - destruct (proj1 (proj2
      (Verification_dispatches_by_priority (K := Sample.constants)
         (X := Sample.page) Sample.verifying
         (NEXT (Some Sample.email_signUp)) Sample.email_signUp eq_refl))
      (Sample.settings "public")
      [("email_address", ["email_link"; "email_code"]);
       ("phone_number", ["phone_code"])]
      ["email_link"; "email_code"] eq_refl eq_refl eq_refl)
      as (_ & Hlink & _).
    apply Hlink; reflexivity.
Defined.

(** C2 as stated fails where it says that exactly one sub-flow is entered.
    A visitor verifies the phone number while a wallet waits for
    verification as well: the attempt returns a sign-up whose only
    unverified field is the wallet, the machine stores it and raises
    [NEXT] with it, [NEXT] leads back to [Verification.Init], and there no
    guard holds: the machine enters no sub-flow and takes no eventless
    step.  The same happens when the email address is unverified and the
    settings list neither [email_link] nor [email_code] for it. *)
Lemma Verification_Init_may_enter_no_sub_flow :
  let c1 := set_resource (Some Sample.wallet_signUp) Sample.wallet_left in
  let c2 := set_loading loading_ended c1 in
  let e := NEXT (Some Sample.wallet_signUp) in
  on_event (K := Sample.constants) (X := Sample.page) PhoneCode_Attempting
    Sample.wallet_left
    (done_actor "attemptPhoneNumberVerification" Sample.wallet_signUp)
  = Ok (PhoneCode_Attempting, c1, [Raise e None])
  /\ on_event (K := Sample.constants) (X := Sample.page) PhoneCode_Attempting
       c1 e
     = Ok (Verification_Init, c2, [])
  /\ effective_resource c2 e = Some Sample.wallet_signUp
  /\ select (always (K := Sample.constants) Verification_Init) c2 e = Ok None
  /\ on_always (K := Sample.constants) (X := Sample.page) Verification_Init
       c2 e
     = Ok None
  /\ on_always (K := Sample.constants) (X := Sample.page) Verification_Init
       Sample.password_only (NEXT (Some Sample.email_signUp))
     = Ok None.
Proof.
  cbn zeta. repeat split; vm_compute; reflexivity.
Qed.

(** ** Preparing a verification *)


(** Computes the step of the goal up to the two assertions, which the
    hypotheses [Hdone] and [Herror] then settle. *)
Ltac run_step Hdone Herror :=
  cbv -[assertActorEventDone assertActorEventError];
  rewrite ?Hdone, ?Herror;
  reflexivity.




(** ** Commands to the form store that are built and never sent *)

(** Runs the action list of the goal, keeping
    [setFormDisabledTicketFields] folded. *)
Ltac run_actions :=
  try unfold exec_all; cbn [run_all exec timing];
  unfold setResource, goToNextStep, setFormErrors, loadingEnd, assign,
    sendTo_form, raise;
  cbn [bind fst snd];
  rewrite ?custom_runs, ?calls_setFormDisabledTicketFields;
  cbn [bind fst snd app].

(** C4 on the code.  In [Start.Attempting] a successful attempt stores the
    returned resource and raises [NEXT] with it; a failed attempt sends the
    error to the form store, ends the loading state and returns to
    [Start.Pending] with the resource of the context as it was.  Neither
    path disables a field: [setFormDisabledTicketFields] builds a [sendTo]
    action object for [FIELD.DISABLE] inside a custom action, where nothing
    runs it, so it never calls the form store; with a ticket and an
    [emailAddress] field the first unused object is the one that would
    disable that field. *)
Theorem Start_Attempting_never_disables_fields {K : Constants} {X : Externals}
    (c : Context) (e : Event) (out : SignUpResource) (err : ErrorValue) :
  assertions_pass ->
  let ended := {| action := None; isLoading := false; step := None;
                  strategy := None |} in
  on_event Start_Attempting c (done_actor "startAttempt" out)
  = Ok (Start_Attempting, set_resource (Some out) c,
        [Raise (NEXT (Some out)) None])
  /\ on_event Start_Attempting c (error_actor "startAttempt" err)
     = Ok (Start_Pending, set_loading ended c,
           [Form_send (formRef c) (ERRORS_SET err)])
  /\ resource (set_loading ended c) = resource c
  /\ exec A_setFormDisabledTicketFields c e = Ok (c, [])
  /\ (truthy (ticket c) = true ->
      JsMap.has (fields (formRef c)) "emailAddress" = true ->
      exists o rest,
        setFormDisabledTicketFields c e tt = Expr o :: rest
        /\ o c e
           = Ok (c, [Form_send (formRef c) (FIELD_DISABLE "emailAddress")])).
Proof.
  intros [Hdone Herror]. cbn zeta.
  assert (Hnone : exec A_setFormDisabledTicketFields c e = Ok (c, [])).
  { cbn [exec]. rewrite custom_runs, calls_setFormDisabledTicketFields.
    reflexivity. }
  repeat apply conj.
  - unfold on_event. cbn [chain chain_from parent select_in transitions].
    rewrite String.eqb_refl. cbn [select guard go stay bind].
    unfold microstep. cbn [target stay actions].
    run_actions. rewrite Hdone. cbn [bind fst snd].
    run_actions. reflexivity.
  - unfold on_event. cbn [chain chain_from parent select_in transitions].
    rewrite String.eqb_refl. cbn [select guard go stay bind].
    unfold microstep. cbn [target go actions reenter resolve].
    change (exit_set Start_Attempting Start_Attempting Start_Pending false)
      with [Start_Attempting].
    change (entry_set Start_Attempting Start_Pending false)
      with [Start_Pending].
    cbn [flat_map exit entry app last].
    run_actions. rewrite Herror. reflexivity.
  - reflexivity.
  - exact Hnone.
  - intros Ht Hf. unfold setFormDisabledTicketFields.
    rewrite Ht. cbn [negb DISABLEABLE_FIELDS flat_map]. rewrite Hf.
    cbn [app]. eexists _, _. split; reflexivity.
Qed.

Lemma Start_Attempting_never_disables_fields_witness :
  truthy (ticket Sample.invited) = true
  /\ JsMap.has (fields (formRef Sample.invited)) "emailAddress" = true
  /\ on_event (K := Sample.constants) (X := Sample.page) Start_Attempting
       Sample.invited (done_actor "startAttempt" Sample.unverified_signUp)
     = Ok (Start_Attempting,
           set_resource (Some Sample.unverified_signUp) Sample.invited,
           [Raise (NEXT (Some Sample.unverified_signUp)) None])
  /\ on_event (K := Sample.constants) (X := Sample.page) Start_Attempting
       Sample.invited
       (error_actor "startAttempt" (ClerkElementsRuntimeError "refused"))
     = Ok (Start_Pending, Sample.invited,
           [Form_send Sample.form
              (ERRORS_SET (ClerkElementsRuntimeError "refused"))]).
Proof.
  pose proof (Start_Attempting_never_disables_fields
                (K := Sample.constants) (X := Sample.page) Sample.invited
                RESET Sample.unverified_signUp
                (ClerkElementsRuntimeError "refused")
                (conj (fun _ _ => eq_refl) (fun _ _ => eq_refl)))
    as (Hok & Hfail & _).
  split; [reflexivity |]. split; [reflexivity |].
  split; [exact Hok | exact Hfail].
Defined.

(** C9 on the code.  The entry action of [Continue] is
    [markFormAsProgressive] and its exit action is
    [unmarkFormAsProgressive].  The exit action calls the form store with
    [UNMARK_AS_PROGRESSIVE].  The entry action computes the camel-cased
    missing, optional and required lists and the default values and builds
    a [sendTo] action object for [MARK_AS_PROGRESSIVE] with them, inside a
    custom action, where nothing runs it: entering [Continue] sends the
    form store nothing.  The visitor whose attempt left a field missing
    reaches [Continue] from [Start] with the form store told only to clear
    its errors. *)
Theorem Continue_entry_marks_nothing {K : Constants} {X : Externals}
    (c : Context) (e : Event) :
  let signUp_ := signUp (client (clerk c)) in
  let mark :=
    MARK_AS_PROGRESSIVE
      (map snakeToCamel (missingFields signUp_))
      (map snakeToCamel (optionalFields signUp_))
      (map snakeToCamel (requiredFields signUp_))
      (collect_values signUp_
         (map snakeToCamel (requiredFields signUp_)
          ++ map snakeToCamel (optionalFields signUp_))%list) in
  entry Continue = [A_markFormAsProgressive]
  /\ exit Continue = [A_unmarkFormAsProgressive]
  /\ exec_all (exit Continue) c e
     = Ok (c, [Form_send (formRef c) UNMARK_AS_PROGRESSIVE])
  /\ exec_all (entry Continue) c e = Ok (c, [])
  /\ (exists o,
        markFormAsProgressive c e tt = [Expr o]
        /\ o c e = Ok (c, [Form_send (formRef c) mark]))
  /\ on_event (K := Sample.constants) (X := Sample.page) Start_Pending
       Sample.continuing (NEXT (Some Sample.incomplete_signUp))
     = Ok (Continue_Pending, Sample.continuing,
           [Router_shallowPush "/sign-up/continue";
            Form_send Sample.form ERRORS_CLEAR]).
Proof.
  cbn zeta. repeat apply conj; try reflexivity.
  eexists. split; reflexivity.
Qed.

(** * Further properties of the machine *)

(** ** Steps as microsteps *)

(** An event step that changes something is the microstep of an enabled
    transition of the active node or of one of its ancestors. *)
Lemma on_event_microstep {K : Constants} {X : Externals}
    (active active' : StateId) (c c' : Context) (e : Event)
    (effs : list Effect) :
  on_event active c e = Ok (active', c', effs) ->
  (active' = active /\ c' = c /\ effs = [])
  \/ exists src t,
       In src (chain active) /\ In t (transitions src e) /\ enabled t c e
       /\ microstep active src t c e = Ok (active', c', effs).
Proof.
  unfold on_event. intros H.
  apply bind_Ok in H. destruct H as [sel [Hsel H]].
  destruct sel as [[src t] |].
  - right. apply select_in_sound in Hsel. destruct Hsel as (Hn & Ht & Hen).
    exists src, t. auto.
  - left. destruct (is_error_actor e); [discriminate H |].
    injection H as <- <- <-. auto.
Qed.

Lemma on_always_microstep {K : Constants} {X : Externals}
    (active active' : StateId) (c c' : Context) (e : Event)
    (effs : list Effect) :
  on_always active c e = Ok (Some (active', c', effs)) ->
  exists src t,
    In src (chain active) /\ In t (always src) /\ enabled t c e
    /\ microstep active src t c e = Ok (active', c', effs).
Proof.
  unfold on_always. intros H.
  apply bind_Ok in H. destruct H as [sel [Hsel H]].
  destruct sel as [[src t] |]; [| discriminate H].
  apply bind_Ok in H. destruct H as [[[a1 c1] effs1] [Hm H]].
  injection H as <- <- <-.
  apply select_in_sound in Hsel. destruct Hsel as (Hn & Ht & Hen).
  exists src, t. auto.
Qed.

(** Splits on the ancestors of a given node. *)
Ltac chain_cases H :=
  cbn [chain chain_from parent In] in H;
  repeat (destruct H as [H | H]; [subst |]); try contradiction.

(** Splits on the event of the transition table of a given node. *)
Ltac event_cases e H :=
  destruct e; cbn [transitions countdown] in H;
  repeat match type of H with
         | context [if String.eqb ?a ?b then _ else _] =>
             destruct (String.eqb a b)
         | context [match ?x with Root => _ | _ => _ end] =>
             is_var x; destruct x
         end;
  cbn [In] in H;
  repeat (destruct H as [H | H]; [subst |]);
  try contradiction.

(** Runs the microstep of the goal: the nodes left and entered are
    computed, the action list is run action by action. *)
Ltac run_microstep :=
  unfold microstep; cbn [target go go_reenter stay reenter actions resolve];
  repeat match goal with
         | |- context [exit_set ?a ?b ?c ?d] =>
             let v := eval vm_compute in (exit_set a b c d) in
             change (exit_set a b c d) with v
         | |- context [entry_set ?b ?c ?d] =>
             let v := eval vm_compute in (entry_set b c d) in
             change (entry_set b c d) with v
         end;
  cbn [flat_map exit entry app last nav nav_forced loading_step];
  try unfold exec_all;
  repeat progress
    (cbn [run_all timing exec bind fst snd app nav nav_forced loading_step];
     unfold clearFormErrors, sendTo_form, loadingBegin, loadingEnd,
       resendableReset, delayedReset, raise, assign;
     rewrite ?custom_runs);
  rewrite ?app_nil_r.

(** Selects among the transitions of the goal's event step. *)
Ltac select_step :=
  unfold on_event;
  cbn [chain chain_from parent select_in transitions select guard go stay
       go_reenter g_and bind].

Lemma total_NEXT_guards {K : Constants} :
  total isComplete /\ total hasTicket /\ total statusNeedsVerification
  /\ total statusNeedsContinue /\ total hasAuthenticatedViaClerkJS.
Proof. repeat apply conj; prove_total. Qed.

(** ** Events every state answers *)

(** X1.  [RESET] is answered in every state, by the root alone, and
    cannot fail: whatever node is active, the machine leaves it and lands in
    [Idle].  On the way out it tells the form store at most to clear its
    errors and to unmark the progressive form; it keeps what [INIT]
    captured (client, router, sign-in path, example mode, form reference,
    ticket) and the resource and the error of the context. *)
Theorem RESET_returns_to_Idle {K : Constants} {X : Externals}
    (active : StateId) (c : Context) :
  exists c' effs,
    on_event active c RESET = Ok (Idle, c', effs)
    /\ clerk c' = clerk c /\ router c' = router c
    /\ signInPath c' = signInPath c /\ exampleMode c' = exampleMode c
    /\ formRef c' = formRef c /\ ticket c' = ticket c
    /\ resource c' = resource c /\ error c' = error c
    /\ Forall (fun x => x = Form_send (formRef c) ERRORS_CLEAR
                        \/ x = Form_send (formRef c) UNMARK_AS_PROGRESSIVE)
              effs.
Proof.
  destruct active;
    (eexists; eexists; split; [lazy; reflexivity |]);
    repeat (split; [reflexivity |]);
    repeat first
      [ apply Forall_nil
      | apply Forall_cons;
        [first [left; reflexivity | right; reflexivity] |] ].
Qed.

(** The step of [INIT] in [Idle]: the [assign] of the handler, then the
    entry of [Init]. *)
Lemma Idle_INIT_step {K : Constants} {X : Externals}
    (c : Context) (k : Clerk) (r : option Router) (sp : jsstring)
    (ex : option bool) (f : FormRef) :
  exists c0,
    exec I_idle_init c (INIT k r sp ex f) = Ok (c0, [])
    /\ children c0 = children c
    /\ on_event Idle c (INIT k r sp ex f)
       = Ok (Init,
             (if running ThirdPartyMachineId c then c0
              else set_children (ThirdPartyMachineId :: children c) c0),
             if running ThirdPartyMachineId c then []
             else
               [Spawn_child ThirdPartyMachineId
                  (match r with
                   | Some r' => basePath r'
                   | None => SIGN_UP_DEFAULT_BASE_PATH
                   end) f]).
Proof.
  eexists. split; [reflexivity |]. split; [reflexivity |].
  unfold on_event.
  cbn [chain chain_from parent select_in transitions select guard go bind].
  unfold microstep. cbn [target go actions reenter resolve].
  change (exit_set Idle Idle Init false) with [Idle].
  change (entry_set Idle Init false) with [Init].
  cbn [flat_map exit entry app last]. unfold exec_all.
  cbn [run_all timing exec]. unfold idle_init, init_spawn, assign.
  cbn [bind fst snd]. unfold running at 1. cbn [children].
  fold (running ThirdPartyMachineId c).
  destruct (running ThirdPartyMachineId c); reflexivity.
Qed.

(** X2.  [INIT] is heard in [Idle] only: in every other state it changes
    neither the state nor the context and has no effect.  In [Idle] it
    cannot fail and leads to [Init].  The entry of [Init] spawns the
    third-party machine, with the base path of the router (the default base
    path without a router) and the form reference, when the machine has no
    child of that id; when it has one (an [INIT] that is not the first),
    nothing is spawned, and the child keeps the input it was spawned with.
    The context takes the client, the router and the form reference of the
    event, example mode (false when the event has none), the sign-in path
    (the default when the event has none or an empty one) and an idle
    loading state; it keeps the resource, the error and the countdown it
    had: [INIT] resets none of them. *)
Theorem INIT_is_heard_only_in_Idle {K : Constants} {X : Externals}
    (c : Context) (k : Clerk) (r : option Router) (sp : jsstring)
    (ex : option bool) (f : FormRef) :
  (forall active, active <> Idle ->
     on_event active c (INIT k r sp ex f) = Ok (active, c, []))
  /\ exists c',
       on_event Idle c (INIT k r sp ex f)
       = Ok (Init, c',
             if running ThirdPartyMachineId c then []
             else
               [Spawn_child ThirdPartyMachineId
                  (match r with
                   | Some r' => basePath r'
                   | None => SIGN_UP_DEFAULT_BASE_PATH
                   end) f])
       /\ children c' = (if running ThirdPartyMachineId c then children c
                         else ThirdPartyMachineId :: children c)
       /\ running ThirdPartyMachineId c' = true
       /\ clerk c' = k /\ router c' = r /\ formRef c' = f
       /\ exampleMode c' = match ex with Some b => b | None => false end
       /\ signInPath c' = (if truthy sp then js_template sp
                           else SIGN_IN_DEFAULT_BASE_PATH)
       /\ loading c' = loading_ended
       /\ resource c' = resource c /\ error c' = error c
       /\ resendable c' = resendable c
       /\ resendableAfter c' = resendableAfter c.
Proof.
  split.
  - intros active Hne. destruct active; try reflexivity. congruence.
  - destruct (Idle_INIT_step c k r sp ex f) as (c0 & Hc0 & Hch & Hstep).
    cbn [exec] in Hc0. unfold idle_init, assign in Hc0. cbn [bind] in Hc0.
    injection Hc0 as <-.
    eexists. split; [exact Hstep |].
    destruct (running ThirdPartyMachineId c) eqn:Hrun; repeat split.
    + exact Hrun.
    + unfold running. cbn [children set_children existsb].
      rewrite String.eqb_refl. reflexivity.
Qed.



(** X4.  [AUTHENTICATE.OAUTH] and [AUTHENTICATE.SAML] are answered by the
    root in every state, example mode included, and change neither the
    state nor the context: a [REDIRECT] is sent to the third-party machine.
    The machine has that child from the first [INIT] on; before, the
    message has no receiver and the step throws.  The [REDIRECT] carries
    the strategy of the event ([saml], with the value of the form's
    [emailAddress] field, for SAML), a callback URL that ends in the SSO
    callback route, and as completion URL the [redirect_url] query
    parameter when it has a value, else the after-sign-up URL of the
    client.  The callback URL starts with the base path of the router
    unless routing is virtual; with no router attached it starts with the
    word [undefined]. *)
Theorem third_party_sign_up_is_forwarded_from_every_state
    {K : Constants} {X : Externals}
    (active : StateId) (c : Context) (s : string) :
  on_event active c (AUTHENTICATE_OAUTH s)
  = (if running ThirdPartyMachineId c
     then
       Ok (active, c,
           [ThirdParty_send
              (REDIRECT s None (sso_redirectUrl c) (redirect_target c))])
     else Throw (no_such_actor ThirdPartyMachineId))
  /\ on_event active c AUTHENTICATE_SAML
     = (if running ThirdPartyMachineId c
        then
          Ok (active, c,
              [ThirdParty_send
                 (REDIRECT "saml"
                    (match JsMap.get (fields (formRef c)) "emailAddress" with
                     | Some v => v
                     | None => None
                     end)
                    (sso_redirectUrl c) (redirect_target c))])
        else Throw (no_such_actor ThirdPartyMachineId))
  /\ (forall r, router c = Some r -> mode r <> ROUTING_virtual ->
        sso_redirectUrl c = basePath r ++ SSO_CALLBACK_PATH_ROUTE)
  /\ (router c = None ->
      sso_redirectUrl c = "undefined" ++ SSO_CALLBACK_PATH_ROUTE
      /\ redirect_target c = Some (buildAfterSignUpUrl (clerk c)))
  /\ (forall u, router_param c "redirect_url" = Some u -> u <> "" ->
        redirect_target c = Some u).
Proof.
  repeat apply conj.
  - destruct active; select_step; run_microstep;
      unfold authenticate_oauth, sendTo_thirdParty;
      destruct (running ThirdPartyMachineId c); reflexivity.
  - destruct active; select_step; run_microstep;
      unfold authenticate_saml, sendTo_thirdParty;
      destruct (running ThirdPartyMachineId c); reflexivity.
  - intros r Hr Hm. unfold sso_redirectUrl. rewrite Hr.
    destruct (String.eqb_spec (mode r) ROUTING_virtual); [contradiction |].
    reflexivity.
  - intros Hr. unfold sso_redirectUrl, redirect_target, router_param.
    rewrite Hr. split; reflexivity.
  - intros u Hu Hne. unfold redirect_target, js_or. rewrite Hu. cbn [truthy].
    destruct (String.eqb_spec u ""); [contradiction | reflexivity].
Qed.

(** X5.  [FORM.ATTACH] is answered in every state: the context takes the
    form reference of the event and [RESET.STEP] is raised, the state
    stays.  [RESET.STEP] then restarts the step the machine is in, and
    what the restart tells the form store goes to the new form: below
    [Start] the machine re-enters [Start] and stands at [Start.Init]; the
    form is given the default values while the actions run, and the
    message that clears its errors, queued on leaving [Start], is delivered
    after that.  Below [Continue] the machine re-enters [Continue] at
    [Pending] (the progressive form unmarked); below [Verification] it
    stands at [Verification.Init].  In [Idle], [Init], [Callback],
    [Restricted] and [Error] nothing answers [RESET.STEP]. *)
Theorem FORM_ATTACH_restarts_the_step_on_the_new_form
    {K : Constants} {X : Externals}
    (active : StateId) (c : Context) (f : FormRef) :
  let c1 := set_formRef f c in
  on_event active c (FORM_ATTACH f) = Ok (active, c1, [Raise RESET_STEP None])
  /\ (In Start (chain active) ->
      exists c2,
        on_event active c1 RESET_STEP
        = Ok (Start_Init, c2,
              [Form_send f (prefill c); Form_send f ERRORS_CLEAR])
        /\ formRef c2 = f)
  /\ (In Continue (chain active) ->
      exists c2,
        on_event active c1 RESET_STEP
        = Ok (Continue_Pending, c2, [Form_send f UNMARK_AS_PROGRESSIVE])
        /\ formRef c2 = f)
  /\ (In Verification (chain active) ->
      exists c2,
        on_event active c1 RESET_STEP = Ok (Verification_Init, c2, [])
        /\ formRef c2 = f)
  /\ (In active [Idle; Init; Callback; Restricted; Error] ->
      on_event active c1 RESET_STEP = Ok (active, c1, [])).
Proof.
  cbn zeta. split; [destruct active; reflexivity |].
  repeat apply conj; intros Hin;
    destruct active; cbn [chain chain_from parent In] in Hin;
    try (exfalso; intuition discriminate);
    try (eexists; split; [lazy; reflexivity | reflexivity]).
  all: reflexivity.
Qed.

(** ** The loading state *)

Lemma exec_loading {K : Constants} {X : Externals}
    (a : ActionRef) (c c' : Context) (e : Event) (effs : list Effect) :
  exec a c e = Ok (c', effs) -> loading c' = loading_effect a e (loading c).
Proof.
  intros H. destruct a; run_action H; reflexivity.
Qed.

Lemma exec_all_loading {K : Constants} {X : Externals}
    (acts : list ActionRef) (c c' : Context) (e : Event) (effs : list Effect) :
  exec_all acts c e = Ok (c', effs) ->
  loading c' = fold_left (fun l a => loading_effect a e l) acts (loading c).
Proof.
  revert c effs. induction acts as [| a acts IH]; intros c effs H.
  - cbn in H. injection H as <- _. reflexivity.
  - apply exec_all_cons in H.
    destruct H as (c1 & effs1 & effs2 & Ha & Hrest & _).
    cbn [fold_left]. rewrite (IH _ _ Hrest). f_equal.
    exact (exec_loading _ _ _ _ _ Ha).
Qed.

(** From the run of a microstep to the loading state it leaves. *)
Ltac loading_of_run Hm :=
  unfold microstep in Hm;
  cbn [target go go_reenter stay actions reenter] in Hm;
  apply bind_Ok in Hm;
  let c1 := fresh "c1" in
  let effs1 := fresh "effs1" in
  let Hrun := fresh "Hrun" in
  destruct Hm as [[c1 effs1] [Hrun Hm]];
  cbn [fst snd] in Hm; injection Hm as <- <- <-;
  apply exec_all_loading in Hrun;
  generalize dependent (loading c1);
  match goal with
  | |- context [loading ?c] => generalize (loading c)
  end;
  let l0 := fresh "l0" in
  let l1 := fresh "l1" in
  intros l0 l1 Hrun; vm_compute in Hrun; subst l1.

(** X6.  [context.loading] follows the nodes that attempt
    ([Start.Attempting], [Start.AttemptingWeb3], [Continue.Attempting] and
    the [Attempting] nodes of the two code sub-flows).  A step that moves
    the machine into one of them leaves the loading state set, with the
    step name of that node and neither strategy nor action; a step that
    moves it out of one leaves the idle loading state; and a step between
    two other nodes leaves [context.loading] as it was, unless its event is
    [LOADING] (which assigns it) or [INIT].  The same holds of the
    eventless steps. *)
Theorem loading_follows_attempting {K : Constants} {X : Externals} :
  (forall active c e active' c' effs,
      on_event active c e = Ok (active', c', effs) ->
      (forall s, active' <> active -> loading_node active' = Some s ->
         loading c' = loading_begun s)
      /\ (active' <> active -> loading_node active <> None ->
          loading c' = loading_ended)
      /\ (is_LOADING e = false -> is_INIT e = false ->
          loading_node active = None -> loading_node active' = None ->
          loading c' = loading c))
  /\ (forall active c e active' c' effs,
        on_always active c e = Ok (Some (active', c', effs)) ->
        (forall s, active' <> active -> loading_node active' = Some s ->
           loading c' = loading_begun s)
        /\ (loading_node active' = None -> loading c' = loading c)).
Proof.
  split.
  - intros active c e active' c' effs H. apply on_event_microstep in H.
    destruct H as [(-> & -> & ->) | (src & t & Hsrc & Ht & _ & Hm)].
    + repeat split; congruence.
    + destruct active; chain_cases Hsrc; event_cases e Ht;
        loading_of_run Hm;
        (split; [| split];
         [ intros s Hne Hs; vm_compute in Hs; try discriminate Hs;
           try (injection Hs as <-); try reflexivity;
           exfalso; apply Hne; reflexivity
         | intros Hne Hl; try reflexivity;
           exfalso; first [apply Hne; reflexivity | apply Hl; reflexivity]
         | intros Hev Hinit Ha Ha'; try reflexivity; discriminate ]).
  - intros active c e active' c' effs H. apply on_always_microstep in H.
    destruct H as (src & t & Hsrc & Ht & _ & Hm).
    destruct active; chain_cases Hsrc; cbn [always In] in Ht;
      repeat (destruct Ht as [Ht | Ht]; [subst |]); try contradiction;
      loading_of_run Hm;
      (split;
       [ intros s Hne Hs; vm_compute in Hs; try discriminate Hs;
         try (injection Hs as <-); try reflexivity;
         exfalso; apply Hne; reflexivity
       | intros Ha'; try reflexivity; discriminate ]).
Qed.

(** ** What a step writes *)

Lemma kept_refl (e : Event) (c : Context) : kept e c c.
Proof. unfold kept. repeat split; intros; reflexivity. Qed.

Lemma kept_trans (e : Event) (c1 c2 c3 : Context) :
  kept e c1 c2 -> kept e c2 c3 -> kept e c1 c3.
Proof.
  unfold kept. intros (A1 & B1 & C1 & D1) (A2 & B2 & C2 & D2).
  split; [congruence |]. split; [| split].
  - intros H. destruct (B1 H) as (? & ? & ? & ?), (B2 H) as (? & ? & ? & ?).
    repeat split; congruence.
  - intros H H'. rewrite (C2 H H'). exact (C1 H H').
  - intros H. rewrite (D2 H). exact (D1 H).
Qed.

(** An action that may run on event [e0] keeps what a step on [e0] keeps,
    on whatever event it is run. *)
Lemma exec_kept {K : Constants} {X : Externals}
    (e0 e : Event) (a : ActionRef) (c c' : Context) (effs : list Effect) :
  may_run e0 a = true -> exec a c e = Ok (c', effs) -> kept e0 c c'.
Proof.
  intros Hm H. unfold kept.
  destruct a; cbn [may_run] in Hm; try discriminate Hm; run_action H;
    cbn [error clerk router signInPath exampleMode formRef resource
         set_resend set_loading set_error set_resource set_formRef];
    repeat split; intros; try reflexivity; congruence.
Qed.

Lemma exec_all_kept {K : Constants} {X : Externals}
    (e0 e : Event) (acts : list ActionRef) (c c' : Context)
    (effs : list Effect) :
  Forall (fun a => may_run e0 a = true) acts ->
  exec_all acts c e = Ok (c', effs) -> kept e0 c c'.
Proof.
  revert c effs. induction acts as [| a acts IH]; intros c effs Hg H.
  - cbn in H. injection H as <- _. apply kept_refl.
  - apply exec_all_cons in H.
    destruct H as (c1 & effs1 & effs2 & Ha & Hrest & _).
    inversion Hg as [| ? ? Hga Hgs]; subst.
    eapply kept_trans; [exact (exec_kept _ _ _ _ _ _ Hga Ha) |].
    exact (IH _ _ Hgs Hrest).
Qed.

Lemma hook_may_run (e : Event) (a : ActionRef) : hook a -> may_run e a = true.
Proof. intros Hh. hook_cases Hh; reflexivity. Qed.

Lemma transition_may_run {K : Constants} {X : Externals}
    (n : StateId) (e : Event) (t : Transition) :
  In t (transitions n e) -> Forall (fun a => may_run e a = true) (actions t).
Proof. intros H. table_cases n e H; repeat constructor. Qed.

Lemma always_may_run {K : Constants} {X : Externals}
    (n : StateId) (e : Event) (t : Transition) :
  In t (always n) -> Forall (fun a => may_run e a = true) (actions t).
Proof.
  intros H.
  destruct n; cbn [always In] in H;
    repeat (destruct H as [H | H]; [subst |]); try contradiction;
    repeat constructor.
Qed.

(** X7.  Few events write the context.  No step of the machine assigns
    [context.error]: [setError], the one action that does, is registered
    and used by no transition, no entry and no exit.  A step on an event
    other than [INIT] keeps the client, the router, the sign-in path and
    example mode; one on an event other than [INIT] and [FORM.ATTACH] keeps
    the form reference; and the resource changes only on the report of an
    actor that is done and on the events of the email link: [NEXT] carries
    a resource, and the machine does not store it.  An eventless step
    keeps all of these and the ticket. *)
Theorem context_is_written_by_few_events {K : Constants} {X : Externals} :
  (forall active c e active' c' effs,
      on_event active c e = Ok (active', c', effs) -> kept e c c')
  /\ (forall active c e active' c' effs,
        on_always active c e = Ok (Some (active', c', effs)) ->
        error c' = error c /\ clerk c' = clerk c /\ router c' = router c
        /\ signInPath c' = signInPath c /\ exampleMode c' = exampleMode c
        /\ formRef c' = formRef c /\ resource c' = resource c
        /\ ticket c' = ticket c)
  /\ (forall a c e c' effs,
        exec a c e = Ok (c', effs) ->
        error c' = error c \/ exists p, a = A_setError p)
  /\ (forall n e t p,
        In t (transitions n e ++ always n) -> ~ In (A_setError p) (actions t))
  /\ (forall p, ~ hook (A_setError p)).
Proof.
  repeat apply conj.
  - intros active c e active' c' effs H. apply on_event_runs in H.
    destruct H as [[-> _] | (src & t & pre & post & _ & Ht & _ & Hpre & Hpost & Hrun)];
      [apply kept_refl |].
    apply (exec_all_kept e) in Hrun; [exact Hrun |].
    apply Forall_app; split; [| apply Forall_app; split].
    + eapply Forall_impl; [| exact Hpre]. apply hook_may_run.
    + exact (transition_may_run _ _ _ Ht).
    + eapply Forall_impl; [| exact Hpost]. apply hook_may_run.
  - intros active c e active' c' effs H.
    assert (Ht := on_always_keeps_ticket _ _ _ _ _ _ H).
    apply on_always_runs in H.
    destruct H as (src & t & pre & post & _ & Hin & _ & Hpre & Hpost & Hrun).
    apply (exec_all_kept RESET) in Hrun.
    + destruct Hrun as (A & B & C & D).
      destruct (B eq_refl) as (? & ? & ? & ?).
      repeat split; auto.
    + apply Forall_app; split; [| apply Forall_app; split].
      * eapply Forall_impl; [| exact Hpre]. apply hook_may_run.
      * exact (always_may_run _ _ _ Hin).
      * eapply Forall_impl; [| exact Hpost]. apply hook_may_run.
  - intros a c e c' effs H.
    destruct a; try (right; eexists; reflexivity); left;
      run_action H; reflexivity.
  - intros n e t p H Ha. apply in_app_or in H.
    assert (Hm : Forall (fun a => may_run e a = true) (actions t)).
    { destruct H as [H | H];
        [exact (transition_may_run _ _ _ H) | exact (always_may_run _ _ _ H)]. }
    rewrite Forall_forall in Hm. specialize (Hm _ Ha). discriminate Hm.
  - intros p Hh. apply (hook_may_run RESET) in Hh. discriminate Hh.
Qed.

(** ** The default values of the form *)

Lemma JsMap_get_set {V} (m : JsMap.t V) (k k' : string) (v : V) :
  JsMap.get (JsMap.set m k v) k'
  = if String.eqb k k' then Some v else JsMap.get m k'.
Proof.
  induction m as [| [k0 v0] m IH]; cbn [JsMap.set JsMap.get].
  - reflexivity.
  - destruct (String.eqb_spec k0 k) as [-> | Hne]; cbn [JsMap.get].
    + destruct (String.eqb k k'); reflexivity.
    + destruct (String.eqb_spec k0 k') as [-> | Hne'].
      * destruct (String.eqb_spec k k'); [congruence | reflexivity].
      * exact IH.
Qed.

Lemma collect_values_from {V} (own : JsMap.t V) (keys : list string)
    (m : JsMap.t V) (k : string) :
  JsMap.get
    (fold_left
       (fun m key =>
          match JsMap.get own key with
          | Some v => JsMap.set m key v
          | None => m
          end)
       keys m) k
  = if includes keys k
    then match JsMap.get own k with
         | Some v => Some v
         | None => JsMap.get m k
         end
    else JsMap.get m k.
Proof.
  revert m. induction keys as [| key keys IH]; intros m;
    cbn [fold_left includes existsb].
  - reflexivity.
  - rewrite IH. fold (includes keys k).
    destruct (String.eqb_spec k key) as [-> | Hne]; cbn [orb].
    + destruct (JsMap.get own key) as [v |] eqn:Hv.
      * destruct (includes keys key); [reflexivity |].
        rewrite JsMap_get_set, String.eqb_refl. reflexivity.
      * destruct (includes keys key); reflexivity.
    + destruct (JsMap.get own key) as [v |] eqn:Hv; [| reflexivity].
      rewrite JsMap_get_set.
      destruct (String.eqb_spec key k); [congruence | reflexivity].
Qed.

(** X8.  [setFormDefaultValues] sends the form store one
    [PREFILL_DEFAULT_VALUES] and leaves the context as it is.  The map it
    sends holds a key exactly when the key is one of the five
    [PREFILL_FIELDS] and a property of the client's sign-up, and holds
    under it the value the sign-up has there, a null one included.  The
    same holds of the values [markFormAsProgressive] collects, for the
    keys it is given. *)
Theorem prefill_holds_the_known_fields_of_the_sign_up
    {K : Constants} {X : Externals} (c : Context) (e : Event) :
  let signUp_ := signUp (client (clerk c)) in
  exists defaults,
    exec A_setFormDefaultValues c e
    = Ok (c, [Form_send (formRef c) (PREFILL_DEFAULT_VALUES defaults)])
    /\ (forall k,
          JsMap.get defaults k
          = if includes PREFILL_FIELDS k then JsMap.get (ownProps signUp_) k
            else None)
    /\ (forall keys k,
          JsMap.get (collect_values signUp_ keys) k
          = if includes keys k then JsMap.get (ownProps signUp_) k else None).
Proof.
  cbn zeta. eexists. split; [reflexivity |].
  assert (H : forall keys k,
    JsMap.get (collect_values (signUp (client (clerk c))) keys) k
    = if includes keys k
      then JsMap.get (ownProps (signUp (client (clerk c)))) k else None).
  { intros keys k. unfold collect_values. rewrite collect_values_from.
    cbn [JsMap.get].
    destruct (includes keys k); [| reflexivity].
    destruct (JsMap.get _ k); reflexivity. }
  split; [intros k; apply H | exact H].
Qed.

(** ** Starting an attempt *)

Section Invoked.
Context {K : Constants} {L : LinkConstants} {X : Externals}.

(** X9.  Only [Start.Pending] looks at example mode before an attempt.
    There, [SUBMIT] is dropped in example mode and otherwise moves to
    [Start.Attempting] with the loading state set.  [AUTHENTICATE.WEB3]
    outside example mode moves to [Start.AttemptingWeb3], whose actor is
    given the client and the strategy of the event; that node is the target
    of no other transition, so the assertion of its input on the event
    never fails.  In example mode the event only reaches the root, whose
    [sendTo] names an actor [start]: the step throws unless the machine
    has a child of that id, and the one child an action of the machine
    ever adds is the third-party machine.  [Continue.Pending] has no
    example-mode guard: [SUBMIT] moves to [Continue.Attempting] in example
    mode too, and the actor is given the client and the fields of the
    form, without params. *)
Theorem only_Start_refuses_SUBMIT_in_example_mode (c : Context) (s : string) :
  on_event Start_Pending c SUBMIT
  = Ok (if exampleMode c then (Start_Pending, c, [])
        else (Start_Attempting, set_loading (loading_begun "start") c, []))
  /\ on_event Start_Pending c (AUTHENTICATE_WEB3 s)
     = (if exampleMode c
        then
          if running "start" c
          then Ok (Start_Pending, c, [Actor_send "start" (AUTHENTICATE_WEB3 s)])
          else Throw (no_such_actor "start")
        else
          Ok (Start_AttemptingWeb3, set_loading (loading_begun "start") c, []))
  /\ (forall a c0 e c' effs id,
        exec a c0 e = Ok (c', effs) -> In id (children c') ->
        In id (children c0) \/ id = ThirdPartyMachineId)
  /\ invoke_input Start_AttemptingWeb3
       (set_loading (loading_begun "start") c) (AUTHENTICATE_WEB3 s)
     = Some (Ok (startAttemptWeb3_input (clerk c) s))
  /\ (forall n e t,
        In t (transitions n e ++ always n) ->
        target t = Some Start_AttemptingWeb3 ->
        n = Start_Pending /\ exists s', e = AUTHENTICATE_WEB3 s')
  /\ on_event Continue_Pending c SUBMIT
     = Ok (Continue_Attempting, set_loading (loading_begun "continue") c, [])
  /\ invoke_input Continue_Attempting
       (set_loading (loading_begun "continue") c) SUBMIT
     = Some (Ok (startAttempt_input (clerk c) (fields (formRef c)) None)).
Proof.
  repeat apply conj.
  - select_step. unfold g_not, isExampleMode, pure_guard. cbn [bind].
    destruct (exampleMode c); reflexivity.
  - select_step. unfold g_not, isExampleMode, pure_guard. cbn [bind].
    destruct (exampleMode c); [| reflexivity].
    cbn [negb bind select_in transitions select guard go stay go_reenter].
    run_microstep. unfold authenticate_web3, sendTo_actor.
    destruct (running "start" c); reflexivity.
  - intros a c0 e c' effs id H Hin.
    destruct a; run_action H; auto.
    cbn [children set_children In] in Hin. destruct Hin as [<- | Hin]; auto.
  - reflexivity.
  - intros n e t H Ht. apply in_app_or in H. destruct H as [H | H].
    + table_cases n e H; cbn [target go go_reenter stay] in Ht;
        try discriminate Ht.
      split; [reflexivity | eexists; reflexivity].
    + destruct n; cbn [always In] in H;
        repeat (destruct H as [H | H]; [subst |]); try contradiction;
        cbn [target go go_reenter stay] in Ht; discriminate Ht.
  - reflexivity.
  - reflexivity.
Qed.

(** X10.  A ticket leads straight to the attempt.  When the query of the
    router that [INIT] brings holds a non-empty value under
    [SEARCH_PARAMS.ticket], the context takes it as its ticket, and the
    entry of [Init] spawns the third-party machine if the machine has none
    yet.  Then, unless the visitor is signed in under single session mode
    or the path is the callback route, [Init] goes to [Start] with a
    forced internal navigation to the root path (the form store is sent
    its default values on the way in), [Start.Init] goes on to
    [Start.Attempting] without waiting in [Pending], the loading state is
    set, and the actor is started with the client, the fields of the form
    and the params [strategy: ticket] with that same ticket. *)
Theorem a_ticket_leads_straight_to_the_attempt
    (c : Context) (k : Clerk) (r : Router) (sp : jsstring) (ex : option bool)
    (f : FormRef) (t : string) :
  URLSearchParams.get (searchParams r) SEARCH_PARAMS_ticket = Some t ->
  t <> "" ->
  let e := INIT k (Some r) sp ex f in
  exists c1 c2,
    on_event Idle c e
    = Ok (Init, c1,
          if running ThirdPartyMachineId c then []
          else [Spawn_child ThirdPartyMachineId (basePath r) f])
    /\ ticket c1 = Some t
    /\ running ThirdPartyMachineId c1 = true
    /\ (isLoggedInAndSingleSession c1 e = Ok false ->
        needsCallback c1 e = Ok false ->
        on_always Init c1 e
        = Ok (Some (Start_Init, c1,
                    navigated_forced c1 "/" ++ [Form_send f (prefill c1)])%list)
        /\ on_always Start_Init c1 e = Ok (Some (Start_Attempting, c2, []))
        /\ c2 = set_loading (loading_begun "start") c1
        /\ invoke_input Start_Attempting c2 e
           = Some (Ok (startAttempt_input k (fields f)
                         (Some {| sa_strategy := Some "ticket";
                                  sa_ticket := Some t |})))).
Proof.
  intros Ht Hne. cbn zeta.
  assert (Htruthy : truthy (Some t) = true).
  { cbn. destruct (String.eqb_spec t ""); [contradiction | reflexivity]. }
  assert (Hticket :
    js_or (js_or (URLSearchParams.get (searchParams r) SEARCH_PARAMS_ticket)
             (URLSearchParams.get (searchParams r)
                SEARCH_PARAMS_invitationToken)) None = Some t).
  { rewrite Ht. unfold js_or. rewrite Htruthy, Htruthy. reflexivity. }
  assert (H3 : forall c0 e0, ticket c0 = Some t -> hasTicket c0 e0 = Ok true).
  { intros c0 e0 H0. unfold hasTicket, pure_guard. rewrite H0, Htruthy.
    reflexivity. }
  destruct (Idle_INIT_step c k (Some r) sp ex f) as (c0 & Hc0 & Hch & Hinit).
  cbn [exec] in Hc0. unfold idle_init, assign in Hc0. cbn [bind] in Hc0.
  injection Hc0 as <-.
  match type of Hinit with _ = Ok (_, ?x, _) => remember x as c1 eqn:Ec1 end.
  assert (Hc1 : ticket c1 = Some t).
  { subst c1. destruct (running ThirdPartyMachineId c);
      cbn [ticket set_children option_map]; exact Hticket. }
  assert (Hk : clerk c1 = k).
  { subst c1. destruct (running ThirdPartyMachineId c); reflexivity. }
  assert (Hf : formRef c1 = f).
  { subst c1. destruct (running ThirdPartyMachineId c); reflexivity. }
  assert (Hrun : running ThirdPartyMachineId c1 = true).
  { subst c1. destruct (running ThirdPartyMachineId c) eqn:Hrun.
    - exact Hrun.
    - unfold running. cbn [children set_children existsb].
      rewrite String.eqb_refl. reflexivity. }
  clear Ec1.
  exists c1, (set_loading (loading_begun "start") c1).
  split; [exact Hinit |]. split; [exact Hc1 |]. split; [exact Hrun |].
  intros H1 H2.
  repeat apply conj.
  - unfold on_always.
    cbn [chain chain_from parent select_in always select guard go stay].
    rewrite H1; cbn [bind]. rewrite H2; cbn [bind].
    rewrite H3 by exact Hc1. cbn [bind].
    run_microstep. unfold setFormDefaultValues. cbn [calls]. rewrite Hf.
    reflexivity.
  - unfold on_always.
    cbn [chain chain_from parent select_in always select guard go stay].
    rewrite H3 by exact Hc1. cbn [bind].
    run_microstep. reflexivity.
  - reflexivity.
  - unfold invoke_input, invoke. cbn [option_map inv_input].
    cbn [ticket set_loading option_map clerk formRef].
    rewrite Hc1, Htruthy, Hk, Hf. reflexivity.
Qed.

(** X18.  In the two code sub-flows [SUBMIT] is answered by [Pending],
    whichever of its countdown nodes is active, example mode or not: the
    machine moves to [Attempting] with the loading state set for the step
    [verifications], and the actor is given the client, the strategy of
    the sub-flow and the value of the form's [code] field; when the form
    has no such field or the field has no value, it is given the empty
    string. *)
Theorem code_attempt_is_given_the_form_code
    (c : Context) (pending attempting : StateId) (strategy_ : string) :
  In (pending, attempting, strategy_) code_flows ->
  let c' := set_loading (loading_begun "verifications") c in
  on_event pending c SUBMIT = Ok (attempting, c', [])
  /\ exists code_,
       invoke_input attempting c' SUBMIT
       = Some (Ok (verificationAttempt_input (clerk c) strategy_ code_))
       /\ (forall v,
             JsMap.get (fields (formRef c)) "code" = Some (Some v) ->
             code_ = v)
       /\ (JsMap.get (fields (formRef c)) "code" = None
           \/ JsMap.get (fields (formRef c)) "code" = Some None ->
           code_ = "").
Proof.
  intros Hin. cbn zeta. cbn [code_flows In] in Hin.
  repeat (destruct Hin as [Hin | Hin]; [injection Hin as <- <- <- |]);
    try contradiction;
    (split; [reflexivity |]);
    exists (form_code c);
    (split; [reflexivity |]);
    unfold form_code, js_or;
    (split;
     [ intros v Hv; rewrite Hv; cbn [truthy];
       destruct (String.eqb_spec v ""); [subst |]; reflexivity
     | intros [Hv | Hv]; rewrite Hv; reflexivity ]).
Qed.

End Invoked.

Lemma a_ticket_leads_straight_to_the_attempt_witness :
  exists c1 c2 effs,
    on_event (K := Sample.constants) (X := Sample.page) Idle Sample.created
      (INIT (clerk Sample.invited) (router Sample.invited) None None
            Sample.form)
    = Ok (Init, c1, [Spawn_child "ThirdParty" "/sign-up" Sample.form])
    /\ ticket c1 = Some "tkt_1"
    /\ on_always (K := Sample.constants) (X := Sample.page) Init c1
         (INIT (clerk Sample.invited) (router Sample.invited) None None
               Sample.form)
       = Ok (Some (Start_Init, c1, effs))
    /\ on_always (K := Sample.constants) (X := Sample.page) Start_Init c1
         (INIT (clerk Sample.invited) (router Sample.invited) None None
               Sample.form)
       = Ok (Some (Start_Attempting, c2, []))
    /\ invoke_input (L := Sample.link) Start_Attempting c2 RESET
       = Some (Ok (startAttempt_input (clerk Sample.invited)
                     (fields Sample.form)
                     (Some {| sa_strategy := Some "ticket";
                              sa_ticket := Some "tkt_1" |}))).
Proof.
  destruct (a_ticket_leads_straight_to_the_attempt
              (K := Sample.constants) (L := Sample.link) (X := Sample.page)
              Sample.created (clerk Sample.invited)
              (Sample.router_at "/sign-up" [("__clerk_ticket", "tkt_1")])
              None None Sample.form "tkt_1" eq_refl
              ltac:(discriminate))
    as (c1 & c2 & Hinit & Hticket & _ & Hrest).
  assert (Hc1 : c1 = set_children ["ThirdParty"] Sample.invited).
  { vm_compute in Hinit. injection Hinit as <-. reflexivity. }
  subst c1.
  destruct (Hrest eq_refl eq_refl) as (Ha & Hb & -> & Hi).
  eexists _, _, _.
  split; [exact Hinit |]. split; [exact Hticket |].
  split; [exact Ha |]. split; [exact Hb | exact Hi].
Defined.

Lemma code_attempt_is_given_the_form_code_witness :
  on_event (K := Sample.constants) (X := Sample.page)
    PhoneCode_Pending_NotResendable Sample.verifying SUBMIT
  = Ok (PhoneCode_Attempting,
        set_loading (loading_begun "verifications") Sample.verifying, [])
  /\ invoke_input (L := Sample.link) PhoneCode_Attempting
       (set_loading (loading_begun "verifications") Sample.verifying) SUBMIT
     = Some (Ok (verificationAttempt_input (clerk Sample.verifying)
                   "phone_code" "")).
Proof.
  destruct (code_attempt_is_given_the_form_code
              (K := Sample.constants) (L := Sample.link) (X := Sample.page)
              Sample.verifying PhoneCode_Pending_NotResendable
              PhoneCode_Attempting "phone_code"
              (or_intror (or_intror (or_intror (or_intror
                 (or_introl eq_refl))))))
    as (Hstep & code_ & Hinput & _ & Hnone).
  split; [exact Hstep |].
  rewrite (Hnone (or_introl eq_refl)) in Hinput. exact Hinput.
Defined.

(** ** Attempts and what follows them *)

(** X11.  The four nodes that attempt besides [Start.Attempting]
    ([Start.AttemptingWeb3], [Continue.Attempting] and the [Attempting]
    nodes of the two code sub-flows) answer their actor alike.  When it is
    done, the machine stores its output as the resource and raises [NEXT]
    with it, staying in the node, so the loading state stays set until
    [NEXT] is handled.  When it fails, the machine sends the error to the
    form store, ends the loading state and goes back to the [Pending] node
    of the flow (for a code, with the countdown node [NotResendable]); the
    resource and the countdown fields stay as they were.  The report of
    another actor that is done is ignored; the failure of another actor is
    handled by no node, and an unhandled failure of an actor stops the
    machine in its error status. *)
Theorem attempts_report_to_the_form_or_raise_NEXT
    {K : Constants} {X : Externals}
    (node pending : StateId) (id : string) (c : Context)
    (out : SignUpResource) (err : ErrorValue) :
  assertions_pass ->
  In (node, id, pending) attempts ->
  on_event node c (done_actor id out)
  = Ok (node, set_resource (Some out) c, [Raise (NEXT (Some out)) None])
  /\ on_event node c (error_actor id err)
     = Ok (pending, set_loading loading_ended c,
           [Form_send (formRef c) (ERRORS_SET err)])
  /\ (forall other, String.eqb other id = false ->
        on_event node c (done_actor other out) = Ok (node, c, [])
        /\ on_event node c (error_actor other err)
           = Throw "unhandled error of an actor").
Proof.
  intros [Hdone Herror] Hin. cbn [attempts In] in Hin.
  repeat (destruct Hin as [Hin | Hin]; [injection Hin as <- <- <- |]);
    try contradiction;
    (split; [unfold on_event; run_step Hdone Herror |
     split; [unfold on_event; run_step Hdone Herror |]]);
    intros other Hother; unfold on_event;
    cbn [chain chain_from parent select_in transitions];
    rewrite Hother; split; reflexivity.
Qed.

Lemma attempts_report_to_the_form_or_raise_NEXT_witness :
  on_event (K := Sample.constants) (X := Sample.page) Continue_Attempting
    Sample.continuing (done_actor "continueAttempt" Sample.verified_signUp)
  = Ok (Continue_Attempting,
        set_resource (Some Sample.verified_signUp) Sample.continuing,
        [Raise (NEXT (Some Sample.verified_signUp)) None])
  /\ on_event (K := Sample.constants) (X := Sample.page) Continue_Attempting
       Sample.continuing
       (error_actor "continueAttempt" (ClerkElementsRuntimeError "refused"))
     = Ok (Continue_Pending, Sample.continuing,
           [Form_send Sample.form
              (ERRORS_SET (ClerkElementsRuntimeError "refused"))]).
Proof.
  destruct (attempts_report_to_the_form_or_raise_NEXT
              (K := Sample.constants) (X := Sample.page)
              Continue_Attempting Continue_Pending "continueAttempt"
              Sample.continuing Sample.verified_signUp
              (ClerkElementsRuntimeError "refused")
              (conj (fun _ _ => eq_refl) (fun _ _ => eq_refl))
              (or_intror (or_introl eq_refl)))
    as (Hok & Hfail & _).
  split; [exact Hok | exact Hfail].
Defined.

(** X12.  Completion.  In every node below [Start], [Continue],
    [Verification] and [Callback] but [EmailLink.Pending], a [NEXT] for
    which [isComplete] holds is answered by the step itself: the machine
    stays where it is with its context, activates a session and raises
    [RESET] with a delay of 3000 ms; in example mode it only raises the
    [RESET].  The session it activates is the created session of the
    resource the event carries, or of the client's sign-up when the event
    carries none; the resource of the context is not consulted for it,
    although [isComplete] may hold because of that resource alone.
    [beforeEmit] pushes the [redirect_url] parameter or the after-sign-up
    URL when a router is attached.  [EmailLink.Pending] answers [NEXT]
    itself, by preparing the verification again, complete or not. *)
Theorem complete_sign_up_activates_its_session
    {K : Constants} {X : Externals}
    (c : Context) (r : option SignUpResource) :
  (forall active,
      step_of active <> None -> active <> EmailLink_Pending ->
      isComplete c (NEXT r) = Ok true ->
      on_event active c (NEXT r)
      = Ok (active, c,
            (if exampleMode c then []
             else [Clerk_setActive
                     (createdSessionId
                        (match r with
                         | Some r' => r'
                         | None => signUp (client (clerk c))
                         end))
                     (option_map (fun _ => redirect_target c) (router c))])
            ++ [Raise RESET (Some 3000%Z)])%list)
  /\ on_event EmailLink_Pending c (NEXT r) = Ok (EmailLink_Preparing, c, []).
Proof.
  split; [| reflexivity].
  intros active Hstep Hne Hc.
  destruct active; try (exfalso; apply Hstep; reflexivity);
    try (exfalso; apply Hne; reflexivity);
    select_step;
    rewrite Hc; cbn [bind]; unfold microstep;
    cbn [target stay actions]; unfold exec_all; cbn [run_all timing exec];
    rewrite custom_runs; unfold setActive;
    destruct (exampleMode c); destruct r; destruct (router c); reflexivity.
Qed.

Lemma complete_sign_up_activates_its_session_witness :
  on_event (K := Sample.constants) (X := Sample.page) EmailCode_Attempting
    Sample.verifying (NEXT (Some Sample.verified_signUp))
  = Ok (EmailCode_Attempting, Sample.verifying,
        [Clerk_setActive (Some "sess_1") (Some (Some "/dashboard"));
         Raise RESET (Some 3000%Z)]).
Proof.
  apply (proj1 (complete_sign_up_activates_its_session
                  (K := Sample.constants) (X := Sample.page)
                  Sample.verifying (Some Sample.verified_signUp))
           EmailCode_Attempting);
    [discriminate | discriminate | reflexivity].
Defined.

(** X13.  In [Start], a [NEXT] that is no completion is routed by what
    the sign-up lacks, and none of the guards asked can throw.  With a
    ticket and required fields missing the machine restarts [Start] at
    [Start.Init] after an internal navigation to the root path, without
    leaving [Start]; otherwise, when verification is needed, it goes to
    [Verification], whether or not fields are missing as well; otherwise,
    when fields are missing, it goes to [Continue]; otherwise the event is
    dropped, and state and context stay as they are.  Leaving [Start]
    queues the message that tells the form store to clear its errors,
    which is delivered after the navigation, and leaving a node that
    attempts ends the loading state. *)
Theorem Start_routes_NEXT_by_what_the_sign_up_lacks
    {K : Constants} {X : Externals}
    (active : StateId) (c : Context) (r : option SignUpResource) :
  In active [Start_Init; Start_Pending; Start_Attempting;
             Start_AttemptingWeb3] ->
  let e := NEXT r in
  let left_ :=
    match loading_node active with
    | Some _ => set_loading loading_ended c
    | None => c
    end in
  exists done ticket_ verify continue_,
    isComplete c e = Ok done /\ hasTicket c e = Ok ticket_
    /\ statusNeedsVerification c e = Ok verify
    /\ statusNeedsContinue c e = Ok continue_
    /\ (done = false ->
        on_event active c e
        = Ok (if ticket_ && continue_
              then (Start_Init, left_, navigated c "/")
              else if verify
              then (Verification_Init, left_,
                    navigated c "/verify"
                    ++ [Form_send (formRef c) ERRORS_CLEAR])%list
              else if continue_
              then (Continue_Pending, left_,
                    navigated c "/continue"
                    ++ [Form_send (formRef c) ERRORS_CLEAR])%list
              else (active, c, []))).
Proof.
  intros Hin. cbn zeta.
  destruct (total_NEXT_guards (K := K)) as (T1 & T2 & T3 & T4 & _).
  destruct (T1 c (NEXT r)) as [b1 H1], (T2 c (NEXT r)) as [b2 H2],
    (T3 c (NEXT r)) as [b3 H3], (T4 c (NEXT r)) as [b4 H4].
  exists b1, b2, b3, b4. repeat (split; [assumption |]).
  intros ->. cbn [In] in Hin.
  repeat (destruct Hin as [<- | Hin]); try contradiction;
    select_step;
    rewrite H1; cbn [bind]; rewrite H2; cbn [bind];
    destruct b2; cbn [andb];
    rewrite ?H3, ?H4; cbn [bind];
    destruct b3, b4; cbn [bind]; run_microstep; reflexivity.
Qed.

Lemma Start_routes_NEXT_by_what_the_sign_up_lacks_witness :
  on_event (K := Sample.constants) (X := Sample.page) Start_Attempting
    Sample.continuing (NEXT (Some Sample.incomplete_signUp))
  = Ok (Continue_Pending, Sample.continuing,
        [Router_shallowPush "/sign-up/continue";
         Form_send Sample.form ERRORS_CLEAR]).
Proof.
  destruct (Start_routes_NEXT_by_what_the_sign_up_lacks
              (K := Sample.constants) (X := Sample.page) Start_Attempting
              Sample.continuing (Some Sample.incomplete_signUp)
              (or_intror (or_intror (or_introl eq_refl))))
    as (done & ticket_ & verify & continue_ & H1 & H2 & H3 & H4 & Hstep).
  injection H1 as <-. injection H2 as <-. injection H3 as <-.
  injection H4 as <-.
  exact (Hstep eq_refl).
Defined.

(** X14.  The other steps route a [NEXT] that is no completion as
    follows, and the two status guards never throw.  [Continue] goes to
    [Verification] when verification is needed (the progressive form is
    unmarked on the way out) and drops the event otherwise.  Below
    [Verification], from a node that attempts a code, the machine goes to
    [Continue] when required fields are missing and otherwise back to
    [Verification.Init], which chooses a strategy again: the event is never
    dropped.  [Restricted] and [Error] go to [Start] on every [NEXT]; the
    form store is given the default values on entering [Start], and from
    [Error] the message that clears its errors, queued by the transition,
    is delivered after them. *)
Theorem Continue_and_Verification_route_NEXT
    {K : Constants} {X : Externals}
    (c : Context) (r : option SignUpResource) :
  let e := NEXT r in
  exists verify continue_,
    statusNeedsVerification c e = Ok verify
    /\ statusNeedsContinue c e = Ok continue_
    /\ (isComplete c e = Ok false ->
        on_event Continue_Attempting c e
        = Ok (if verify
              then (Verification_Init, set_loading loading_ended c,
                    Form_send (formRef c) UNMARK_AS_PROGRESSIVE
                    :: navigated c "/verify")
              else (Continue_Attempting, c, []))
        /\ (forall attempting,
              In attempting [EmailCode_Attempting; PhoneCode_Attempting] ->
              on_event attempting c e
              = Ok (if continue_
                    then (Continue_Pending, set_loading loading_ended c,
                          navigated c "/continue")
                    else (Verification_Init, set_loading loading_ended c,
                          []))))
    /\ on_event Restricted c e
       = Ok (Start_Init, c, [Form_send (formRef c) (prefill c)])
    /\ on_event Error c e
       = Ok (Start_Init, c,
             [Form_send (formRef c) (prefill c);
              Form_send (formRef c) ERRORS_CLEAR]).
Proof.
  cbn zeta.
  destruct (total_NEXT_guards (K := K)) as (_ & _ & T3 & T4 & _).
  destruct (T3 c (NEXT r)) as [b3 H3], (T4 c (NEXT r)) as [b4 H4].
  exists b3, b4. split; [exact H3 |]. split; [exact H4 |].
  split; [| split; reflexivity].
  intros H1. split.
  - select_step.
    rewrite H1; cbn [bind]. rewrite H3; cbn [bind].
    destruct b3; cbn [bind]; run_microstep; reflexivity.
  - intros attempting Hin. cbn [In] in Hin.
    repeat (destruct Hin as [<- | Hin]); try contradiction;
      select_step;
      rewrite H1; cbn [bind]; rewrite H4; cbn [bind];
      destruct b4; cbn [bind]; run_microstep; reflexivity.
Qed.

(** X15.  [Callback].  When [Init] finds the path on the SSO callback
    route (and the visitor not signed in under single session mode), it
    enters [Callback], whose entry sends [CALLBACK] to the third-party
    machine, the child the entry of [Init] has spawned (without that child
    the step throws).  There, on a [NEXT] that is no completion: if the client's
    sign-up has no status and the client has a last active session, the
    machine activates that session and raises the delayed [RESET],
    staying in [Callback]; and if neither that nor a need for verification
    or continuation holds, it falls back to [Start] with an internal
    navigation to the root path. *)
Theorem Callback_hands_over_to_the_next_step {K : Constants} {X : Externals}
    (c : Context) (e : Event) (r : option SignUpResource) :
  (isLoggedInAndSingleSession c e = Ok false -> needsCallback c e = Ok true ->
   on_always Init c e
   = (if running ThirdPartyMachineId c
      then Ok (Some (Callback, c, [ThirdParty_send CALLBACK]))
      else Throw (no_such_actor ThirdPartyMachineId)))
  /\ (isComplete c (NEXT r) = Ok false ->
      hasAuthenticatedViaClerkJS c (NEXT r) = Ok true ->
      on_event Callback c (NEXT r)
      = Ok (Callback, c,
            (if exampleMode c then []
             else [Clerk_setActive (lastActiveSessionId (client (clerk c)))
                     (option_map (fun _ => redirect_target c) (router c))])
            ++ [Raise RESET (Some 3000%Z)])%list)
  /\ (isComplete c (NEXT r) = Ok false ->
      hasAuthenticatedViaClerkJS c (NEXT r) = Ok false ->
      statusNeedsVerification c (NEXT r) = Ok false ->
      statusNeedsContinue c (NEXT r) = Ok false ->
      on_event Callback c (NEXT r)
      = Ok (Start_Init, c,
            navigated c "/" ++ [Form_send (formRef c) (prefill c)])%list).
Proof.
  repeat apply conj.
  - intros H1 H2. unfold on_always.
    cbn [chain chain_from parent select_in always select guard go stay].
    rewrite H1; cbn [bind]. rewrite H2; cbn [bind].
    run_microstep. unfold callback_notify, sendTo_thirdParty.
    destruct (running ThirdPartyMachineId c); reflexivity.
  - intros Hc Ha. select_step.
    rewrite Hc; cbn [bind]. rewrite Ha; cbn [bind].
    unfold microstep; cbn [target stay actions]. unfold exec_all.
    cbn [run_all timing exec].
    rewrite custom_runs. unfold setActive.
    unfold hasAuthenticatedViaClerkJS, pure_guard in Ha.
    destruct (status (signUp (client (clerk c)))); [discriminate Ha |].
    injection Ha as Ha.
    destruct (exampleMode c); [reflexivity |].
    cbn [sessionId useLastActiveSession]. unfold js_or at 1. cbn [truthy].
    unfold js_or at 1. rewrite Ha. destruct (router c); reflexivity.
  - intros H1 H2 H3 H4. select_step.
    rewrite H1; cbn [bind]. rewrite H2; cbn [bind].
    rewrite H3; cbn [bind]. rewrite H4; cbn [bind].
    run_microstep. reflexivity.
Qed.

Lemma Callback_hands_over_to_the_next_step_witness :
  on_always (K := Sample.constants) (X := Sample.page) Init Sample.returning
    RESET
  = Ok (Some (Callback, Sample.returning, [ThirdParty_send CALLBACK]))
  /\ on_event (K := Sample.constants) (X := Sample.page) Callback
       Sample.returning (NEXT None)
     = Ok (Callback, Sample.returning,
           [Clerk_setActive (Some "sess_0") (Some (Some "/dashboard"));
            Raise RESET (Some 3000%Z)]).
Proof.
  pose proof (Callback_hands_over_to_the_next_step
                (K := Sample.constants) (X := Sample.page)
                Sample.returning RESET None) as (Hin & Hlast & _).
  split; [exact (Hin eq_refl eq_refl) | exact (Hlast eq_refl eq_refl)].
Defined.

(** ** Verification *)

(** X16.  A created session named in the query does not get activated by
    [Verification].  In every node below [Verification] other than
    [Verification.Init], when the query holds a value under
    [SEARCH_PARAMS.createdSession] the eventless transition of
    [Verification] is taken: its first action is a function that returns a
    description of [setActive] and calls nothing, so the step only raises
    [RESET] with a delay of 3000 ms.  No session is activated, the state
    and the context stay. *)
Theorem created_session_param_only_schedules_a_reset
    {K : Constants} {X : Externals}
    (active : StateId) (c : Context) (e : Event) :
  In Verification (chain active) -> active <> Verification_Init ->
  hasCreatedSession c e = Ok true ->
  on_always active c e
  = Ok (Some (active, c, [Raise RESET (Some 3000%Z)])).
Proof.
  intros Hin Hne Hc.
  destruct active; cbn [chain chain_from parent In] in Hin;
    try (exfalso; intuition discriminate);
    try (exfalso; apply Hne; reflexivity);
    unfold on_always;
    cbn [chain chain_from parent select_in always select guard go stay bind];
    rewrite Hc; reflexivity.
Qed.

Lemma created_session_param_only_schedules_a_reset_witness :
  on_always (K := Sample.constants) (X := Sample.page)
    EmailCode_Pending_NotResendable Sample.with_created_session RETRY
  = Ok (Some (EmailCode_Pending_NotResendable, Sample.with_created_session,
              [Raise RESET (Some 3000%Z)])).
Proof.
  apply (created_session_param_only_schedules_a_reset
           (K := Sample.constants) (X := Sample.page));
    [cbn; tauto | discriminate | reflexivity].
Defined.

(** X17.  [Verification.Init] needs a resource.  Its first guard reads
    [unverifiedFields] of the resource of a [NEXT] event or else of the
    context; when the event brings none and the context holds none, the
    read is on [undefined] and the eventless step throws.  [INIT] assigns
    no resource, so a machine whose context held none before [INIT] is in
    that case when [Init] sends it to [Verification].  The step also
    throws when the phone number needs no verification, the email address
    does, and the attributes of the environment have no entry for
    [email_address]: the guard reads [verifications] of that entry. *)
Theorem Verification_Init_needs_a_resource {K : Constants} {X : Externals} :
  (forall c e, effective_resource c e = None ->
     exists msg, on_always Verification_Init c e = Throw msg)
  /\ (forall c k r sp ex f c' effs,
        resource c = None ->
        on_event Idle c (INIT k r sp ex f) = Ok (Init, c', effs) ->
        effective_resource c' (INIT k r sp ex f) = None)
  /\ (forall c e r env attrs,
        effective_resource c e = Some r ->
        includes (unverifiedFields r) "phone_number" = false ->
        includes (unverifiedFields r) "email_address" = true ->
        __unstable__environment (clerk c) = Some env ->
        attributes (userSettings env) = Some attrs ->
        JsMap.get attrs "email_address" = None ->
        exists msg, on_always Verification_Init c e = Throw msg).
Proof.
  repeat apply conj.
  - intros c e He. eexists. unfold on_always.
    cbn [chain chain_from parent select_in always select guard go].
    unfold shouldVerifyPhoneCode, shouldVerify. cbn [g_and].
    unfold isFieldUnverified.
    unfold effective_resource in He.
    destruct e as [| | | | | [r' |] | | | | | | | | | | | | |];
      try discriminate He; rewrite He; reflexivity.
  - intros c k r sp ex f c' effs Hc Hs.
    destruct (Idle_INIT_step c k r sp ex f) as (c0 & Hc0 & _ & Hstep).
    rewrite Hstep in Hs. injection Hs as <- _.
    cbn [exec] in Hc0. unfold idle_init, assign in Hc0. cbn [bind] in Hc0.
    injection Hc0 as <-.
    destruct (running ThirdPartyMachineId c); exact Hc.
  - intros c e r env attrs Hr Hp He Henv Hattrs Hget. eexists.
    unfold on_always.
    cbn [chain chain_from parent select_in always select guard go].
    unfold shouldVerifyPhoneCode, shouldVerifyEmailLink, shouldVerify.
    cbn [g_and app].
    rewrite !(isFieldUnverified_reads_effective _ _ _ _ Hr), Hp, He.
    cbn [bind]. unfold isStrategyEnabled. rewrite Henv, Hattrs, Hget.
    reflexivity.
Qed.

Lemma Verification_Init_needs_a_resource_witness :
  exists c1 effs msg,
    on_event (K := Sample.constants) (X := Sample.page) Idle Sample.reloading
      (INIT (clerk Sample.reloading)
            (Some (Sample.router_at "/sign-up/verify" [])) None None
            Sample.form)
    = Ok (Init, c1, [Spawn_child "ThirdParty" "/sign-up" Sample.form])
    /\ on_always (K := Sample.constants) (X := Sample.page) Init c1
         (INIT (clerk Sample.reloading)
               (Some (Sample.router_at "/sign-up/verify" [])) None None
               Sample.form)
       = Ok (Some (Verification_Init, c1, effs))
    /\ on_always (K := Sample.constants) (X := Sample.page)
         Verification_Init c1
         (INIT (clerk Sample.reloading)
               (Some (Sample.router_at "/sign-up/verify" [])) None None
               Sample.form)
       = Throw msg.
Proof.
  eexists _, _.
  destruct (proj1 (Verification_Init_needs_a_resource
                     (K := Sample.constants) (X := Sample.page))
              (set_loading loading_ended
                 (Sample.context_of (clerk Sample.reloading)
                    (Some (Sample.router_at "/sign-up/verify" []))
                    false None))
              (INIT (clerk Sample.reloading)
                    (Some (Sample.router_at "/sign-up/verify" [])) None None
                    Sample.form)
              eq_refl)
    as [msg Hthrow].
  exists msg.
  split; [reflexivity |]. split; [reflexivity | exact Hthrow].
Defined.

(** ** The countdown *)

Lemma countdown_step {K : Constants} {X : Externals}
    (counting waiting preparing : StateId) (c : Context) (n : Z) :
  In (counting, waiting, preparing) countdowns ->
  resendable c = false -> resendableAfter c = Some n -> (0 <= n)%Z ->
  on_event counting c (after_ "resendableTimeout" counting)
  = Ok (if (n =? 0)%Z
        then (waiting, set_resend true (Some 0%Z) c, [])
        else (counting, set_resend false (Some (n - 1)%Z) c, [])).
Proof.
  intros Hin Hr Ha Hn. cbn [countdowns In] in Hin.
  repeat (destruct Hin as [Hin | Hin]; [injection Hin as <- <- <- |]);
    try contradiction;
    unfold on_event;
    cbn [chain chain_from parent select_in transitions countdown String.eqb
         Ascii.eqb Bool.eqb select guard go go_reenter bind];
    unfold isResendable, pure_guard; rewrite Hr, Ha; cbn [orb bind];
    destruct (Z.eqb_spec n 0) as [-> | Hne];
    cbn [bind]; unfold microstep;
    cbn [target go go_reenter reenter actions];
    match goal with
    | |- context [exit_set ?a ?b ?c ?d] =>
        let v := eval vm_compute in (exit_set a b c d) in
        change (exit_set a b c d) with v
    end;
    match goal with
    | |- context [entry_set ?b ?c ?d] =>
        let v := eval vm_compute in (entry_set b c d) in
        change (entry_set b c d) with v
    end;
    cbn [flat_map exit entry app last]; unfold exec_all;
    cbn [run_all timing exec];
    unfold resendableTick, assign; rewrite Ha; cbn [bind fst snd app];
    try reflexivity;
    rewrite (proj2 (Z.eqb_neq _ _) Hne), Z.gtb_ltb;
    destruct (Z.ltb_spec 0 n); try lia; reflexivity.
Qed.

Lemma repeat_event_add {K : Constants} {X : Externals}
    (a b : nat) (e : Event) (s : StateId) (c : Context) :
  repeat_event (a + b) e s c
  = r <- repeat_event b e s c ;; repeat_event a e (fst r) (snd r).
Proof.
  revert s c. induction b as [| b IHb]; intros s c.
  - rewrite Nat.add_0_r. reflexivity.
  - rewrite Nat.add_succ_r. cbn [repeat_event].
    destruct (on_event s c e) as [[[s1 c1] effs] | msg]; cbn [bind fst snd];
      [apply IHb | reflexivity].
Qed.

(** X19.  The countdown as the machine runs it.  In each of the three
    sub-flows, from the node [NotResendable] with [resendable] false and
    [resendableAfter] at [n], the first [n] timeouts of [resendableTimeout]
    keep the machine in [NotResendable], each taking one off the
    countdown, and a [RETRY] there is answered by that node alone: it logs
    how long to wait and prepares nothing.  The next timeout finds the
    countdown at zero, sets [resendable] and moves to [Resendable]; there
    [RETRY] reaches the handler above and leads to [Preparing].  So a
    retry is refused until [n + 1] timeouts have passed. *)
Theorem retry_opens_after_the_countdown {K : Constants} {X : Externals}
    (counting waiting preparing : StateId) (c : Context) (n : nat) :
  In (counting, waiting, preparing) countdowns ->
  resendable c = false -> resendableAfter c = Some (Z.of_nat n) ->
  (forall k, (k <= n)%nat ->
     repeat_event k (after_ "resendableTimeout" counting) counting c
     = Ok (counting, set_resend false (Some (Z.of_nat (n - k))) c)
     /\ on_event counting
          (set_resend false (Some (Z.of_nat (n - k))) c) RETRY
        = Ok (counting, set_resend false (Some (Z.of_nat (n - k))) c,
              [Console_log ("Not retriable; Try again in "
                            ++ show_number (Some (Z.of_nat (n - k)))
                            ++ "s")]))
  /\ repeat_event (S n) (after_ "resendableTimeout" counting) counting c
     = Ok (waiting, set_resend true (Some 0%Z) c)
  /\ on_event waiting (set_resend true (Some 0%Z) c) RETRY
     = Ok (preparing, set_resend true (Some 0%Z) c, []).
Proof.
  intros Hin Hr Ha.
  assert (Hrun : forall k c0 m,
            resendable c0 = false -> resendableAfter c0 = Some (Z.of_nat m) ->
            (k <= m)%nat ->
            repeat_event k (after_ "resendableTimeout" counting) counting c0
            = Ok (counting, set_resend false (Some (Z.of_nat (m - k))) c0)).
  { induction k as [| k IH]; intros c0 m Hr0 Ha0 Hk.
    - cbn [repeat_event]. rewrite Nat.sub_0_r.
      destruct c0; cbn in *; subst; reflexivity.
    - cbn [repeat_event].
      rewrite (countdown_step _ _ _ c0 (Z.of_nat m) Hin Hr0 Ha0 ltac:(lia)).
      destruct (Z.eqb_spec (Z.of_nat m) 0); [lia |]. cbn [bind fst snd].
      rewrite (IH _ (m - 1)%nat); [| reflexivity | cbn; f_equal; lia | lia].
      replace (m - 1 - k)%nat with (m - S k)%nat by lia. reflexivity. }
  split; [| split].
  - intros k Hk. split; [apply Hrun; assumption |].
    cbn [countdowns In] in Hin.
    repeat (destruct Hin as [Hin | Hin]; [injection Hin as <- <- <- |]);
      try contradiction; reflexivity.
  - change (S n) with (1 + n)%nat.
    rewrite repeat_event_add. rewrite (Hrun n c n Hr Ha (le_n n)).
    cbn [bind fst snd repeat_event]. rewrite Nat.sub_diag.
    rewrite (countdown_step _ _ _ _ 0%Z Hin); try reflexivity; try lia.
  - cbn [countdowns In] in Hin.
    repeat (destruct Hin as [Hin | Hin]; [injection Hin as <- <- <- |]);
      try contradiction; reflexivity.
Qed.

Lemma retry_opens_after_the_countdown_witness :
  repeat_event (K := Sample.constants) (X := Sample.page) 3
    (after_ "resendableTimeout" EmailCode_Pending_NotResendable)
    EmailCode_Pending_NotResendable
    (set_resend false (Some 2%Z) Sample.verifying)
  = Ok (EmailCode_Pending_Resendable,
        set_resend true (Some 0%Z) Sample.verifying).
Proof.
  exact (proj1 (proj2
    (retry_opens_after_the_countdown (K := Sample.constants)
       (X := Sample.page)
       EmailCode_Pending_NotResendable EmailCode_Pending_Resendable
       EmailCode_Preparing (set_resend false (Some 2%Z) Sample.verifying)
       2%nat (or_intror (or_introl eq_refl)) eq_refl eq_refl))).
Defined.

(** ** The events of the email link *)

(** X20.  The events of the email link are answered by [EmailLink] in
    each of its nodes.  [EMAIL_LINK.FAILED] (when the assertion on error
    events lets it through) sends its error to the form store, stores its
    resource and leads to [Pending]; [EMAIL_LINK.RESTART] re-enters
    [Attempting], at its countdown node [NotResendable], whatever else the
    event carries; an [EMAIL_LINK] event of any other type stores its
    resource and raises [NEXT] with it, the state staying: the two exact
    descriptors come before the wildcard.  Leaving [Preparing] for
    [Pending] or [Attempting] resets the countdown.  Below [Attempting],
    the timeout [emailLinkTimeout] leads to [Pending] and sends the form
    store the error [verify-email-link-timeout]. *)
Theorem email_link_events_are_heard_in_the_whole_sub_flow
    {K : Constants} {X : Externals}
    (active : StateId) (c : Context) (err : ErrorValue) (r : SignUpResource)
    (suffix : string) :
  In EmailLink (chain active) ->
  let left_ :=
    if StateId_beq active EmailLink_Preparing
    then set_resend false (Some RESENDABLE_COUNTDOWN_DEFAULT) c
    else c in
  (assertActorEventError (EMAIL_LINK_FAILED err r) = Ok err ->
   on_event active c (EMAIL_LINK_FAILED err r)
   = Ok (EmailLink_Pending, set_resource (Some r) left_,
         [Form_send (formRef c) (ERRORS_SET err)]))
  /\ (suffix <> "RESTART" -> suffix <> "FAILED" ->
      on_event active c (EMAIL_LINK_other suffix r)
      = Ok (active, set_resource (Some r) c, [Raise (NEXT (Some r)) None]))
  /\ on_event active c EMAIL_LINK_RESTART
     = Ok (EmailLink_Attempting_NotResendable, left_, [])
  /\ on_event active c (EMAIL_LINK_other "RESTART" r)
     = Ok (EmailLink_Attempting_NotResendable, left_, [])
  /\ (In EmailLink_Attempting (chain active) ->
      on_event active c (after_ "emailLinkTimeout" EmailLink_Attempting)
      = Ok (EmailLink_Pending, c,
            [Form_send (formRef c)
               (ERRORS_SET
                  (ClerkElementsError (Some "verify-email-link-timeout")
                     (Some "Email link verification timed out")))])).
Proof.
  intros Hin. cbn zeta.
  destruct active; cbn [chain chain_from parent In] in Hin;
    try (exfalso; intuition discriminate); clear Hin;
    (split; [| split; [| split; [| split]]]);
    try reflexivity;
    match goal with
    | |- assertActorEventError _ = _ -> _ =>
        intros Hf; select_step; run_microstep;
        unfold setFormErrors, sendTo_form, email_link_failed_assign, assign;
        cbn [bind fst snd]; rewrite Hf; reflexivity
    | |- _ <> _ -> _ =>
        intros H1 H2;
        apply String.eqb_neq in H1; apply String.eqb_neq in H2;
        unfold on_event;
        cbn [chain chain_from parent select_in transitions];
        rewrite H1, H2; unfold email_link_wildcard;
        cbn [select guard stay bind]; unfold microstep;
        cbn [target stay actions]; unfold exec_all;
        cbn [run_all timing exec]; unfold email_link_wildcard;
        cbn [email_link_type]; rewrite H1; reflexivity
    | |- In _ _ -> _ =>
        intros Hin'; cbn [chain chain_from parent In] in Hin';
        try (exfalso; intuition discriminate); reflexivity
    end.
Qed.

Lemma email_link_events_are_heard_in_the_whole_sub_flow_witness :
  on_event (K := Sample.constants) (X := Sample.page)
    EmailLink_Attempting_NotResendable Sample.verifying
    (EMAIL_LINK_FAILED (ClerkElementsError (Some "expired") None)
       Sample.unverified_signUp)
  = Ok (EmailLink_Pending, Sample.verifying,
        [Form_send Sample.form
           (ERRORS_SET (ClerkElementsError (Some "expired") None))])
  /\ on_event (K := Sample.constants) (X := Sample.page)
       EmailLink_Attempting_NotResendable Sample.verifying
       (EMAIL_LINK_other "VERIFIED" Sample.unverified_signUp)
     = Ok (EmailLink_Attempting_NotResendable, Sample.verifying,
           [Raise (NEXT (Some Sample.unverified_signUp)) None])
  /\ on_event (K := Sample.constants) (X := Sample.page)
       EmailLink_Attempting_NotResendable Sample.verifying
       (after_ "emailLinkTimeout" EmailLink_Attempting)
     = Ok (EmailLink_Pending, Sample.verifying,
           [Form_send Sample.form
              (ERRORS_SET
                 (ClerkElementsError (Some "verify-email-link-timeout")
                    (Some "Email link verification timed out")))]).
Proof.
  pose proof (email_link_events_are_heard_in_the_whole_sub_flow
                (K := Sample.constants) (X := Sample.page)
                EmailLink_Attempting_NotResendable Sample.verifying
                (ClerkElementsError (Some "expired") None)
                Sample.unverified_signUp
                "VERIFIED" ltac:(cbn; tauto))
    as (Hfailed & Hother & _ & _ & Htimeout).
  split; [exact (Hfailed eq_refl) |].
  split; [apply Hother; discriminate | apply Htimeout; cbn; tauto].
Defined.

(** ** What the status guards read *)

(** X24.  The status guards read the status from the event or the client,
    and the field lists from the client alone.  [statusNeedsContinue] holds
    exactly when the resource of the event or the client's sign-up has the
    status [missing_requirements] and the client's sign-up lists a missing
    field; [statusNeedsVerification] holds exactly when that status is
    there and the client's sign-up lists an unverified field, or when it
    lists a missing field and the query has a value under
    [SEARCH_PARAMS.status].  The lists of the event's resource are never
    read: when the client's sign-up lists neither missing nor unverified
    fields both guards fail on every event, and then a [NEXT] in
    [Start.Attempting] that is no completion is dropped, whatever resource
    it carries. *)
Theorem status_guards_read_the_client_sign_up
    {K : Constants} {X : Externals} (c : Context) (e : Event) :
  let s := signUp (client (clerk c)) in
  let lacking :=
    strict_eq (match event_resource e with
               | Some r => status r
               | None => None
               end) "missing_requirements"
    || strict_eq (status s) "missing_requirements" in
  statusNeedsContinue c e
  = Ok (lacking && (0 <? length (missingFields s))%nat)
  /\ statusNeedsVerification c e
     = Ok (lacking && (0 <? length (unverifiedFields s))%nat
           || (0 <? length (missingFields s))%nat
              && truthy (router_param c SEARCH_PARAMS_status))
  /\ (missingFields s = [] -> unverifiedFields s = [] ->
      statusNeedsContinue c e = Ok false
      /\ statusNeedsVerification c e = Ok false
      /\ forall r,
           isComplete c (NEXT r) = Ok false ->
           on_event Start_Attempting c (NEXT r) = Ok (Start_Attempting, c, [])).
Proof.
  cbn zeta.
  assert (Hc : forall e0,
    statusNeedsContinue c e0
    = Ok ((strict_eq (match event_resource e0 with
                      | Some r => status r
                      | None => None
                      end) "missing_requirements"
           || strict_eq (status (signUp (client (clerk c))))
                "missing_requirements")
          && (0 <? length (missingFields (signUp (client (clerk c)))))%nat)).
  { intros e0.
    unfold statusNeedsContinue, isMissingRequiredFields,
      isStatusMissingRequirements, needsStatus, areFieldsMissing, pure_guard.
    cbn [g_or g_and bind].
    destruct (strict_eq _ _ || strict_eq _ _); cbn [bind andb];
      [destruct (0 <? _)%nat |]; reflexivity. }
  assert (Hv : forall e0,
    statusNeedsVerification c e0
    = Ok ((strict_eq (match event_resource e0 with
                      | Some r => status r
                      | None => None
                      end) "missing_requirements"
           || strict_eq (status (signUp (client (clerk c))))
                "missing_requirements")
          && (0 <? length (unverifiedFields (signUp (client (clerk c)))))%nat
          || (0 <? length (missingFields (signUp (client (clerk c)))))%nat
             && truthy (router_param c SEARCH_PARAMS_status))).
  { intros e0.
    unfold statusNeedsVerification, isMissingRequiredUnverifiedFields,
      isStatusMissingRequirements, needsStatus, areFieldsUnverified,
      areFieldsMissing, hasClerkStatus, pure_guard.
    cbn [g_or g_and bind].
    destruct (strict_eq _ _ || strict_eq _ _); cbn [bind andb orb];
      [destruct (0 <? length (unverifiedFields _))%nat; cbn [bind orb];
       [reflexivity |] |];
      destruct (0 <? length (missingFields _))%nat; cbn [bind andb];
      [destruct (truthy _) | | destruct (truthy _) |]; reflexivity. }
  split; [apply Hc |]. split; [apply Hv |].
  intros Hm Hu.
  assert (Hc' : forall e0, statusNeedsContinue c e0 = Ok false).
  { intros e0. rewrite Hc, Hm. cbn [length Nat.ltb Nat.leb].
    rewrite andb_false_r. reflexivity. }
  assert (Hv' : forall e0, statusNeedsVerification c e0 = Ok false).
  { intros e0. rewrite Hv, Hm, Hu. cbn [length Nat.ltb Nat.leb].
    rewrite andb_false_r. reflexivity. }
  split; [apply Hc' |]. split; [apply Hv' |].
  intros r H1. unfold on_event.
  cbn [chain chain_from parent select_in transitions select guard go stay
       go_reenter g_and bind].
  rewrite H1; cbn [bind].
  destruct (hasTicket c (NEXT r)) as [[|] |] eqn:Ht;
    cbn [bind]; rewrite ?Hc', ?Hv'; cbn [bind]; try reflexivity.
  unfold hasTicket, pure_guard in Ht. discriminate Ht.
Qed.

(** X25.  The status parameter of the query in [Verification].  In
    every node below [Verification] other than [Verification.Init], and
    with no created session named in the query, the eventless transitions
    of [Verification] look at the value under [SEARCH_PARAMS.status]: for
    [verified] the machine navigates internally, with force, to
    [/continue], and for [expired] to the root path, in both cases staying
    in the node it is in with its context; for any other value, and
    without one, there is no eventless step. *)
Theorem status_param_navigates_without_leaving_Verification
    {K : Constants} {X : Externals}
    (active : StateId) (c : Context) (e : Event) :
  In Verification (chain active) -> active <> Verification_Init ->
  hasCreatedSession c e = Ok false ->
  let value := router_param c SEARCH_PARAMS_status in
  on_always active c e
  = Ok (if strict_eq value "verified"
        then Some (active, c, navigated_forced c "/continue")
        else if strict_eq value "expired"
        then Some (active, c, navigated_forced c "/")
        else None).
Proof.
  intros Hin Hne Hc. cbn zeta.
  destruct active; cbn [chain chain_from parent In] in Hin;
    try (exfalso; intuition discriminate);
    try (exfalso; apply Hne; reflexivity);
    unfold on_always;
    cbn [chain chain_from parent select_in always select guard go stay bind];
    rewrite Hc; cbn [bind]; unfold hasClerkStatus, pure_guard; cbn [bind];
    destruct (strict_eq (router_param c SEARCH_PARAMS_status) "verified");
    cbn [bind];
    try (destruct (strict_eq (router_param c SEARCH_PARAMS_status) "expired");
         cbn [bind]);
    try reflexivity;
    unfold microstep; cbn [target stay actions]; unfold exec_all;
    cbn [run_all timing exec nav_forced];
    rewrite custom_runs; cbn [bind fst snd app]; rewrite !app_nil_r;
    reflexivity.
Qed.

Lemma status_param_navigates_without_leaving_Verification_witness :
  on_always (K := Sample.constants) (X := Sample.page)
    EmailLink_Attempting_NotResendable
    (set_resource (Some Sample.unverified_signUp)
       (Sample.context_of (clerk Sample.verifying)
          (Some (Sample.router_at "/sign-up/verify"
                   [("__clerk_status", "verified")]))
          false None))
    RETRY
  = Ok (Some (EmailLink_Attempting_NotResendable,
              set_resource (Some Sample.unverified_signUp)
                (Sample.context_of (clerk Sample.verifying)
                   (Some (Sample.router_at "/sign-up/verify"
                            [("__clerk_status", "verified")]))
                   false None),
              [Router_shallowPush "/sign-up/continue"])).
Proof.
  apply (status_param_navigates_without_leaving_Verification
           (K := Sample.constants) (X := Sample.page));
    [cbn; tauto | discriminate | reflexivity].
Defined.

(** * Properties of the derived auth state *)

Section DeriveStateProperties.
Import DeriveState.

(** X21.  When the state is derived from the loaded client (Clerk is
    loaded, or the server gave no initial state) and it names an
    organization role, then a user and an organization are present, the
    user has memberships, and the role is that of the first membership
    whose organization id is the id of the active organization; the
    permissions and the organization plan of the state come from that same
    membership, and [orgId] and [userId] are the ids of that organization
    and that user. *)
Theorem org_role_comes_from_the_membership_of_the_active_organization
    (clerkLoaded : bool) (state : Resources)
    (initialState : option InitialState) (role : string) :
  clerkLoaded = true \/ initialState = None ->
  orgRole (deriveState clerkLoaded state initialState) = val role ->
  exists u o ms m,
    r_user state = val u /\ r_organization state = val o
    /\ organizationMemberships u = val ms
    /\ find (fun om => String.eqb (om_organization_id om) (organization_id o))
            ms = Some m
    /\ role = om_role m
    /\ orgPermissions (deriveState clerkLoaded state initialState)
       = val (om_permissions m)
    /\ orgPlan (deriveState clerkLoaded state initialState) = om_orgPlan m
    /\ orgId (deriveState clerkLoaded state initialState)
       = val (organization_id o)
    /\ userId (deriveState clerkLoaded state initialState) = val (user_id u).
Proof.
  intros Hbranch.
  assert (Hd : deriveState clerkLoaded state initialState
               = deriveFromClientSideState state).
  { unfold deriveState. destruct Hbranch as [-> | ->]; [reflexivity |].
    destruct (negb clerkLoaded); reflexivity. }
  rewrite Hd. unfold deriveFromClientSideState.
  cbn [orgRole orgPermissions orgPlan orgId userId].
  destruct (r_organization state) as [| | o]; cbn [and_then]; try discriminate.
  destruct (r_user state) as [| | u]; cbn [chain_opt and_then];
    try discriminate.
  destruct (organizationMemberships u) as [| | ms] eqn:Hms;
    cbn [chain_opt and_then]; try discriminate.
  unfold find_js, is_membership_of.
  destruct (find _ ms) as [m |] eqn:Hfind; cbn [and_then]; [| discriminate].
  intros H. injection H as <-.
  exists u, o, ms, m. repeat split; assumption.
Qed.

Lemma org_role_comes_from_the_membership_of_the_active_organization_witness :
  orgRole (deriveState true signed_in None) = val "org:admin"
  /\ orgPermissions (deriveState true signed_in None)
     = val ["org:read"; "org:write"].
Proof.
  destruct (org_role_comes_from_the_membership_of_the_active_organization
              true signed_in None "org:admin" (or_introl eq_refl) eq_refl)
    as (u & o & ms & m & Hu & Ho & Hms & Hm & _ & Hp & _).
  split; [reflexivity |].
  injection Hu as <-. injection Ho as <-. injection Hms as <-.
  injection Hm as <-. exact Hp.
Defined.

(** X22.  Absent values pass through as they are.  With Clerk loaded the
    initial state of the server is ignored, and: a null user gives a null
    [userId] and [plan], an undefined one undefined ones; a null session
    gives a null [sessionId] but an undefined [actor]; a null organization
    gives null [orgId], [orgRole], [orgPermissions] and [orgPlan] but an
    undefined [orgSlug], an undefined one gives all five undefined; and an
    active organization in which the user has no membership gives its id
    as [orgId] with [orgRole], [orgPermissions] and [orgPlan] undefined,
    never null.  Before Clerk is loaded, an initial state of the server is
    returned field by field, whatever the client reports. *)
Theorem absent_values_pass_through_as_they_are
    (state : Resources) (init : InitialState) :
  let d := deriveState true state (Some init) in
  (r_user state = null -> userId d = null /\ plan d = null)
  /\ (r_user state = undefined -> userId d = undefined /\ plan d = undefined)
  /\ (r_session state = null -> sessionId d = null /\ actor d = undefined)
  /\ (r_organization state = null ->
      orgId d = null /\ orgRole d = null /\ orgPermissions d = null
      /\ orgPlan d = null /\ orgSlug d = undefined)
  /\ (r_organization state = undefined ->
      orgId d = undefined /\ orgRole d = undefined
      /\ orgPermissions d = undefined /\ orgPlan d = undefined
      /\ orgSlug d = undefined)
  /\ (forall o,
        r_organization state = val o ->
        (forall u ms,
           r_user state = val u -> organizationMemberships u = val ms ->
           Forall (fun om => om_organization_id om <> organization_id o) ms) ->
        orgId d = val (organization_id o) /\ orgRole d = undefined
        /\ orgPermissions d = undefined /\ orgPlan d = undefined)
  /\ deriveState false state (Some init) = init.
Proof.
  cbn zeta. unfold deriveState. cbn [negb].
  unfold deriveFromClientSideState.
  cbn [userId plan sessionId actor orgId orgRole orgPermissions orgPlan
       orgSlug].
  repeat apply conj; intros; try (rewrite H; repeat split; fail).
  - rewrite H. cbn [and_then chain_opt].
    destruct (r_user state) as [| | u] eqn:Hu; cbn [chain_opt and_then];
      try (repeat split; fail).
    destruct (organizationMemberships u) as [| | ms] eqn:Hms;
      cbn [chain_opt and_then]; try (repeat split; fail).
    specialize (H0 u ms eq_refl Hms).
    assert (Hnone : find_js (is_membership_of (val (organization_id o))) ms
                    = undefined).
    { unfold find_js.
      destruct (find _ ms) as [m |] eqn:Hf; [| reflexivity].
      apply find_some in Hf. destruct Hf as [Hin Heq].
      rewrite Forall_forall in H0. specialize (H0 m Hin).
      unfold is_membership_of in Heq. apply String.eqb_eq in Heq.
      contradiction. }
    rewrite Hnone. repeat split.
  - destruct init. reflexivity.
Qed.

End DeriveStateProperties.

(** * Properties of the public user data *)

Section PublicUserDataProperties.
Import PublicUserData.

(** X23.  Round trips.  The instance built from the JSON form of an
    instance is that instance, and [fromJSON] with that JSON form
    overwrites every field of whatever instance it is called on.  The
    JSON form of the instance built from a JSON value keeps its six data
    fields; its [object] is always [public_user_data] and its [id] is the
    user id, or the empty string without one: the [id] and [object] the
    value came with are not kept.  [fromJSON] with null or undefined
    changes nothing, and an instance nothing was assigned to has the
    empty [id] in its JSON form. *)
Theorem PublicUserData_json_round_trip
    (this other : t) (data : PublicUserDataJSON) :
  fromJSON other (val (toJSON this)) = this
  /\ new (val (toJSON this)) = this
  /\ toJSON (new (val data))
     = {| object := "public_user_data";
          id := or_empty (user_id data);
          first_name := first_name data;
          last_name := last_name data;
          image_url := image_url data;
          has_image := has_image data;
          identifier := identifier data;
          user_id := user_id data |}
  /\ fromJSON this null = this /\ fromJSON this undefined = this
  /\ id (toJSON blank) = "".
Proof.
  destruct this. repeat split.
Qed.

End PublicUserDataProperties.
